(** * ab5: deduplicated fan-out of betting signals

    A shallow embedding of the distribution engine of the bot
    ([src/main.py]) and of the SQLite-backed store it runs on
    ([src/database.py]), with the properties of the specification that
    concern fingerprints, the two ledgers, the pause controller, the
    bookmaker filter and the per-recipient failure handling, and with
    further properties of the engine, of the store's interface, of the
    administration handlers and of rendering and retrying.

    Conventions of the embedding.
    - Python [str] is [string]; a character is a code point below 256.
      On that range [str.strip] and the regex class [\d] are modelled
      exactly ([is_space], [is_digit]).
    - A prediction is the [dict] the parser yields: a finite map from
      field names to strings, read with [.get(k, '')].
    - Every timestamp (SQLite [datetime("now")], [CURRENT_TIMESTAMP],
      Python [datetime.now()]) is a number of seconds on one clock, an
      integer; a SQL [NULL] timestamp is [None].  The clock moves only
      when the engine sleeps.  Two timestamps that SQLite wrote, or two
      that Python holds, compare as these instants.  A timestamp that
      Python wrote is stored as the text of [isoformat()], with a [T]
      between date and time, where [datetime("now")] has a space: when
      SQL compares the two as text the calendar dates decide, and on the
      same date the Python text is the larger one.
    - A table with a single-column text primary key that is only looked
      up by key is a [gmap]; tables that are scanned are lists of rows in
      storage order.
    - The Telegram API is an oracle: the reply to the [n]-th call that
      the fan-out makes in a run is a function of [n] and of the chat
      addressed.  Quantifying over the oracle covers every behaviour of
      the network.
    - [main.py] imports [aiogram.enums], [aiogram.fsm] and
      [aiogram.filters], which exist from aiogram 3 on.  The module
      [aiogram.exceptions] of that library has none of the names that
      the [except] clauses of the fan-out use ([ChatNotFound],
      [BotKicked], [ChatWriteForbidden], [RetryAfter], [BotBlocked],
      [UserDeactivated]): when an exception reaches such a clause,
      evaluating the clause raises [AttributeError], which leaves the
      [try] statement and the fan-out.
    - [schedule_next_run] works on the scheduler, the settings and the
      wall clock and may send a notice to [ADMIN_ID].  None of this is in
      the world of the model; what the fan-out sees of a call is whether
      it returns or raises (it raises when its error notice cannot be
      sent), and that is the environment's choice.  The same holds for
      the notices and the re-arming of the pass itself, which come after
      the last write to the store. *)

From Stdlib Require Import ZArith String Ascii List Bool Lia.
From stdpp Require Import gmap strings list sorting.

Local Open Scope Z_scope.

(** ** Python strings *)

Module PyStr.

(** [str.isspace] on one character, for code points below 256:
    TAB..CR, FS..US, SPACE, NEL and NBSP. *)
Definition is_space (c : ascii) : bool :=
  let n := N_of_ascii c in
  ((9 <=? n) && (n <=? 13) || (28 <=? n) && (n <=? 32)
   || (n =? 133) || (n =? 160))%N.

(** The regex class [\d] on code points below 256: the ten ASCII digits. *)
Definition is_digit (c : ascii) : bool :=
  let n := N_of_ascii c in ((48 <=? n) && (n <=? 57))%N.

Fixpoint lstrip (s : string) : string :=
  match s with
  | EmptyString => EmptyString
  | String c s' => if is_space c then lstrip s' else s
  end.

Fixpoint rstrip (s : string) : string :=
  match s with
  | EmptyString => EmptyString
  | String c s' =>
      match rstrip s' with
      | EmptyString => if is_space c then EmptyString else String c EmptyString
      | r => String c r
      end
  end.

(** [s.strip()] *)
Definition strip (s : string) : string := rstrip (lstrip s).

(** [re.match(r'(\d{2}/\d{2})', s)]: the match is anchored at the start
    of [s]; the result is group 1 when the pattern matches. *)
Definition re_match_date (s : string) : option string :=
  match s with
  | String a (String b (String c (String d (String e _))) ) =>
      if is_digit a && is_digit b && Ascii.eqb c "/" && is_digit d && is_digit e
      then Some (String a (String b (String c (String d (String e EmptyString)))))
      else None
  | _ => None
  end.

End PyStr.

(** ** Predictions and fingerprints ([main.py]) *)

(** The record the parser produces for one table row. *)
Abbreviation prediction := (gmap string string).

(** [prediction_data.get(k, '')] *)
Definition get (prediction_data : prediction) (k : string) : string :=
  default EmptyString (prediction_data !! k).

(** [date_short = date_match.group(1) if date_match else date] *)
Definition date_short (date : string) : string :=
  match PyStr.re_match_date date with
  | Some g => g
  | None => date
  end.

Definition get_match_key (prediction_data : prediction) : string :=
  let bookmaker := PyStr.strip (get prediction_data "bookmaker") in
  let sport := PyStr.strip (get prediction_data "sport") in
  let date := PyStr.strip (get prediction_data "date") in
  let teams := PyStr.strip (get prediction_data "teams") in
  sport +:+ "|" +:+ date_short date +:+ "|" +:+ teams.

(** The wording of the specification for the date component: the first
    five characters when they read digit digit slash digit digit, the
    whole string otherwise. *)
Definition digit_at (i : nat) (s : string) : bool :=
  match String.get i s with
  | Some c => PyStr.is_digit c
  | None => false
  end.

Definition slash_at (i : nat) (s : string) : bool :=
  match String.get i s with
  | Some c => Ascii.eqb c "/"
  | None => false
  end.

Definition has_day_month_prefix (s : string) : bool :=
  digit_at 0 s && digit_at 1 s && slash_at 2 s && digit_at 3 s && digit_at 4 s.

Definition spec_date_component (s : string) : string :=
  if has_day_month_prefix s then String.substring 0 5 s else s.

(** ** The store ([database.py]) *)

Module database.

(** Table [users]; [user_id] is the primary key. *)
Record user_row := UserRow {
  user_id : Z;
  username : option string;
  is_admin : bool;
  end_date : option Z;
  is_paused : bool;
  pause_until : option Z
}.

(** Table [user_predictions], one row per delivery to a user. *)
Record user_prediction_row := UserPredictionRow {
  up_user_id : Z;
  up_prediction_key : string;
  up_sent_at : Z
}.

(** Table [bookmakers]. *)
Record bookmaker_row := BookmakerRow {
  bookmaker_id : Z;
  bookmaker_name : string;
  bookmaker_is_active : bool
}.

(** Table [user_bookmakers]. *)
Record user_bookmaker_row := UserBookmakerRow {
  ub_user_id : Z;
  ub_bookmaker_id : Z
}.

(** Table [channels]; [channel_id] is the primary key. *)
Record channel_row := ChannelRow {
  channel_id : Z;
  channel_name : string;
  channel_is_active : bool;
  created_at : Z
}.

(** Table [channel_bookmakers]. *)
Record channel_bookmaker_row := ChannelBookmakerRow {
  cb_channel_id : Z;
  cb_bookmaker_id : Z;
  cb_is_selected : bool
}.

(** Table [signal_limits]; rows in the order of their autoincrement id. *)
Record signal_limits_row := SignalLimits {
  max_signals_per_day : Z;
  pause_after_signals : Z;
  pause_duration_hours : Z
}.

(** The database file.  [sent_predictions] maps [prediction_key], its
    primary key, to [sent_at]. *)
Record t := Db {
  users : list user_row;
  sent_predictions : gmap string Z;
  user_predictions : list user_prediction_row;
  bookmakers : list bookmaker_row;
  user_bookmakers : list user_bookmaker_row;
  channels : list channel_row;
  channel_bookmakers : list channel_bookmaker_row;
  signal_limits : list signal_limits_row
}.

Definition set_users (us : list user_row) (db : t) : t :=
  Db us (sent_predictions db) (user_predictions db) (bookmakers db)
     (user_bookmakers db) (channels db) (channel_bookmakers db)
     (signal_limits db).

Definition set_sent_predictions (sp : gmap string Z) (db : t) : t :=
  Db (users db) sp (user_predictions db) (bookmakers db)
     (user_bookmakers db) (channels db) (channel_bookmakers db)
     (signal_limits db).

Definition set_user_predictions (ups : list user_prediction_row) (db : t) : t :=
  Db (users db) (sent_predictions db) ups (bookmakers db)
     (user_bookmakers db) (channels db) (channel_bookmakers db)
     (signal_limits db).

Definition set_channels (cs : list channel_row) (db : t) : t :=
  Db (users db) (sent_predictions db) (user_predictions db) (bookmakers db)
     (user_bookmakers db) cs (channel_bookmakers db) (signal_limits db).

Definition set_user_bookmakers (ubs : list user_bookmaker_row) (db : t) : t :=
  Db (users db) (sent_predictions db) (user_predictions db) (bookmakers db)
     ubs (channels db) (channel_bookmakers db) (signal_limits db).

Definition seconds_per_hour : Z := 3600.
Definition seconds_per_day : Z := 86400.

(** SQLite [date(t)]: the calendar day of a timestamp. *)
Definition date (t : Z) : Z := t `div` seconds_per_day.

(** [UPDATE users SET ... WHERE <cond>] *)
Definition update_users (cond : user_row -> bool)
    (set : user_row -> user_row) (db : t) : t :=
  set_users (List.map (fun r => if cond r then set r else r) (users db)) db.

Definition has_user_id (uid : Z) (r : user_row) : bool :=
  bool_decide (user_id r = uid).

(** [INSERT OR IGNORE INTO users (user_id, username, is_admin)]: the
    insert is dropped when the primary key is taken; the other columns
    take their defaults. *)
Definition add_user (uid : Z) (uname : option string) (admin : bool)
    (db : t) : t :=
  if existsb (has_user_id uid) (users db) then db
  else set_users (users db ++ [UserRow uid uname admin None false None]) db.

(** [SELECT * FROM users WHERE user_id = ?], [fetchone()] *)
Definition get_user (uid : Z) (db : t) : option user_row :=
  List.find (has_user_id uid) (users db).

Definition get_all_users (db : t) : list user_row := users db.

(** [WHERE end_date > datetime("now") AND is_paused = FALSE].  [end_date]
    holds the text of [isoformat()] ([update_subscription]), so the
    comparison is one of texts: it holds when the date of [end_date] is
    not before the date of now.  A [NULL] [end_date] never satisfies it. *)
Definition is_active_user (now : Z) (r : user_row) : bool :=
  match end_date r with
  | Some e => (date now <=? date e) && negb (is_paused r)
  | None => false
  end.

Definition get_all_active_users (now : Z) (db : t) : list user_row :=
  List.filter (is_active_user now) (users db).

Definition pause_subscription (uid : Z) (db : t) : t :=
  update_users (has_user_id uid)
    (fun r => UserRow (user_id r) (username r) (is_admin r) (end_date r)
                true (pause_until r)) db.

Definition unpause_subscription (uid : Z) (db : t) : t :=
  update_users (has_user_id uid)
    (fun r => UserRow (user_id r) (username r) (is_admin r) (end_date r)
                false (pause_until r)) db.

(** [INSERT OR IGNORE INTO sent_predictions (prediction_key)]; the
    column [sent_at] defaults to the current timestamp. *)
Definition add_sent_prediction (now : Z) (prediction_key : string)
    (db : t) : t :=
  match sent_predictions db !! prediction_key with
  | Some _ => db
  | None => set_sent_predictions (<[prediction_key := now]> (sent_predictions db)) db
  end.

(** [SELECT COUNT( * ) ... WHERE prediction_key = ?] compared with 0. *)
Definition is_prediction_sent (prediction_key : string) (db : t) : bool :=
  bool_decide (is_Some (sent_predictions db !! prediction_key)).

(** [DELETE FROM sent_predictions WHERE sent_at < datetime("now", "-7 days")] *)
Definition delete_old_predictions (now : Z) (db : t) : t :=
  set_sent_predictions
    (filter (fun kt : string * Z => ¬ (kt.2 < now - 7 * seconds_per_day))
            (sent_predictions db)) db.

Definition add_user_prediction (now : Z) (uid : Z) (prediction_key : string)
    (db : t) : t :=
  set_user_predictions
    (user_predictions db ++ [UserPredictionRow uid prediction_key now]) db.

(** [WHERE user_id = ? AND date(sent_at) = date('now')] *)
Definition sent_today (now : Z) (uid : Z) (r : user_prediction_row) : bool :=
  bool_decide (up_user_id r = uid) && bool_decide (date (up_sent_at r) = date now).

Definition get_user_daily_signal_count (now : Z) (uid : Z) (db : t) : Z :=
  Z.of_nat (length (List.filter (sent_today now uid) (user_predictions db))).

Definition delete_old_user_predictions (now : Z) (db : t) : t :=
  set_user_predictions
    (List.filter (fun r => negb (up_sent_at r <? now - 7 * seconds_per_day))
                 (user_predictions db)) db.

(** [pause_until = datetime.now() + timedelta(hours=hours)] *)
Definition set_user_pause (now : Z) (uid : Z) (hours : Z) (db : t) : t :=
  update_users (has_user_id uid)
    (fun r => UserRow (user_id r) (username r) (is_admin r) (end_date r)
                true (Some (now + hours * seconds_per_hour))) db.

(** Returns the answer and the store, which [unpause_subscription] may
    have written. *)
Definition is_user_paused (now : Z) (uid : Z) (db : t) : bool * t :=
  match get_user uid db with
  | None => (false, db)
  | Some result =>
      if negb (is_paused result) then (false, db)
      else
        match pause_until result with
        | Some pu =>
            if pu <? now then (false, unpause_subscription uid db)
            else (true, db)
        | None => (true, db)
        end
  end.

(** [UPDATE users SET is_paused = FALSE WHERE pause_until < datetime("now")].
    [pause_until] holds the text of [isoformat()] ([set_user_pause]), so
    the comparison is one of texts: it holds when the date of
    [pause_until] is before the date of now. *)
Definition check_and_resume_users (now : Z) (db : t) : t :=
  update_users
    (fun r => match pause_until r with
              | Some pu => date pu <? date now
              | None => false
              end)
    (fun r => UserRow (user_id r) (username r) (is_admin r) (end_date r)
                false (pause_until r)) db.

(** [SELECT b.* FROM bookmakers b JOIN user_bookmakers ub
     ON b.id = ub.bookmaker_id WHERE ub.user_id = ? AND b.is_active = TRUE] *)
Definition get_user_bookmakers (uid : Z) (db : t) : list bookmaker_row :=
  flat_map
    (fun b =>
       flat_map
         (fun ub =>
            if bool_decide (bookmaker_id b = ub_bookmaker_id ub)
               && bool_decide (ub_user_id ub = uid)
               && bookmaker_is_active b
            then [b] else [])
         (user_bookmakers db))
    (bookmakers db).

(** [DELETE FROM user_bookmakers WHERE user_id = ?], the first statement
    of [update_user_bookmakers]. *)
Definition clear_user_bookmakers (uid : Z) (db : t) : t :=
  set_user_bookmakers
    (List.filter (fun ub => negb (bool_decide (ub_user_id ub = uid)))
                 (user_bookmakers db)) db.

(** [update_user_bookmakers(user_id, bookmaker_ids)]: the old rows go and
    one row per id comes.  A repeated id violates the primary key; the
    exception leaves the function before [commit], so nothing is written
    ([None]). *)
Definition update_user_bookmakers (uid : Z) (bookmaker_ids : list Z) (db : t)
    : option t :=
  if bool_decide (NoDup bookmaker_ids) then
    let db := clear_user_bookmakers uid db in
    Some (set_user_bookmakers
            (user_bookmakers db ++ List.map (UserBookmakerRow uid) bookmaker_ids)
            db)
  else None.

(** [ORDER BY name] *)
Definition name_le (a b : string) : Prop := String.leb a b = true.

#[export] Instance name_le_dec (a b : string) : Decision (name_le a b).
Proof. unfold name_le. apply _. Defined.

Definition get_all_channels (db : t) : list channel_row :=
  merge_sort (fun a b => name_le (channel_name a) (channel_name b))
             (channels db).

(** [update_channel(channel_id, is_active=..., name=...)]; [None] is
    Python's [None]. *)
Definition update_channel (cid : Z) (is_active : option bool)
    (name : option string) (db : t) : t :=
  set_channels
    (List.map
       (fun r =>
          if bool_decide (channel_id r = cid) then
            ChannelRow (channel_id r)
              (default (channel_name r) name)
              (default (channel_is_active r) is_active)
              (created_at r)
          else r)
       (channels db)) db.

(** [SELECT b.*, cb.is_selected FROM bookmakers b JOIN channel_bookmakers cb
     ON b.id = cb.bookmaker_id WHERE cb.channel_id = ? AND b.is_active = TRUE
     ORDER BY b.name] *)
Definition get_channel_bookmakers (cid : Z) (db : t)
    : list (bookmaker_row * bool) :=
  merge_sort (fun x y => name_le (bookmaker_name x.1) (bookmaker_name y.1))
    (flat_map
       (fun b =>
          flat_map
            (fun cb =>
               if bool_decide (bookmaker_id b = cb_bookmaker_id cb)
                  && bool_decide (cb_channel_id cb = cid)
                  && bookmaker_is_active b
               then [(b, cb_is_selected cb)] else [])
            (channel_bookmakers db))
       (bookmakers db)).

(** [SELECT * FROM signal_limits ORDER BY id DESC LIMIT 1], with the
    defaults of the source when the table is empty. *)
Definition get_signal_limits (db : t) : signal_limits_row :=
  match last (signal_limits db) with
  | Some result => result
  | None => SignalLimits 10 5 24
  end.

(** *** The rest of the store's interface *)

Definition set_bookmakers (bs : list bookmaker_row) (db : t) : t :=
  Db (users db) (sent_predictions db) (user_predictions db) bs
     (user_bookmakers db) (channels db) (channel_bookmakers db)
     (signal_limits db).

Definition set_channel_bookmakers (cbs : list channel_bookmaker_row) (db : t) : t :=
  Db (users db) (sent_predictions db) (user_predictions db) (bookmakers db)
     (user_bookmakers db) (channels db) cbs (signal_limits db).

Definition set_signal_limits_table (ls : list signal_limits_row) (db : t) : t :=
  Db (users db) (sent_predictions db) (user_predictions db) (bookmakers db)
     (user_bookmakers db) (channels db) (channel_bookmakers db) ls.


(** [UPDATE users SET end_date = NULL WHERE user_id = ?] *)
Definition cancel_subscription (uid : Z) (db : t) : t :=
  update_users (has_user_id uid)
    (fun r => UserRow (user_id r) (username r) (is_admin r) None
                (is_paused r) (pause_until r)) db.

(** [UPDATE users SET is_admin = TRUE WHERE user_id = ?] *)
Definition make_admin (uid : Z) (db : t) : t :=
  update_users (has_user_id uid)
    (fun r => UserRow (user_id r) (username r) true (end_date r)
                (is_paused r) (pause_until r)) db.

(** [INSERT OR IGNORE INTO bookmakers (name)]: [name] is [UNIQUE], the row
    is active by default.  [rowid] is the id AUTOINCREMENT hands out. *)
Definition add_bookmaker (rowid : Z) (name : string) (db : t) : t :=
  if existsb (fun b => bool_decide (bookmaker_name b = name)) (bookmakers db)
  then db
  else set_bookmakers (bookmakers db ++ [BookmakerRow rowid name true]) db.

(** [SELECT * FROM bookmakers ORDER BY name] *)
Definition get_all_bookmakers (db : t) : list bookmaker_row :=
  merge_sort (fun a b => name_le (bookmaker_name a) (bookmaker_name b))
             (bookmakers db).

(** [UPDATE bookmakers SET is_active = ? WHERE id = ?] *)
Definition toggle_bookmaker (bid : Z) (is_active : bool) (db : t) : t :=
  set_bookmakers
    (List.map
       (fun b => if bool_decide (bookmaker_id b = bid)
                 then BookmakerRow (bookmaker_id b) (bookmaker_name b) is_active
                 else b)
       (bookmakers db)) db.

Definition is_channel_bookmaker (cid bid : Z) (cb : channel_bookmaker_row) : bool :=
  bool_decide (cb_channel_id cb = cid) && bool_decide (cb_bookmaker_id cb = bid).

(** [INSERT OR IGNORE INTO channel_bookmakers (channel_id, bookmaker_id,
    is_selected)]: the pair of ids is the primary key. *)
Definition insert_or_ignore_channel_bookmaker (cid : Z) (sel : bool)
    (cbs : list channel_bookmaker_row) (bid : Z) : list channel_bookmaker_row :=
  if existsb (is_channel_bookmaker cid bid) cbs then cbs
  else cbs ++ [ChannelBookmakerRow cid bid sel].

(** [add_channel(channel_id, name)]: [INSERT OR REPLACE INTO channels
    (channel_id, name)] drops a row with the same id and writes a fresh
    one, active and created now; then every bookmaker gets a selected row
    for the channel unless it has one. *)
Definition add_channel (now : Z) (cid : Z) (name : string) (db : t) : t :=
  let db :=
    set_channels
      (List.filter (fun r => negb (bool_decide (channel_id r = cid))) (channels db)
       ++ [ChannelRow cid name true now]) db in
  let bookmakers := get_all_bookmakers db in
  set_channel_bookmakers
    (fold_left (insert_or_ignore_channel_bookmaker cid true)
               (List.map bookmaker_id bookmakers) (channel_bookmakers db)) db.

(** [SELECT * FROM channels WHERE channel_id = ?], [fetchone()] *)
Definition get_channel (cid : Z) (db : t) : option channel_row :=
  List.find (fun r => bool_decide (channel_id r = cid)) (channels db).

(** [DELETE FROM channels ...; DELETE FROM channel_bookmakers ...] *)
Definition delete_channel (cid : Z) (db : t) : t :=
  set_channel_bookmakers
    (List.filter (fun cb => negb (bool_decide (cb_channel_id cb = cid)))
                 (channel_bookmakers db))
    (set_channels
       (List.filter (fun r => negb (bool_decide (channel_id r = cid)))
                    (channels db)) db).

(** [INSERT OR REPLACE INTO channel_bookmakers (channel_id, bookmaker_id,
    is_selected)] *)
Definition update_channel_bookmaker (cid bid : Z) (is_selected : bool)
    (db : t) : t :=
  set_channel_bookmakers
    (List.filter (fun cb => negb (is_channel_bookmaker cid bid cb))
                 (channel_bookmakers db)
     ++ [ChannelBookmakerRow cid bid is_selected]) db.

(** [get_selected_channel_bookmakers(channel_id=None)]: [if channel_id:]
    sends [None] and the id 0 down the branch without a channel. *)
Definition get_selected_channel_bookmakers (channel_id : option Z) (db : t)
    : list bookmaker_row :=
  let for_channel :=
    match channel_id with
    | Some cid => if bool_decide (cid = 0) then None else Some cid
    | None => None
    end in
  flat_map
    (fun b =>
       flat_map
         (fun cb =>
            if bool_decide (bookmaker_id b = cb_bookmaker_id cb)
               && match for_channel with
                  | Some cid => bool_decide (cb_channel_id cb = cid)
                  | None => true
                  end
               && cb_is_selected cb && bookmaker_is_active b
            then [b] else [])
         (channel_bookmakers db))
    (bookmakers db).

(** [INSERT INTO signal_limits (...)]: a new row with the next id. *)
Definition set_signal_limits (max_signals pause_after pause_hours : Z)
    (db : t) : t :=
  set_signal_limits_table
    (signal_limits db ++ [SignalLimits max_signals pause_after pause_hours]) db.

End database.

(** ** The Telegram boundary *)

(** What an awaited call can raise: the classes of aiogram 3 for a rate
    limit, a refusal, a bad request and a network failure, any other
    exception, and the [AttributeError] of an [except] clause that names
    a missing attribute of [aiogram.exceptions]. *)
Inductive exn :=
| TelegramRetryAfter (retry_after : Z)
| TelegramForbiddenError
| TelegramBadRequest
| TelegramNetworkError
| OtherError
| AttributeError.

(** What an awaited call does: return a value or raise. *)
Inductive reply (A : Type) :=
| Returned (a : A)
| Raised (e : exn).
Arguments Returned {A} a.
Arguments Raised {A} e.

(** The part of [ChatMember] the engine reads:
    [status == ChatMemberStatus.ADMINISTRATOR] and [can_post_messages]. *)
Record chat_member := ChatMember {
  is_administrator : bool;
  can_post_messages : bool
}.

(** The environment of a run: the reply to the API call number [n] of the
    fan-out, addressed to a chat, and how the [n]-th call of
    [schedule_next_run] ends. *)
Record telegram := Telegram {
  get_chat_member : nat -> Z -> reply chat_member;
  send_message : nat -> Z -> reply unit;
  rescheduling : nat -> reply unit
}.

(** What the engine does to its recipients, in order.  A [Send] carries
    the prediction the message was rendered from and the reply it got. *)
Inductive event :=
| GetChatMember (chat : Z)
| Send (chat : Z) (pred : prediction) (r : reply unit)
| Sleep (secs : Z).

(** The state a run threads: the store, the clock, the number of API
    calls made, the events so far (oldest first) and the number of times
    the job was re-armed. *)
Record world := World {
  store : database.t;
  now : Z;
  calls : nat;
  trace : list event;
  rearmed : nat
}.

Definition with_store (f : database.t -> database.t) (w : world) : world :=
  World (f (store w)) (now w) (calls w) (trace w) (rearmed w).

(** [await bot.send_message(chat, formatted_message, ...)] *)
Definition bot_send_message (tg : telegram) (chat : Z) (pred : prediction)
    (w : world) : reply unit * world :=
  let r := send_message tg (calls w) chat in
  (r, World (store w) (now w) (S (calls w)) (trace w ++ [Send chat pred r])
        (rearmed w)).

(** [await bot.get_chat_member(chat, bot.id)] *)
Definition bot_get_chat_member (tg : telegram) (chat : Z) (w : world)
    : reply chat_member * world :=
  let r := get_chat_member tg (calls w) chat in
  (r, World (store w) (now w) (S (calls w)) (trace w ++ [GetChatMember chat])
        (rearmed w)).

(** [await asyncio.sleep(secs)]: the only way the clock of the model moves. *)
Definition asyncio_sleep (secs : Z) (w : world) : world :=
  World (store w) (now w + Z.max 0 secs) (calls w) (trace w ++ [Sleep secs])
        (rearmed w).

(** [await schedule_next_run()], as the fan-out sees it. *)
Definition schedule_next_run (tg : telegram) (w : world) : world * reply unit :=
  (World (store w) (now w) (calls w) (trace w) (S (rearmed w)),
   rescheduling tg (rearmed w)).

(** ** The distribution engine ([main.py]) *)

(** The three counters of a fan-out loop. *)
Record tally := Tally {
  sent : Z;
  skipped : Z;
  errors : Z
}.

Definition no_tally : tally := Tally 0 0 0.
Definition count_sent (t : tally) : tally := Tally (sent t + 1) (skipped t) (errors t).
Definition count_skipped (t : tally) : tally := Tally (sent t) (skipped t + 1) (errors t).
Definition count_error (t : tally) : tally := Tally (sent t) (skipped t) (errors t + 1).

(** [x in names] *)
Definition mem (x : string) (names : list string) : bool :=
  bool_decide (x ∈ names).

(** [if channel_bk_names and bookmaker_name not in channel_bk_names] is
    the skip; this is its negation. *)
Definition channel_accepts (db : database.t) (cid : Z) (bookmaker_name : string)
    : bool :=
  let channel_bookmakers := database.get_channel_bookmakers cid db in
  let channel_bk_names :=
    List.map (fun bk => database.bookmaker_name bk.1)
             (List.filter (fun bk => bk.2) channel_bookmakers) in
  negb (negb (bool_decide (channel_bk_names = [])) && negb (mem bookmaker_name channel_bk_names)).

(** [if user_bookmakers: ... if bookmaker_name not in user_bk_names] is
    the skip; this is its negation. *)
Definition user_accepts (db : database.t) (uid : Z) (bookmaker_name : string)
    : bool :=
  let user_bookmakers := database.get_user_bookmakers uid db in
  match user_bookmakers with
  | [] => true
  | _ =>
      let user_bk_names := List.map database.bookmaker_name user_bookmakers in
      mem bookmaker_name user_bk_names
  end.

(** An exception [e] reaches [except exceptions.<name>:].  Python
    evaluates the expression of the clause before it looks at [e]; the
    module has no attribute of that name, so the clause raises
    [AttributeError] and neither its body nor a later clause of the same
    [try] statement is entered. *)
Definition except_exceptions (e : exn) : exn := AttributeError.

(** The body of [for channel in channels]: the world it leaves, and the
    counters when it gets to its end or the exception that leaves it.  An
    exception of [get_chat_member] meets [except exceptions.ChatNotFound]
    of the inner [try], and what that raises meets
    [except exceptions.ChatWriteForbidden] of the outer one, as does an
    exception of the send. *)
Definition send_to_channel (tg : telegram) (pred : prediction)
    (bookmaker_name : string) (st : world * tally)
    (channel : database.channel_row) : world * reply tally :=
  let (w, t) := st in
  let channel_id := database.channel_id channel in
  if negb (database.channel_is_active channel) then (w, Returned (count_skipped t))
  else if negb (channel_accepts (store w) channel_id bookmaker_name)
  then (w, Returned (count_skipped t))
  else
    match bot_get_chat_member tg channel_id w with
    | (Returned chat_member, w) =>
        if negb (is_administrator chat_member) then (w, Returned (count_error t))
        else if negb (can_post_messages chat_member)
        then (w, Returned (count_error t))
        else
          match bot_send_message tg channel_id pred w with
          | (Returned _, w) => (w, Returned (count_sent t))
          | (Raised e, w) => (w, Raised (except_exceptions e))
          end
    | (Raised e, w) => (w, Raised (except_exceptions (except_exceptions e)))
    end.

(** The body of [for user in users].  An exception of the send meets
    [except exceptions.BotBlocked]. *)
Definition send_to_user (tg : telegram) (pred : prediction)
    (bookmaker_name prediction_key : string)
    (signal_limits : database.signal_limits_row) (st : world * tally)
    (user : database.user_row) : world * reply tally :=
  let (w, t) := st in
  let user_id := database.user_id user in
  let max_per_day := database.max_signals_per_day signal_limits in
  let pause_after := database.pause_after_signals signal_limits in
  let (paused, db) := database.is_user_paused (now w) user_id (store w) in
  let w := with_store (fun _ => db) w in
  if paused then (w, Returned (count_skipped t))
  else
    let daily_count := database.get_user_daily_signal_count (now w) user_id (store w) in
    if max_per_day <=? daily_count then (w, Returned (count_skipped t))
    else if negb (user_accepts (store w) user_id bookmaker_name)
    then (w, Returned (count_skipped t))
    else
      match bot_send_message tg user_id pred w with
      | (Returned _, w) =>
          let w := with_store (database.add_user_prediction (now w) user_id prediction_key) w in
          let t := count_sent t in
          let new_daily_count := daily_count + 1 in
          if pause_after <=? new_daily_count
          then (with_store (database.set_user_pause (now w) user_id
                              (database.pause_duration_hours signal_limits)) w,
                Returned t)
          else (w, Returned t)
      | (Raised e, w) => (w, Raised (except_exceptions e))
      end.

(** [for x in xs: <body>], with the counters of the loop: left at the
    first exception. *)
Fixpoint for_each {A : Type} (body : world * tally -> A -> world * reply tally)
    (xs : list A) (st : world * tally) : world * reply tally :=
  match xs with
  | [] => (st.1, Returned st.2)
  | x :: xs =>
      match body st x with
      | (w, Returned t) => for_each body xs (w, t)
      | (w, Raised e) => (w, Raised e)
      end
  end.

(** [send_prediction_to_user_and_channel(prediction_data)]: the world it
    leaves, and whether it returns or raises.  Rendering the message
    touches neither the store nor a recipient and is left out. *)
Definition send_prediction_to_user_and_channel (tg : telegram)
    (prediction_data : prediction) (w : world) : world * reply unit :=
  let bookmaker_name := PyStr.strip (get prediction_data "bookmaker") in
  let prediction_key := get_match_key prediction_data in
  if bool_decide (bookmaker_name = EmptyString) then (w, Returned tt)
  else
    let channels := database.get_all_channels (store w) in
    match for_each (send_to_channel tg prediction_data bookmaker_name)
                   channels (w, no_tally) with
    | (w, Raised e) => (w, Raised e)
    | (w, Returned channel_tally) =>
        let users := database.get_all_active_users (now w) (store w) in
        match users with
        | [] => schedule_next_run tg w
        | _ =>
            let signal_limits := database.get_signal_limits (store w) in
            match for_each (send_to_user tg prediction_data bookmaker_name
                                         prediction_key signal_limits)
                           users (w, no_tally) with
            | (w, Raised e) => (w, Raised e)
            | (w, Returned user_tally) =>
                let w :=
                  if (0 <? sent channel_tally) || (0 <? sent user_tally)
                  then with_store
                         (database.add_sent_prediction (now w) prediction_key) w
                  else w in
                schedule_next_run tg w
            end
        end
    end.

(** [_filter_and_clean_prediction] returns its argument; the caller drops
    a falsy result, which for a [dict] is the empty one. *)
Definition _filter_and_clean_prediction (prediction_data : prediction)
    : prediction := prediction_data.

(** The first loop of the pass: the predictions whose key is not in the
    ledger, each with its key. *)
Definition new_predictions_to_send (db : database.t)
    (predictions : list prediction) : list (string * prediction) :=
  flat_map
    (fun p =>
       let filtered_p := _filter_and_clean_prediction p in
       if bool_decide (filtered_p = ∅) then []
       else
         let key := get_match_key filtered_p in
         if database.is_prediction_sent key db then []
         else [(key, filtered_p)])
    predictions.

(** The body of the second loop of the pass: [add_sent_prediction] and
    the sleep follow the fan-out inside the [try]; [except Exception]
    goes on to the next prediction. *)
Definition send_one (tg : telegram) (w : world) (kp : string * prediction)
    : world :=
  let (key, pred) := kp in
  match send_prediction_to_user_and_channel tg pred w with
  | (w, Returned _) =>
      let w := with_store (database.add_sent_prediction (now w) key) w in
      asyncio_sleep 1 w
  | (w, Raised _) => w
  end.

(** [send_predictions_to_subscribed_users()], from the reply of the
    parser on: [None] is the parser's failure.  Each fan-out runs inside
    the [try] of [send_one]; the notices to [ADMIN_ID] and the final
    [schedule_next_run] of the pass are not in the world. *)
Definition send_predictions_to_subscribed_users (tg : telegram)
    (predictions : option (list prediction)) (w : world) : world :=
  match predictions with
  | None => w
  | Some predictions =>
      fold_left (send_one tg) (new_predictions_to_send (store w) predictions) w
  end.


(** ** Rendering ([main.py], [safe_html]) *)

Module Html.

(** [s.replace(c, r)] for a one-character [c]. *)
Fixpoint replace (c : ascii) (r : string) (s : string) : string :=
  match s with
  | EmptyString => EmptyString
  | String x s' =>
      if Ascii.eqb x c then r +:+ replace c r s' else String x (replace c r s')
  end.

(** The double quote, code point 34. *)
Definition dquote : ascii := ascii_of_nat 34.

(** [html.escape(s)], with [quote=True]: the five replacements of the
    standard library, [&] first. *)
Definition escape (s : string) : string :=
  replace "'" "&#x27;"
    (replace dquote "&quot;"
       (replace ">" "&gt;"
          (replace "<" "&lt;"
             (replace "&" "&amp;" s)))).

(** Is there a [>] further on? *)
Fixpoint closes (s : string) : bool :=
  match s with
  | EmptyString => false
  | String x s' => if Ascii.eqb x ">" then true else closes s'
  end.

(** Does [[^>]+>] match at the start of [s]? *)
Definition tag_follows (s : string) : bool :=
  match s with
  | EmptyString => false
  | String x s' => negb (Ascii.eqb x ">") && closes s'
  end.

(** [re.sub(r'<([^>]+)>', r'&lt;\1&gt;', s)], scanning left to right;
    [inside] is set between a matched [<] and its [>]. *)
Fixpoint sub_tags (inside : bool) (s : string) : string :=
  match s with
  | EmptyString => EmptyString
  | String x s' =>
      if inside then
        if Ascii.eqb x ">" then "&gt;" +:+ sub_tags false s'
        else String x (sub_tags true s')
      else if Ascii.eqb x "<" && tag_follows s' then "&lt;" +:+ sub_tags true s'
      else String x (sub_tags false s')
  end.

(** [safe_html(s)]; [None] is Python's [None]. *)
Definition safe_html (s : option string) : string :=
  match s with
  | None => EmptyString
  | Some s => sub_tags false (escape s)
  end.

End Html.

(** ** Administration ([main.py]) *)

(** [is_admin(user_id)]: [user and user['is_admin']], as a truth value. *)
Definition is_admin (user_id : Z) (db : database.t) : bool :=
  match database.get_user user_id db with
  | Some user => database.is_admin user
  | None => false
  end.

Definition is_users_db_empty (db : database.t) : bool :=
  bool_decide (length (database.get_all_users db) = 0%nat).

(** What a handler answers with. *)
Inductive answer :=
| WelcomeMainAdmin
| WelcomeRegistered
| AdminPanel
| WelcomeWait.

(** [start_command_handler]: the store it leaves and its answers.  The
    write of [ADMIN_ID] to [config.json] is not part of the store. *)
Definition start_command_handler (from_user_id : Z) (username : option string)
    (db : database.t) : database.t * list answer :=
  let '(db, greeting) :=
    match database.get_user from_user_id db with
    | Some _ => (db, [])
    | None =>
        if is_users_db_empty db
        then (database.add_user from_user_id username true db, [WelcomeMainAdmin])
        else (database.add_user from_user_id username false db, [WelcomeRegistered])
    end in
  (db, greeting ++ [if is_admin from_user_id db then AdminPanel else WelcomeWait]).

(** The callback handlers below are given the id parsed from the callback
    data; each starts with the [is_admin] guard of the source. *)
Definition pause_subscription_handler (from_user_id user_id : Z)
    (db : database.t) : database.t :=
  if negb (is_admin from_user_id db) then db
  else database.pause_subscription user_id db.

Definition unpause_subscription_handler (from_user_id user_id : Z)
    (db : database.t) : database.t :=
  if negb (is_admin from_user_id db) then db
  else database.unpause_subscription user_id db.

Definition set_admin_handler_from_list (from_user_id user_id : Z)
    (db : database.t) : database.t :=
  if negb (is_admin from_user_id db) then db
  else database.make_admin user_id db.

Definition cancel_subscription_handler (from_user_id user_id : Z)
    (db : database.t) : database.t :=
  if negb (is_admin from_user_id db) then db
  else database.cancel_subscription user_id db.

Definition toggle_channel_status_handler (from_user_id channel_id : Z)
    (db : database.t) : database.t :=
  if negb (is_admin from_user_id db) then db
  else
    match database.get_channel channel_id db with
    | Some channel =>
        let new_status := negb (database.channel_is_active channel) in
        database.update_channel channel_id (Some new_status) None db
    | None => db
    end.

Definition delete_channel_handler (from_user_id channel_id : Z)
    (db : database.t) : database.t :=
  if negb (is_admin from_user_id db) then db
  else
    match database.get_channel channel_id db with
    | Some _ => database.delete_channel channel_id db
    | None => db
    end.

(** [next((bk for bk in bookmakers if bk['id'] == bookmaker_id), None)] *)
Definition find_bookmaker (bookmaker_id : Z)
    (bookmakers : list database.bookmaker_row) : option database.bookmaker_row :=
  List.find (fun bk => bool_decide (database.bookmaker_id bk = bookmaker_id))
            bookmakers.

Definition admin_toggle_bk_handler (from_user_id bookmaker_id : Z)
    (db : database.t) : database.t :=
  if negb (is_admin from_user_id db) then db
  else
    match find_bookmaker bookmaker_id (database.get_all_bookmakers db) with
    | Some bookmaker =>
        let new_status := negb (database.bookmaker_is_active bookmaker) in
        database.toggle_bookmaker bookmaker_id new_status db
    | None => db
    end.

(** [toggle_bk_handler] and [channel_toggle_bk_handler]: the new
    [selected_ids] of the dialogue. *)
Definition toggle_bk_handler (from_user_id bookmaker_id : Z)
    (current_selection : list Z) (db : database.t) : list Z :=
  if negb (is_admin from_user_id db) then current_selection
  else if bool_decide (bookmaker_id ∈ current_selection)
  then List.filter (fun bk_id => negb (bool_decide (bk_id = bookmaker_id)))
                   current_selection
  else current_selection ++ [bookmaker_id].

(** [toggle_all_bk_handler]: the new [selected_ids]. *)
Definition toggle_all_bk_handler (from_user_id : Z) (selected_ids : list Z)
    (db : database.t) : list Z :=
  if negb (is_admin from_user_id db) then selected_ids
  else
    let bookmakers := database.get_all_bookmakers db in
    let active := List.filter database.bookmaker_is_active bookmakers in
    let all_selected := bool_decide (length selected_ids = length active) in
    if all_selected then [] else List.map database.bookmaker_id active.

(** [save_bk_handler]: the store after [update_user_bookmakers]; [None]
    when that raises. *)
Definition save_bk_handler (from_user_id : Z) (selected_bks : list Z)
    (user_id : Z) (db : database.t) : option database.t :=
  if negb (is_admin from_user_id db) then Some db
  else database.update_user_bookmakers user_id selected_bks db.

(** [channel_save_bk_handler]: one [update_channel_bookmaker] per
    bookmaker, selected or not. *)
Definition channel_save_bk_handler (from_user_id : Z) (selected_bks : list Z)
    (channel_id : Z) (db : database.t) : database.t :=
  if negb (is_admin from_user_id db) then db
  else
    fold_left
      (fun db bookmaker =>
         let is_selected :=
           bool_decide (database.bookmaker_id bookmaker ∈ selected_bks) in
         database.update_channel_bookmaker channel_id
           (database.bookmaker_id bookmaker) is_selected db)
      (database.get_all_bookmakers db) db.

(** [my_chat_member_handler]: the store after the bot's membership in a
    channel changed; [became_administrator] is
    [new_member.status == ChatMemberStatus.ADMINISTRATOR]. *)
Definition my_chat_member_handler (now : Z) (became_administrator : bool)
    (channel_id : Z) (channel_title : string) (db : database.t) : database.t :=
  if became_administrator then
    match database.get_channel channel_id db with
    | Some _ => database.update_channel channel_id (Some true) (Some channel_title) db
    | None => database.add_channel now channel_id channel_title db
    end
  else db.

(** [send_with_retry(chat_id, text, max_retries=...)]: the loop over
    [range(max_retries)].  As elsewhere the message is the record it is
    rendered from. *)
Fixpoint send_with_retry_loop (tg : telegram) (chat_id : Z) (text : prediction)
    (max_retries : Z) (attempts : list Z) (w : world) : bool * world :=
  match attempts with
  | [] => (false, w)
  | attempt :: attempts =>
      match bot_send_message tg chat_id text w with
      | (Returned _, w) => (true, w)
      | (Raised _, w) =>
          if attempt <? max_retries - 1
          then send_with_retry_loop tg chat_id text max_retries attempts
                 (asyncio_sleep (2 ^ attempt) w)
          else (false, w)
      end
  end.

Definition send_with_retry (tg : telegram) (chat_id : Z) (text : prediction)
    (max_retries : Z) (w : world) : bool * world :=
  send_with_retry_loop tg chat_id text max_retries
    (List.map Z.of_nat (seq 0 (Z.to_nat max_retries))) w.

(** The updates modelled above, as the dispatcher routes them: [/start]
    and the callbacks that write to the store. *)
Inductive request :=
| Start (username : option string)
| PauseSubscription (user_id : Z)
| UnpauseSubscription (user_id : Z)
| SetAdmin (user_id : Z)
| CancelSubscription (user_id : Z)
| ToggleChannelStatus (channel_id : Z)
| DeleteChannel (channel_id : Z)
| AdminToggleBk (bookmaker_id : Z)
| SaveBk (selected_bks : list Z) (user_id : Z)
| ChannelSaveBk (selected_bks : list Z) (channel_id : Z).

(** The store after one update from [from_user_id]; an exception in a
    handler leaves the store as it was. *)
Definition handle (db : database.t) (update : Z * request) : database.t :=
  let (from_user_id, req) := update in
  match req with
  | Start username => (start_command_handler from_user_id username db).1
  | PauseSubscription uid => pause_subscription_handler from_user_id uid db
  | UnpauseSubscription uid => unpause_subscription_handler from_user_id uid db
  | SetAdmin uid => set_admin_handler_from_list from_user_id uid db
  | CancelSubscription uid => cancel_subscription_handler from_user_id uid db
  | ToggleChannelStatus cid => toggle_channel_status_handler from_user_id cid db
  | DeleteChannel cid => delete_channel_handler from_user_id cid db
  | AdminToggleBk bid => admin_toggle_bk_handler from_user_id bid db
  | SaveBk selected uid => default db (save_bk_handler from_user_id selected uid db)
  | ChannelSaveBk selected cid => channel_save_bk_handler from_user_id selected cid db
  end.
(** ** Vocabulary of the properties *)

(** [emits P w w']: the run from [w] to [w'] appended events that all
    satisfy [P], and nothing else happened to the trace. *)
Definition emits (P : event -> Prop) (w w' : world) : Prop :=
  exists evs, trace w' = trace w ++ evs /\ Forall P evs.

(** The events of a fan-out for [pred]: every message sent is rendered
    from [pred]. *)
Definition about (pred : prediction) (e : event) : Prop :=
  match e with
  | Send _ p _ => p = pred
  | _ => True
  end.

(** The tables a channel step leaves alone: all but [channels]. *)
Definition same_but_channels (w w' : world) : Prop :=
  database.users (store w') = database.users (store w)
  /\ database.sent_predictions (store w') = database.sent_predictions (store w)
  /\ database.user_predictions (store w') = database.user_predictions (store w)
  /\ database.bookmakers (store w') = database.bookmakers (store w)
  /\ database.user_bookmakers (store w') = database.user_bookmakers (store w)
  /\ database.channel_bookmakers (store w') = database.channel_bookmakers (store w)
  /\ database.signal_limits (store w') = database.signal_limits (store w).

(** The tables a user step leaves alone: all but [users] and
    [user_predictions]. *)
Definition same_but_users (w w' : world) : Prop :=
  database.sent_predictions (store w') = database.sent_predictions (store w)
  /\ database.bookmakers (store w') = database.bookmakers (store w)
  /\ database.user_bookmakers (store w') = database.user_bookmakers (store w)
  /\ database.channels (store w') = database.channels (store w)
  /\ database.channel_bookmakers (store w') = database.channel_bookmakers (store w)
  /\ database.signal_limits (store w') = database.signal_limits (store w).

(** The sent-prediction ledger only grows along a run. *)
Definition ledger_grows (w w' : world) : Prop :=
  forall k, database.is_prediction_sent k (store w) = true ->
            database.is_prediction_sent k (store w') = true.

(** What a whole fan-out of one prediction does to the world: it emits
    events about that prediction only, and the ledger only grows. *)
Definition fan_out_of (pred : prediction) (w w' : world) : Prop :=
  emits (about pred) w w' /\ ledger_grows w w'.

(** No message of a prediction with fingerprint [F]. *)
Definition not_for (F : string) (e : event) : Prop :=
  match e with
  | Send _ p _ => get_match_key p ≠ F
  | _ => True
  end.

(** No message to the chat [chat]. *)
Definition not_to (chat : Z) (e : event) : Prop :=
  match e with
  | Send c _ _ => c ≠ chat
  | _ => True
  end.

(** The rows of table [users] with a given id. *)
Definition rows_of (uid : Z) (db : database.t) : list database.user_row :=
  List.filter (database.has_user_id uid) (database.users db).

(** What a run may not do for a user whose pause is to stay: write to
    the user, touch the user's rows, or change the ids of the channels. *)
Definition leaves_alone (uid : Z) (w w' : world) : Prop :=
  emits (not_to uid) w w'
  /\ rows_of uid (store w') = rows_of uid (store w)
  /\ List.map database.channel_id (database.channels (store w'))
     = List.map database.channel_id (database.channels (store w)).

(** *** Vocabulary of the further properties *)

(** The recipients a loop has accounted for. *)
Definition total (t : tally) : Z := sent t + skipped t + errors t.

(** The rows of the per-user ledger for a user on a calendar day. *)
Definition signals_on (day uid : Z) (db : database.t) : Z :=
  Z.of_nat (length (List.filter
    (fun r => bool_decide (database.up_user_id r = uid)
              && bool_decide (database.date (database.up_sent_at r) = day))
    (database.user_predictions db))).

(** No user has more than [M] ledger rows on any day. *)
Definition within_quota (M : Z) (db : database.t) : Prop :=
  forall uid day, signals_on day uid db <= M.

(** No API call addressed to the chat [chat]. *)
Definition not_addressed (chat : Z) (e : event) : Prop :=
  match e with
  | GetChatMember c => c ≠ chat
  | Send c _ _ => c ≠ chat
  | Sleep _ => True
  end.

(** A [users] row after a run, against the row before: the run may have
    written the pause fields and nothing else. *)
Definition same_subscriber (r r' : database.user_row) : Prop :=
  database.user_id r' = database.user_id r
  /\ database.username r' = database.username r
  /\ database.is_admin r' = database.is_admin r
  /\ database.end_date r' = database.end_date r.

(** A [channels] row after a run, against the row before: the run may
    have switched the channel off and nothing else. *)
Definition at_most_deactivated (r r' : database.channel_row) : Prop :=
  database.channel_id r' = database.channel_id r
  /\ database.channel_name r' = database.channel_name r
  /\ database.created_at r' = database.created_at r
  /\ (database.channel_is_active r' = true -> database.channel_is_active r = true).

(** Everything a run of the engine may do to the store. *)
Definition engine_writes (w w' : world) : Prop :=
  Forall2 same_subscriber (database.users (store w)) (database.users (store w'))
  /\ Forall2 at_most_deactivated (database.channels (store w))
       (database.channels (store w'))
  /\ database.sent_predictions (store w) ⊆ database.sent_predictions (store w')
  /\ database.user_predictions (store w) `prefix_of`
       database.user_predictions (store w')
  /\ database.bookmakers (store w') = database.bookmakers (store w)
  /\ database.user_bookmakers (store w') = database.user_bookmakers (store w)
  /\ database.channel_bookmakers (store w') = database.channel_bookmakers (store w)
  /\ database.signal_limits (store w') = database.signal_limits (store w)
  /\ now w <= now w'.

(** A run leaves the signal limits alone and, with [M] signals a day
    allowed, raises no user's count for any day beyond [M]. *)
Definition quota_kept (M : Z) (w w' : world) : Prop :=
  database.signal_limits (store w') = database.signal_limits (store w)
  /\ (database.max_signals_per_day (database.get_signal_limits (store w)) = M ->
      forall uid day,
        signals_on day uid (store w') <= Z.max (signals_on day uid (store w)) M).

(** Every row of [channels] with this id is switched off, and the id is
    not that of a user. *)
Definition switched_off (cid : Z) (db : database.t) : Prop :=
  (forall r, r ∈ database.channels db -> database.channel_id r = cid ->
             database.channel_is_active r = false)
  /\ cid ∉ List.map database.user_id (database.users db).

(** Does the character occur in the string? *)
Fixpoint occurs (x : ascii) (s : string) : bool :=
  match s with
  | EmptyString => false
  | String c s' => Ascii.eqb c x || occurs x s'
  end.

(** The reply to the API call number [n] to a chat is an exception. *)
Definition raises (tg : telegram) (n : nat) (chat : Z) : Prop :=
  exists e, send_message tg n chat = Raised e.

(** A store that differs from another only by registrations of users
    without rights: the rows of [users] and more, none of the new ones an
    administrator's or with a subscription. *)
Definition only_registrations (db db' : database.t) : Prop :=
  (exists new,
     database.users db' ≡ₚ database.users db ++ new
     /\ forall row, row ∈ new ->
          database.is_admin row = false /\ database.end_date row = None)
  /\ database.sent_predictions db' = database.sent_predictions db
  /\ database.user_predictions db' = database.user_predictions db
  /\ database.bookmakers db' = database.bookmakers db
  /\ database.user_bookmakers db' = database.user_bookmakers db
  /\ database.channels db' = database.channels db
  /\ database.channel_bookmakers db' = database.channel_bookmakers db
  /\ database.signal_limits db' = database.signal_limits db
  /\ forall uid, is_admin uid db' = is_admin uid db.

(** A network that answers every call: no API call of the fan-out raises
    and every re-arming of the job returns. *)
Definition answers (tg : telegram) : Prop :=
  (forall n chat, exists m, get_chat_member tg n chat = Returned m)
  /\ (forall n chat, send_message tg n chat = Returned tt)
  /\ (forall n, rescheduling tg n = Returned tt).

(** The only sleep is the second between two predictions. *)
Definition no_backoff (e : event) : Prop :=
  match e with
  | Sleep secs => secs = 1
  | _ => True
  end.
(** ** Scenarios

    Concrete stores, networks and predictions on which the properties
    below are exercised. *)

(** The two predictions of the specification's scenario. *)
Definition scenario_prediction (bookmaker : string) : prediction :=
  <["bookmaker" := bookmaker]>
    (<["sport" := "Football"]>
       (<["date" := "12/05 18:30"]>
          (<["teams" := "Team A - Team B"]> ∅))).


Definition scenario_key : string := "Football|12/05|Team A - Team B".

(** A registry with one paused, non-admin subscriber. *)
Definition registry_example : database.t :=
  database.Db
    [database.UserRow 7 (Some "ann") false (Some 5000) true (Some 900)]
    ∅ [] [] [] [] [] [].

(** A ledger whose only row was written at time 0. *)
Definition week_old_ledger : database.t :=
  database.Db [] (<[scenario_key := 0]> ∅) [] [] [] [] [] [].

(** Eight days after time 0. *)
Definition eight_days_on : Z := 8 * database.seconds_per_day.

(** A network on which every call succeeds and the bot is an
    administrator with posting rights everywhere. *)
Definition tg_ok : telegram :=
  Telegram (fun _ _ => Returned (ChatMember true true))
           (fun _ _ => Returned tt)
           (fun _ => Returned tt).

(** An outage: every call raises a network error. *)
Definition tg_down : telegram :=
  Telegram (fun _ _ => Raised TelegramNetworkError)
           (fun _ _ => Raised TelegramNetworkError)
           (fun _ => Raised TelegramNetworkError).

(** A network on which the API call number [k] of the run, when it is a
    send, is rate limited for 30 seconds; every other call succeeds. *)
Definition tg_retry_at (k : nat) : telegram :=
  Telegram (fun _ _ => Returned (ChatMember true true))
           (fun n _ => if bool_decide (n = k) then Raised (TelegramRetryAfter 30)
                       else Returned tt)
           (fun _ => Returned tt).

(** A network on which the bot is a plain member of every chat. *)
Definition tg_not_admin : telegram :=
  Telegram (fun _ _ => Returned (ChatMember false false))
           (fun _ _ => Returned tt)
           (fun _ => Returned tt).

(** A network on which subscriber 7 has blocked the bot; every other
    call succeeds. *)
Definition tg_blocked : telegram :=
  Telegram (fun _ _ => Returned (ChatMember true true))
           (fun _ chat => if bool_decide (chat = 7)
                          then Raised TelegramForbiddenError
                          else Returned tt)
           (fun _ => Returned tt).

(** A network that rate limits every send. *)
Definition tg_flood : telegram :=
  Telegram (fun _ _ => Returned (ChatMember true true))
           (fun _ _ => Raised (TelegramRetryAfter 30))
           (fun _ => Returned tt).

(** The bookmakers [create_tables] inserts. *)
Definition default_bookmakers : list database.bookmaker_row :=
  [database.BookmakerRow 1 "Betboom" true;
   database.BookmakerRow 2 "Fonbet" true;
   database.BookmakerRow 3 "Marathon" true;
   database.BookmakerRow 4 "Olimp" true;
   database.BookmakerRow 5 "Winline" true].

Definition default_limits : list database.signal_limits_row :=
  [database.SignalLimits 10 5 24].

Definition subscriber (uid : Z) : database.user_row :=
  database.UserRow uid None false (Some 900000) false None.

(** One active channel and one subscriber, neither with preferences. *)
Definition small_store : database.t :=
  database.Db [subscriber 7] ∅ [] default_bookmakers []
    [database.ChannelRow (-100) "main" true 0] [] default_limits.

(** One active channel without preferences and no user. *)
Definition channel_only_store : database.t :=
  database.Db [] ∅ [] default_bookmakers []
    [database.ChannelRow (-100) "main" true 0] [] default_limits.

(** A run starts at time 1000 with no API call made. *)
Definition start (db : database.t) : world := World db 1000 0 [] 0.

(** A prediction the parser could not read a bookmaker for. *)
Definition no_bookmaker_prediction : prediction := scenario_prediction EmptyString.

(** The duplicate of the specification's scenario, both in one batch:
    the worlds after the first and after the second prediction. *)
Definition duplicate_start : world := start channel_only_store.

Definition duplicate_after_first : world :=
  send_one tg_ok duplicate_start
    (get_match_key (scenario_prediction "Fonbet"), scenario_prediction "Fonbet").

Definition duplicate_after_second : world :=
  send_one tg_ok duplicate_after_first
    (get_match_key (scenario_prediction "Winline"), scenario_prediction "Winline").

(** A world whose ledger already holds the scenario's fingerprint. *)
Definition already_sent_world : world :=
  with_store (database.add_sent_prediction 0 scenario_key) (start small_store).

(** A pass during an outage, and a pass over a prediction without
    bookmaker. *)
Definition outage_pass : world :=
  send_predictions_to_subscribed_users tg_down
    (Some [scenario_prediction "Fonbet"]) (start small_store).

Definition no_bookmaker_pass : world :=
  send_predictions_to_subscribed_users tg_ok
    (Some [no_bookmaker_prediction]) (start small_store).

(** A pass in which the bot is not administrator of the only channel and
    there is no user. *)
Definition not_admin_pass : world :=
  send_predictions_to_subscribed_users tg_not_admin
    (Some [scenario_prediction "Fonbet"]) (start channel_only_store).

(** A pass with the subscriber who has blocked the bot. *)
Definition blocked_pass : world :=
  send_predictions_to_subscribed_users tg_blocked
    (Some [scenario_prediction "Fonbet"]) (start small_store).

(** A pass in which the first send to the channel is rate limited. *)
Definition rate_limited_pass : world :=
  send_predictions_to_subscribed_users (tg_retry_at 1)
    (Some [scenario_prediction "Fonbet"]) (start small_store).

(** A subscriber whose pause ran out at time 900, before the run starts,
    and whose flag nobody has cleared yet. *)
Definition lapsed_pause_store : database.t :=
  database.Db
    [database.UserRow 7 None false (Some 900000) true (Some 900)]
    ∅ [] default_bookmakers [] [] [] default_limits.

Definition lapsed_pause_pass : world :=
  send_predictions_to_subscribed_users tg_ok
    (Some [scenario_prediction "Fonbet"]) (start lapsed_pause_store).

(** Four, respectively three, deliveries to subscriber 7 earlier on the
    day the run starts. *)
Definition delivered_today (n : nat) : list database.user_prediction_row :=
  List.map (fun i => database.UserPredictionRow 7 "earlier" (500 + Z.of_nat i))
           (seq 0 n).

Definition quota_store (n : nat) : database.t :=
  database.Db [subscriber 7] ∅ (delivered_today n) default_bookmakers []
    [] [] default_limits.

(** The fifth and the fourth delivery of the day to subscriber 7. *)
Definition fifth_delivery : world * reply tally :=
  send_to_user tg_ok (scenario_prediction "Fonbet") "Fonbet" scenario_key
    (database.SignalLimits 10 5 24) (start (quota_store 4), no_tally)
    (subscriber 7).

Definition fourth_delivery : world * reply tally :=
  send_to_user tg_ok (scenario_prediction "Fonbet") "Fonbet" scenario_key
    (database.SignalLimits 10 5 24) (start (quota_store 3), no_tally)
    (subscriber 7).

(** Subscriber 7 and channel -100 both prefer Fonbet (2) and Winline (5),
    which are both switched off; Olimp (4) is on. *)
Definition switched_off_bookmakers : list database.bookmaker_row :=
  [database.BookmakerRow 1 "Betboom" true;
   database.BookmakerRow 2 "Fonbet" false;
   database.BookmakerRow 3 "Marathon" true;
   database.BookmakerRow 4 "Olimp" true;
   database.BookmakerRow 5 "Winline" false].

Definition switched_off_store : database.t :=
  database.Db [subscriber 7] ∅ [] switched_off_bookmakers
    [database.UserBookmakerRow 7 2; database.UserBookmakerRow 7 5]
    [database.ChannelRow (-100) "main" true 0]
    [database.ChannelBookmakerRow (-100) 2 true;
     database.ChannelBookmakerRow (-100) 5 true]
    default_limits.

(** The same preferences with both bookmakers on. *)
Definition two_preferences_store : database.t :=
  database.Db [subscriber 7] ∅ [] default_bookmakers
    [database.UserBookmakerRow 7 2; database.UserBookmakerRow 7 5]
    [database.ChannelRow (-100) "main" true 0]
    [database.ChannelBookmakerRow (-100) 2 true;
     database.ChannelBookmakerRow (-100) 5 true]
    default_limits.

(** A pass over a prediction of Olimp, which neither the channel nor the
    subscriber has among their bookmakers. *)
Definition skipped_pass : world :=
  send_predictions_to_subscribed_users tg_ok
    (Some [scenario_prediction "Olimp"]) (start two_preferences_store).

(** Subscriber 7 has had three signals today and three a day are allowed. *)
Definition three_a_day : database.signal_limits_row :=
  database.SignalLimits 3 5 24.

(** The channel -100 switched off, one subscriber. *)
Definition channel_off_store : database.t :=
  database.Db [subscriber 7] ∅ [] default_bookmakers []
    [database.ChannelRow (-100) "main" false 0] [] default_limits.


(** The first user of the bot, an administrator, with a subscriber. *)
Definition admin_store : database.t :=
  database.Db
    [database.UserRow 1 (Some "root") true None false None; subscriber 7]
    ∅ [] default_bookmakers []
    [database.ChannelRow (-100) "main" true 0] [] default_limits.
(** ** Properties *)

(** *** Fingerprints *)

Example strip_example :
  PyStr.strip "  12/05 18:30 " = "12/05 18:30"%string.
Proof. reflexivity. Qed.

(** The date component computed by the pattern match of the source is the
    one the specification words. *)
Lemma date_short_spec (s : string) : date_short s = spec_date_component s.
Proof.
  unfold date_short, spec_date_component, has_day_month_prefix, digit_at, slash_at.
  destruct s as [|a [|b [|c [|d [|e r]]]]]; cbn;
    rewrite ?andb_false_r; try reflexivity.
  destruct (PyStr.is_digit a), (PyStr.is_digit b), (Ascii.eqb c "/") eqn:Hc,
    (PyStr.is_digit d), (PyStr.is_digit e); cbn; try reflexivity.
  apply Ascii.eqb_eq in Hc. subst c.
  destruct r; reflexivity.
Qed.

Lemma get_insert_ne (p : prediction) (k k' v : string) :
  k ≠ k' -> get (<[k := v]> p) k' = get p k'.
Proof. intros Hne. unfold get. by rewrite lookup_insert_ne. Qed.

(** C8.  [get_match_key] returns sport, [|], the date component, [|],
    teams, each field trimmed as the source does; the date component is
    the leading digit-digit-slash-digit-digit prefix of the trimmed date,
    or the whole trimmed date without such a prefix.  Overwriting the
    bookmaker field never changes the key, and the scenario of the
    specification yields ["Football|12/05|Team A - Team B"] for Fonbet and
    for Winline. *)
Theorem get_match_key_fingerprint :
  (forall p : prediction,
     get_match_key p =
     PyStr.strip (get p "sport") +:+ "|"
       +:+ spec_date_component (PyStr.strip (get p "date")) +:+ "|"
       +:+ PyStr.strip (get p "teams"))
  /\ (forall (p : prediction) (b : string),
        get_match_key (<["bookmaker" := b]> p) = get_match_key p)
  /\ get_match_key (scenario_prediction "Fonbet") = "Football|12/05|Team A - Team B"
  /\ get_match_key (scenario_prediction "Winline") = "Football|12/05|Team A - Team B".
Proof.
  split; [|split; [|split]].
  - intros p. unfold get_match_key. by rewrite date_short_spec.
  - intros p b. unfold get_match_key.
    by rewrite !get_insert_ne.
  - vm_compute. reflexivity.
  - vm_compute. reflexivity.
Qed.

(** *** Registration *)

Lemma existsb_has_user_id (uid : Z) (us : list database.user_row) :
  uid ∈ List.map database.user_id us ->
  existsb (database.has_user_id uid) us = true.
Proof.
  intros Hin. apply existsb_exists.
  apply list_elem_of_In, in_map_iff in Hin as (r & Hr & Hin).
  exists r. split; [done|]. unfold database.has_user_id. by apply bool_decide_eq_true.
Qed.

(** C10.  [add_user] on a [user_id] that already has a row leaves the
    whole store, hence that row with its username, admin flag,
    subscription end and pause fields, as it was; asking for
    [is_admin=True] grants nothing. *)
Theorem add_user_existing (uid : Z) (uname : option string) (admin : bool)
    (db : database.t) :
  uid ∈ List.map database.user_id (database.users db) ->
  database.add_user uid uname admin db = db
  /\ database.get_user uid (database.add_user uid uname admin db)
     = database.get_user uid db.
Proof.
  intros Hin. unfold database.add_user.
  by rewrite (existsb_has_user_id _ _ Hin).
Qed.

Lemma add_user_existing_witness :
  database.add_user 7 (Some "eve") true registry_example = registry_example
  /\ database.get_user 7 (database.add_user 7 (Some "eve") true registry_example)
     = database.get_user 7 registry_example.
Proof. apply add_user_existing. vm_compute. apply list_elem_of_here. Defined.

Example add_user_keeps_non_admin :
  database.is_admin <$> database.get_user 7
    (database.add_user 7 (Some "eve") true registry_example) = Some false.
Proof. reflexivity. Qed.

(** *** Ledger retention *)

Lemma is_prediction_sent_true (k : string) (db : database.t) :
  database.is_prediction_sent k db = true
  <-> is_Some (database.sent_predictions db !! k).
Proof. unfold database.is_prediction_sent. apply bool_decide_eq_true. Qed.

Lemma is_prediction_sent_false (k : string) (db : database.t) :
  database.is_prediction_sent k db = false
  <-> database.sent_predictions db !! k = None.
Proof.
  unfold database.is_prediction_sent. rewrite bool_decide_eq_false.
  by rewrite eq_None_not_Some.
Qed.

(** The lookup has no age filter: a row written eight days ago still
    answers "sent". *)
Lemma is_prediction_sent_ignores_age :
  ~ (forall (now : Z) (F : string) (db : database.t) (sent_at : Z),
       database.sent_predictions db !! F = Some sent_at ->
       sent_at < now - 7 * database.seconds_per_day ->
       database.is_prediction_sent F db = false).
Proof.
  intros H.
  specialize (H eight_days_on scenario_key week_old_ledger 0).
  discriminate H; [reflexivity | reflexivity].
Qed.

(** C4, amended.  A ledger row older than 7 days still answers "sent"
    until [delete_old_predictions] runs; once it has run the row is gone,
    [is_prediction_sent] returns false, and a prediction with that
    fingerprint is queued as new again. *)
Theorem delete_old_predictions_retention (now : Z) (F : string)
    (db : database.t) (sent_at : Z) :
  database.sent_predictions db !! F = Some sent_at ->
  sent_at < now - 7 * database.seconds_per_day ->
  database.is_prediction_sent F db = true
  /\ database.is_prediction_sent F (database.delete_old_predictions now db) = false
  /\ forall p : prediction,
       p ≠ ∅ -> get_match_key p = F ->
       new_predictions_to_send (database.delete_old_predictions now db) [p]
       = [(F, p)].
Proof.
  intros Hrow Hold.
  assert (Hgone : database.is_prediction_sent F
                    (database.delete_old_predictions now db) = false).
  { apply is_prediction_sent_false. cbn.
    apply map_lookup_filter_None. right. intros t Ht. cbn.
    rewrite Hrow in Ht. injection Ht as <-. lia. }
  split; [|split].
  - apply is_prediction_sent_true. by rewrite Hrow.
  - exact Hgone.
  - intros p Hne <-. unfold new_predictions_to_send, _filter_and_clean_prediction.
    cbn. rewrite bool_decide_eq_false_2 by done. by rewrite Hgone.
Qed.

Lemma delete_old_predictions_retention_witness :
  database.is_prediction_sent scenario_key week_old_ledger = true
  /\ database.is_prediction_sent scenario_key
       (database.delete_old_predictions eight_days_on week_old_ledger) = false
  /\ forall p : prediction,
       p ≠ ∅ -> get_match_key p = scenario_key ->
       new_predictions_to_send
         (database.delete_old_predictions eight_days_on week_old_ledger) [p]
       = [(scenario_key, p)].
Proof.
  apply (delete_old_predictions_retention eight_days_on scenario_key
           week_old_ledger 0); [reflexivity | reflexivity].
Defined.

(** Rows that are not older than 7 days survive the sweep. *)
Lemma delete_old_predictions_keeps_recent (now : Z) (F : string)
    (db : database.t) (sent_at : Z) :
  database.sent_predictions db !! F = Some sent_at ->
  now - 7 * database.seconds_per_day <= sent_at ->
  database.is_prediction_sent F (database.delete_old_predictions now db) = true.
Proof.
  intros Hrow Hrecent. apply is_prediction_sent_true. exists sent_at. cbn.
  apply map_lookup_filter_Some. split; [done|]. cbn. lia.
Qed.

(** *** What a step of the engine emits and which tables it writes *)


Lemma emits_refl (P : event -> Prop) (w : world) : emits P w w.
Proof. exists []. by rewrite app_nil_r. Qed.

Lemma emits_trans (P : event -> Prop) (w1 w2 w3 : world) :
  emits P w1 w2 -> emits P w2 w3 -> emits P w1 w3.
Proof.
  intros (e1 & H1 & F1) (e2 & H2 & F2). exists (e1 ++ e2). split.
  - by rewrite H2, H1, app_assoc.
  - by apply Forall_app.
Qed.

Lemma emits_same_trace (P : event -> Prop) (w w' : world) :
  trace w' = trace w -> emits P w w'.
Proof. intros H. exists []. by rewrite app_nil_r. Qed.

Lemma emits_one (P : event -> Prop) (w w' : world) (e : event) :
  trace w' = trace w ++ [e] -> P e -> emits P w w'.
Proof. intros H HP. exists [e]. split; [done|]. by constructor. Qed.

Lemma emits_elem_of (P : event -> Prop) (w w' : world) (e : event) :
  emits P w w' -> e ∈ trace w' -> e ∈ trace w \/ P e.
Proof.
  intros (evs & Ht & HF) Hin. rewrite Ht in Hin.
  apply elem_of_app in Hin as [Hin|Hin]; [by left|right].
  rewrite Forall_forall in HF. by apply HF.
Qed.




Ltac step_events :=
  first
    [ apply emits_refl
    | apply emits_same_trace; reflexivity
    | eexists; split;
      [ cbn; rewrite <- ?app_assoc; reflexivity
      | repeat (constructor; try done) ] ].

Lemma send_to_channel_emits (tg : telegram) (pred : prediction)
    (bookmaker_name : string) (st : world * tally) (ch : database.channel_row) :
  emits (about pred) st.1 (send_to_channel tg pred bookmaker_name st ch).1.
Proof.
  destruct st as [w t]. unfold send_to_channel,
    bot_get_chat_member, bot_send_message, with_store.
  repeat case_match; simplify_eq; cbn; step_events.
Qed.

Lemma send_to_channel_frame (tg : telegram) (pred : prediction)
    (bookmaker_name : string) (st : world * tally) (ch : database.channel_row) :
  same_but_channels st.1 (send_to_channel tg pred bookmaker_name st ch).1.
Proof.
  destruct st as [w t]. unfold send_to_channel,
    bot_get_chat_member, bot_send_message, with_store.
  repeat case_match; simplify_eq; cbn; by repeat split.
Qed.

Lemma send_to_user_emits (tg : telegram) (pred : prediction)
    (bookmaker_name key : string) (lim : database.signal_limits_row)
    (st : world * tally) (u : database.user_row) :
  emits (about pred) st.1 (send_to_user tg pred bookmaker_name key lim st u).1.
Proof.
  destruct st as [w t]. unfold send_to_user, bot_send_message, with_store.
  repeat case_match; simplify_eq; cbn; step_events.
Qed.

Lemma is_user_paused_frame (now uid : Z) (db : database.t) :
  let db' := (database.is_user_paused now uid db).2 in
  database.sent_predictions db' = database.sent_predictions db
  /\ database.user_predictions db' = database.user_predictions db
  /\ database.bookmakers db' = database.bookmakers db
  /\ database.user_bookmakers db' = database.user_bookmakers db
  /\ database.channels db' = database.channels db
  /\ database.channel_bookmakers db' = database.channel_bookmakers db
  /\ database.signal_limits db' = database.signal_limits db.
Proof.
  unfold database.is_user_paused. repeat case_match; cbn; by repeat split.
Qed.

Lemma send_to_user_frame (tg : telegram) (pred : prediction)
    (bookmaker_name key : string) (lim : database.signal_limits_row)
    (st : world * tally) (u : database.user_row) :
  same_but_users st.1 (send_to_user tg pred bookmaker_name key lim st u).1.
Proof.
  destruct st as [w t]. unfold send_to_user, bot_send_message, with_store.
  pose proof (is_user_paused_frame (now w) (database.user_id u) (store w)) as Hp.
  destruct (database.is_user_paused (now w) (database.user_id u) (store w))
    as [paused db] eqn:Hpaused.
  cbn in Hp. destruct Hp as (? & ? & ? & ? & ? & ? & ?).
  repeat case_match; simplify_eq; cbn; by repeat split.
Qed.

Lemma fold_left_rel {A S : Type} (R : S -> S -> Prop)
    (f : S -> A -> S) (l : list A) :
  (forall s, R s s) ->
  (forall s1 s2 s3, R s1 s2 -> R s2 s3 -> R s1 s3) ->
  (forall s a, a ∈ l -> R s (f s a)) ->
  forall s, R s (fold_left f l s).
Proof.
  intros Hrefl Htrans. induction l as [|a l IH]; intros Hstep s; cbn.
  - apply Hrefl.
  - eapply Htrans; [apply (Hstep s a); apply list_elem_of_here|].
    apply IH. intros s' a' Hin. apply Hstep. by apply list_elem_of_further.
Qed.

(** A loop that may be left keeps what each of its steps keeps. *)
Lemma for_each_rel {A : Type} (R : world -> world -> Prop)
    (body : world * tally -> A -> world * reply tally) (xs : list A) :
  (forall w, R w w) ->
  (forall w1 w2 w3, R w1 w2 -> R w2 w3 -> R w1 w3) ->
  (forall st x, x ∈ xs -> R st.1 (body st x).1) ->
  forall st, R st.1 (for_each body xs st).1.
Proof.
  intros Hrefl Htrans. induction xs as [|x xs IH]; intros Hstep st; cbn.
  - apply Hrefl.
  - pose proof (Hstep st x (list_elem_of_here _ _)) as H1.
    destruct (body st x) as [w [t|e]]; cbn in *; [|exact H1].
    eapply Htrans; [exact H1|].
    apply (IH (fun st' x' Hin => Hstep st' x' (list_elem_of_further _ _ _ Hin))
              (w, t)).
Qed.

Lemma emits_weaken (P Q : event -> Prop) (w w' : world) :
  (forall e, P e -> Q e) -> emits P w w' -> emits Q w w'.
Proof.
  intros HPQ (evs & Ht & HF). exists evs. split; [done|].
  eapply Forall_impl; eauto.
Qed.


Lemma schedule_next_run_world (tg : telegram) (w : world) :
  store (schedule_next_run tg w).1 = store w
  /\ now (schedule_next_run tg w).1 = now w
  /\ calls (schedule_next_run tg w).1 = calls w
  /\ trace (schedule_next_run tg w).1 = trace w.
Proof. by repeat split. Qed.

(** The shape of a fan-out: what holds of every step of its two loops,
    of the commit and of the re-arming holds of the fan-out, whether it
    returns or is left by an exception. *)
Lemma send_prediction_rel (R : world -> world -> Prop) (tg : telegram)
    (pred : prediction) (w : world) :
  (forall w1, R w1 w1) ->
  (forall w1 w2 w3, R w1 w2 -> R w2 w3 -> R w1 w3) ->
  (forall st ch,
     ch ∈ database.get_all_channels (store w) ->
     R st.1 (send_to_channel tg pred (PyStr.strip (get pred "bookmaker")) st ch).1) ->
  (forall w1 st u,
     R w w1 ->
     u ∈ database.get_all_active_users (now w1) (store w1) ->
     R st.1 (send_to_user tg pred (PyStr.strip (get pred "bookmaker"))
               (get_match_key pred) (database.get_signal_limits (store w1))
               st u).1) ->
  (forall w1,
     R w1 (with_store (database.add_sent_prediction (now w1) (get_match_key pred))
             w1)) ->
  (forall w1, R w1 (schedule_next_run tg w1).1) ->
  R w (send_prediction_to_user_and_channel tg pred w).1.
Proof.
  intros Hrefl Htrans Hch Hu Hadd Hsched.
  unfold send_prediction_to_user_and_channel.
  case_bool_decide; [apply Hrefl|].
  pose proof (for_each_rel R
                (send_to_channel tg pred (PyStr.strip (get pred "bookmaker")))
                (database.get_all_channels (store w)) Hrefl Htrans Hch
                (w, no_tally)) as H1.
  destruct (for_each _ (database.get_all_channels (store w)) (w, no_tally))
    as [w1 [ct|e]]; cbn [fst] in H1; [|exact H1].
  destruct (database.get_all_active_users (now w1) (store w1)) as [|u us] eqn:Hus.
  { eapply Htrans; [exact H1 | apply Hsched]. }
  pose proof (for_each_rel R
                (send_to_user tg pred (PyStr.strip (get pred "bookmaker"))
                   (get_match_key pred) (database.get_signal_limits (store w1)))
                (u :: us) Hrefl Htrans) as H2.
  specialize (H2 (fun st u' Hin => Hu w1 st u' H1 ltac:(by rewrite Hus))
                 (w1, no_tally)).
  destruct (for_each _ (u :: us) (w1, no_tally)) as [w2 [ut|e]];
    cbn [fst] in H2; [|by eapply Htrans].
  eapply Htrans; [exact H1|]. eapply Htrans; [exact H2|].
  eapply Htrans; [|apply Hsched].
  case_match; [apply Hadd | apply Hrefl].
Qed.

(** The shape of the body of the pass. *)
Lemma send_one_rel (R : world -> world -> Prop) (tg : telegram) (w : world)
    (k : string) (pred : prediction) :
  (forall w1, R w1 w1) ->
  (forall w1 w2 w3, R w1 w2 -> R w2 w3 -> R w1 w3) ->
  R w (send_prediction_to_user_and_channel tg pred w).1 ->
  (forall w1, R w1 (with_store (database.add_sent_prediction (now w1) k) w1)) ->
  (forall w1, R w1 (asyncio_sleep 1 w1)) ->
  R w (send_one tg w (k, pred)).
Proof.
  intros Hrefl Htrans Hfan Hadd Hsleep. unfold send_one.
  destruct (send_prediction_to_user_and_channel tg pred w) as [w1 [[]|e]];
    cbn [fst] in Hfan; [|exact Hfan].
  eapply Htrans; [exact Hfan|]. eapply Htrans; [apply Hadd | apply Hsleep].
Qed.

Lemma add_sent_prediction_sent (now : Z) (k : string) (db : database.t) :
  database.is_prediction_sent k (database.add_sent_prediction now k db) = true.
Proof.
  apply is_prediction_sent_true. unfold database.add_sent_prediction.
  destruct (database.sent_predictions db !! k) eqn:Hk; cbn.
  - by rewrite Hk.
  - rewrite lookup_insert_eq. by eexists.
Qed.

Lemma add_sent_prediction_grows (now : Z) (k k' : string) (db : database.t) :
  database.is_prediction_sent k' db = true ->
  database.is_prediction_sent k' (database.add_sent_prediction now k db) = true.
Proof.
  rewrite !is_prediction_sent_true. unfold database.add_sent_prediction.
  destruct (database.sent_predictions db !! k) eqn:Hk; cbn; [done|].
  intros [v Hv]. exists v. rewrite lookup_insert_ne; [done|]. congruence.
Qed.


Lemma fan_out_of_refl (pred : prediction) (w : world) : fan_out_of pred w w.
Proof. split; [apply emits_refl | by intros k]. Qed.

Lemma fan_out_of_trans (pred : prediction) (w1 w2 w3 : world) :
  fan_out_of pred w1 w2 -> fan_out_of pred w2 w3 -> fan_out_of pred w1 w3.
Proof.
  intros [E1 L1] [E2 L2]. split; [by eapply emits_trans|].
  intros k Hk. by apply L2, L1.
Qed.

Lemma same_ledger_grows (w w' : world) :
  database.sent_predictions (store w') = database.sent_predictions (store w) ->
  ledger_grows w w'.
Proof.
  intros Heq k. unfold database.is_prediction_sent. by rewrite Heq.
Qed.

Lemma send_to_channel_fan_out (tg : telegram) (pred : prediction)
    (bookmaker_name : string) (st : world * tally) (ch : database.channel_row) :
  fan_out_of pred st.1 (send_to_channel tg pred bookmaker_name st ch).1.
Proof.
  split; [apply send_to_channel_emits|].
  apply same_ledger_grows, send_to_channel_frame.
Qed.

Lemma send_to_user_fan_out (tg : telegram) (pred : prediction)
    (bookmaker_name key : string) (lim : database.signal_limits_row)
    (st : world * tally) (u : database.user_row) :
  fan_out_of pred st.1 (send_to_user tg pred bookmaker_name key lim st u).1.
Proof.
  split; [apply send_to_user_emits|].
  apply same_ledger_grows, send_to_user_frame.
Qed.

Lemma with_store_add_sent_fan_out (pred : prediction) (k : string) (w : world) :
  fan_out_of pred w (with_store (database.add_sent_prediction (now w) k) w).
Proof.
  split; [by apply emits_same_trace|].
  intros k' Hk'. cbn. by apply add_sent_prediction_grows.
Qed.

Lemma send_prediction_fan_out (tg : telegram) (pred : prediction) (w : world) :
  fan_out_of pred w (send_prediction_to_user_and_channel tg pred w).1.
Proof.
  apply send_prediction_rel.
  - apply fan_out_of_refl.
  - apply fan_out_of_trans.
  - intros st ch _. apply send_to_channel_fan_out.
  - intros w1 st u _ _. apply send_to_user_fan_out.
  - intros w1. apply with_store_add_sent_fan_out.
  - intros w1. split; [by apply emits_same_trace | by intros k].
Qed.

Lemma send_one_fan_out (tg : telegram) (w : world) (k : string)
    (pred : prediction) :
  emits (fun e => about pred e \/ e = Sleep 1) w (send_one tg w (k, pred))
  /\ ledger_grows w (send_one tg w (k, pred)).
Proof.
  destruct (send_prediction_fan_out tg pred w) as [He Hl]. split.
  - apply send_one_rel.
    + apply emits_refl.
    + apply emits_trans.
    + eapply emits_weaken; [|exact He]. by left.
    + intros w1. by apply emits_same_trace.
    + intros w1. eapply emits_one; [reflexivity|]. by right.
  - apply (send_one_rel ledger_grows).
    + by intros w1 k'.
    + intros w1 w2 w3 H1 H2 k' Hk'. by apply H2, H1.
    + exact Hl.
    + intros w1 k' Hk'. cbn. by apply add_sent_prediction_grows.
    + by intros w1 k'.
Qed.

(** The fingerprint is recorded whenever the fan-out returns, and only
    then does the pass sleep its second. *)
Lemma send_one_returned (tg : telegram) (w : world) (k : string)
    (pred : prediction) :
  (send_prediction_to_user_and_channel tg pred w).2 = Returned tt ->
  send_one tg w (k, pred)
  = asyncio_sleep 1
      (with_store
         (database.add_sent_prediction
            (now (send_prediction_to_user_and_channel tg pred w).1) k)
         (send_prediction_to_user_and_channel tg pred w).1)
  /\ database.is_prediction_sent k (store (send_one tg w (k, pred))) = true.
Proof.
  intros Hret. unfold send_one.
  destruct (send_prediction_to_user_and_channel tg pred w) as [w1 r].
  cbn in Hret. subst r. split; [reflexivity|]. cbn. apply add_sent_prediction_sent.
Qed.

(** When the fan-out is left by an exception the pass goes on to the next
    prediction: no commit and no sleep. *)
Lemma send_one_raised (tg : telegram) (w : world) (k : string)
    (pred : prediction) (e : exn) :
  (send_prediction_to_user_and_channel tg pred w).2 = Raised e ->
  send_one tg w (k, pred) = (send_prediction_to_user_and_channel tg pred w).1.
Proof.
  intros Hret. unfold send_one.
  destruct (send_prediction_to_user_and_channel tg pred w) as [w1 r].
  cbn in Hret. by subst r.
Qed.

Lemma new_predictions_to_send_elem (db : database.t) (ps : list prediction)
    (k : string) (p : prediction) :
  (k, p) ∈ new_predictions_to_send db ps <->
  p ∈ ps /\ p ≠ ∅ /\ k = get_match_key p
  /\ database.is_prediction_sent k db = false.
Proof.
  unfold new_predictions_to_send, _filter_and_clean_prediction.
  rewrite list_elem_of_In, in_flat_map. split.
  - intros (q & Hq & Hin). apply list_elem_of_In in Hq.
    case_bool_decide; [by destruct Hin|].
    destruct (database.is_prediction_sent (get_match_key q) db) eqn:Hs;
      [by destruct Hin|].
    destruct Hin as [Heq|[]]. by simplify_eq.
  - intros (Hin & Hne & -> & Hs). exists p. split; [by apply list_elem_of_In|].
    rewrite bool_decide_eq_false_2 by done. rewrite Hs. by left.
Qed.

(** *** Deduplication across passes *)

(** A pass on a working network: the channel is checked and written to,
    the subscriber is written to, the delivery and the fingerprint are
    recorded, and the pass sleeps a second. *)
Example working_pass :
  let w' := send_predictions_to_subscribed_users tg_ok
              (Some [scenario_prediction "Fonbet"]) (start small_store) in
  trace w'
  = [GetChatMember (-100);
     Send (-100) (scenario_prediction "Fonbet") (Returned tt);
     Send 7 (scenario_prediction "Fonbet") (Returned tt);
     Sleep 1]
  /\ database.user_predictions (store w')
     = [database.UserPredictionRow 7 scenario_key 1000]
  /\ database.sent_predictions (store w') !! scenario_key = Some 1000
  /\ now w' = 1001.
Proof. cbv zeta. repeat split; vm_compute; reflexivity. Qed.


Lemma fold_send_one_grows (tg : telegram) (queue : list (string * prediction))
    (w : world) :
  ledger_grows w (fold_left (send_one tg) queue w).
Proof.
  apply (fold_left_rel ledger_grows).
  - by intros s k.
  - intros s1 s2 s3 H1 H2 k Hk. by apply H2, H1.
  - intros s [k p] _. apply send_one_fan_out.
Qed.

(** *** A network that answers every call *)

Lemma send_to_channel_answers (tg : telegram) (pred : prediction)
    (bookmaker_name : string) (st : world * tally) (ch : database.channel_row) :
  answers tg ->
  exists t, (send_to_channel tg pred bookmaker_name st ch).2 = Returned t.
Proof.
  intros (Hm & Hs & _). destruct st as [w t].
  unfold send_to_channel, bot_get_chat_member, bot_send_message.
  destruct (Hm (calls w) (database.channel_id ch)) as [m ->].
  cbn [calls]. rewrite Hs.
  repeat case_match; simplify_eq; cbn; eauto.
Qed.

Lemma send_to_user_answers (tg : telegram) (pred : prediction)
    (bookmaker_name key : string) (lim : database.signal_limits_row)
    (st : world * tally) (u : database.user_row) :
  answers tg ->
  exists t, (send_to_user tg pred bookmaker_name key lim st u).2 = Returned t.
Proof.
  intros (_ & Hs & _). destruct st as [w t].
  unfold send_to_user, bot_send_message.
  destruct (database.is_user_paused _ _ _) as [paused db].
  cbn [with_store calls]. rewrite Hs.
  repeat case_match; simplify_eq; cbn; eauto.
Qed.

Lemma for_each_returns {A : Type}
    (body : world * tally -> A -> world * reply tally) (xs : list A) :
  (forall st x, exists t, (body st x).2 = Returned t) ->
  forall st, exists t, (for_each body xs st).2 = Returned t.
Proof.
  intros Hbody. induction xs as [|x xs IH]; intros st; cbn; [eauto|].
  destruct (Hbody st x) as [t Ht]. destruct (body st x) as [w r].
  cbn in Ht. subst r. apply IH.
Qed.

Lemma send_prediction_answers (tg : telegram) (pred : prediction) (w : world) :
  answers tg ->
  (send_prediction_to_user_and_channel tg pred w).2 = Returned tt.
Proof.
  intros Hans. pose proof Hans as (_ & _ & Hr).
  unfold send_prediction_to_user_and_channel.
  case_bool_decide; [reflexivity|].
  destruct (for_each_returns
              (send_to_channel tg pred (PyStr.strip (get pred "bookmaker")))
              (database.get_all_channels (store w))
              (fun st x => send_to_channel_answers tg pred _ st x Hans)
              (w, no_tally)) as [ct Hct].
  destruct (for_each _ (database.get_all_channels (store w)) (w, no_tally))
    as [w1 r1]. cbn in Hct. subst r1.
  destruct (database.get_all_active_users (now w1) (store w1)) as [|u us];
    [cbn; apply Hr|].
  destruct (for_each_returns
              (send_to_user tg pred (PyStr.strip (get pred "bookmaker"))
                 (get_match_key pred) (database.get_signal_limits (store w1)))
              (u :: us)
              (fun st x => send_to_user_answers tg pred _ _ _ st x Hans)
              (w1, no_tally)) as [ut Hut].
  destruct (for_each _ (u :: us) (w1, no_tally)) as [w2 r2].
  cbn in Hut. subst r2. cbn. apply Hr.
Qed.

Lemma fold_send_one_marks (tg : telegram) (queue : list (string * prediction))
    (k : string) (p : prediction) :
  answers tg ->
  (k, p) ∈ queue ->
  forall w, database.is_prediction_sent k
              (store (fold_left (send_one tg) queue w)) = true.
Proof.
  intros Hans.
  induction queue as [|x queue IH]; intros Hin w; [by apply elem_of_nil in Hin|].
  apply elem_of_cons in Hin as [<-|Hin]; cbn.
  - apply fold_send_one_grows, send_one_returned.
    by apply send_prediction_answers.
  - by apply IH.
Qed.

(** On a network that answers every call the pass leaves every prediction
    of the batch recorded as sent, whatever the fan-out delivered. *)
Lemma pass_marks_every_prediction (tg : telegram) (ps : list prediction)
    (w : world) (p : prediction) :
  answers tg ->
  p ∈ ps -> p ≠ ∅ ->
  database.is_prediction_sent (get_match_key p)
    (store (send_predictions_to_subscribed_users tg (Some ps) w)) = true.
Proof.
  intros Hans Hin Hne. cbn.
  destruct (database.is_prediction_sent (get_match_key p) (store w)) eqn:Hs.
  - by apply fold_send_one_grows.
  - apply (fold_send_one_marks tg _ _ p Hans).
    by apply new_predictions_to_send_elem.
Qed.

(** The same batch may hold the fingerprint twice: the ledger is read for
    the whole batch before the first message leaves, so the second
    prediction is fanned out although the first was delivered and
    recorded. *)
Lemma same_batch_duplicate_is_sent :
  get_match_key (scenario_prediction "Fonbet")
  = get_match_key (scenario_prediction "Winline")
  /\ Send (-100) (scenario_prediction "Fonbet") (Returned tt)
       ∈ trace duplicate_after_first
  /\ database.is_prediction_sent (get_match_key (scenario_prediction "Fonbet"))
       (store duplicate_after_first) = true
  /\ send_predictions_to_subscribed_users tg_ok
       (Some [scenario_prediction "Fonbet"; scenario_prediction "Winline"])
       duplicate_start = duplicate_after_second
  /\ trace duplicate_after_second
     = trace duplicate_after_first
       ++ [GetChatMember (-100);
           Send (-100) (scenario_prediction "Winline") (Returned tt);
           Sleep 1].
Proof.
  split; [reflexivity|]. split; [|split; [|split]].
  - vm_compute. apply list_elem_of_further, list_elem_of_here.
  - vm_compute. reflexivity.
  - vm_compute. reflexivity.
  - vm_compute. reflexivity.
Qed.

(** C2, amended.  When [F] is in the sent-prediction ledger at the start
    of a pass, the pass sends no message for any prediction that
    normalizes to [F], [F] is still recorded when the pass ends, and a
    batch made only of such predictions leaves the world untouched. *)
Theorem ledger_suppresses_later_passes (tg : telegram)
    (predictions : option (list prediction)) (w : world) (F : string) :
  database.is_prediction_sent F (store w) = true ->
  let w' := send_predictions_to_subscribed_users tg predictions w in
  emits (not_for F) w w'
  /\ database.is_prediction_sent F (store w') = true
  /\ ((forall p, p ∈ default [] predictions -> get_match_key p = F) -> w' = w).
Proof.
  intros HF. destruct predictions as [ps|]; cbn.
  2:{ split; [apply emits_refl|]. by split. }
  split; [|split].
  - apply (fold_left_rel (emits (not_for F))).
    + apply emits_refl.
    + apply emits_trans.
    + intros s [k p] Hin. apply new_predictions_to_send_elem in Hin
        as (_ & _ & -> & Hs).
      eapply emits_weaken; [|apply send_one_fan_out].
      intros [| c q r |] [Hq|Hq]; cbn in *; try done.
      subst q. intros Heq. congruence.
  - by apply fold_send_one_grows.
  - intros Hall.
    assert (new_predictions_to_send (store w) ps = []) as ->; [|done].
    destruct (new_predictions_to_send (store w) ps) as [|[k p] q] eqn:Hq; [done|].
    assert ((k, p) ∈ new_predictions_to_send (store w) ps) as Hin
      by (rewrite Hq; apply list_elem_of_here).
    apply new_predictions_to_send_elem in Hin as (Hin & _ & -> & Hs).
    rewrite (Hall p Hin) in Hs. congruence.
Qed.

Lemma ledger_suppresses_later_passes_witness :
  emits (not_for scenario_key) already_sent_world
    (send_predictions_to_subscribed_users tg_ok
       (Some [scenario_prediction "Winline"]) already_sent_world)
  /\ database.is_prediction_sent scenario_key
       (store (send_predictions_to_subscribed_users tg_ok
                 (Some [scenario_prediction "Winline"]) already_sent_world))
     = true
  /\ ((forall p, p ∈ [scenario_prediction "Winline"] ->
       get_match_key p = scenario_key) ->
      send_predictions_to_subscribed_users tg_ok
        (Some [scenario_prediction "Winline"]) already_sent_world
      = already_sent_world).
Proof.
  apply (ledger_suppresses_later_passes tg_ok
           (Some [scenario_prediction "Winline"]) already_sent_world
           scenario_key).
  vm_compute. reflexivity.
Defined.

(** *** The commit of the fingerprint *)

(** The distribution function itself commits only after a delivery.  On
    the outage the first call raises, the fan-out is left and the pass
    goes on without a commit: the prediction is fanned out again by the
    next pass. *)
Example outage_pass_keeps_ledger :
  send_prediction_to_user_and_channel tg_down
    (scenario_prediction "Fonbet") (start small_store)
  = (World small_store 1000 1 [GetChatMember (-100)] 0, Raised AttributeError)
  /\ trace outage_pass = [GetChatMember (-100)]
  /\ store outage_pass = small_store
  /\ trace (send_predictions_to_subscribed_users tg_ok
              (Some [scenario_prediction "Fonbet"]) outage_pass)
     = [GetChatMember (-100);
        GetChatMember (-100);
        Send (-100) (scenario_prediction "Fonbet") (Returned tt);
        Send 7 (scenario_prediction "Fonbet") (Returned tt);
        Sleep 1].
Proof. repeat split; vm_compute; reflexivity. Qed.

(** C1.  The code at the failing inputs.  Whenever the fan-out returns,
    the pass records the fingerprint, whatever was delivered.  So it does
    on a prediction without bookmaker, for which nothing is attempted; on
    a prediction that the channel and the subscriber both filter out; and
    when the bot is not administrator of the only channel and there is no
    user.  In the three passes no message is sent, the fingerprint,
    absent before, is in the ledger afterwards, and the next pass over
    the same prediction on a working network does nothing. *)
Theorem pass_commits_without_delivery :
  (forall (tg : telegram) (w : world) (key : string) (pred : prediction),
     (send_prediction_to_user_and_channel tg pred w).2 = Returned tt ->
     database.is_prediction_sent key (store (send_one tg w (key, pred))) = true)
  /\ (trace no_bookmaker_pass = [Sleep 1]
      /\ database.is_prediction_sent (get_match_key no_bookmaker_prediction)
           (store (start small_store)) = false
      /\ database.is_prediction_sent (get_match_key no_bookmaker_prediction)
           (store no_bookmaker_pass) = true
      /\ send_predictions_to_subscribed_users tg_ok
           (Some [no_bookmaker_prediction]) no_bookmaker_pass
         = no_bookmaker_pass)
  /\ (trace skipped_pass = [Sleep 1]
      /\ database.is_prediction_sent scenario_key
           (store (start two_preferences_store)) = false
      /\ database.is_prediction_sent scenario_key (store skipped_pass) = true
      /\ send_predictions_to_subscribed_users tg_ok
           (Some [scenario_prediction "Olimp"]) skipped_pass = skipped_pass)
  /\ (trace not_admin_pass = [GetChatMember (-100); Sleep 1]
      /\ database.is_prediction_sent scenario_key
           (store (start channel_only_store)) = false
      /\ database.is_prediction_sent scenario_key (store not_admin_pass) = true
      /\ send_predictions_to_subscribed_users tg_ok
           (Some [scenario_prediction "Fonbet"]) not_admin_pass
         = not_admin_pass).
Proof.
  split; [intros tg w key pred Hret; by apply send_one_returned|].
  repeat split; vm_compute; reflexivity.
Qed.

(** *** Pause expiry *)

Lemma get_user_update_users (uid : Z)
    (f : database.user_row -> database.user_row) (db : database.t) :
  (forall r, database.user_id (f r) = database.user_id r) ->
  database.get_user uid (database.update_users (database.has_user_id uid) f db)
  = f <$> database.get_user uid db.
Proof.
  intros Hid. unfold database.get_user, database.update_users. cbn.
  induction (database.users db) as [|r l IH]; [reflexivity|]. cbn.
  destruct (database.has_user_id uid r) eqn:Hr.
  - unfold database.has_user_id in *. rewrite Hid, Hr. reflexivity.
  - rewrite Hr. exact IH.
Qed.

Lemma paused_row_is_not_active (now : Z) (r : database.user_row) :
  database.is_paused r = true -> database.is_active_user now r = false.
Proof.
  intros Hp. unfold database.is_active_user. rewrite Hp.
  destruct (database.end_date r); [apply andb_false_r | reflexivity].
Qed.

(** The fan-out draws its users from [get_all_active_users]: no row with
    the pause flag set is among them, whatever its [pause_until]. *)
Lemma paused_rows_are_not_fanned_out (now : Z) (db : database.t)
    (r : database.user_row) :
  database.is_paused r = true -> r ∉ database.get_all_active_users now db.
Proof.
  intros Hp Hin. apply list_elem_of_In, filter_In in Hin as [_ Hact].
  by rewrite paused_row_is_not_active in Hact.
Qed.

(** Asked directly, [is_user_paused] does resolve a lapsed pause: it
    answers false and writes the cleared flag. *)
Lemma is_user_paused_lazy_expiry (now uid pu : Z) (db : database.t)
    (row : database.user_row) :
  database.get_user uid db = Some row ->
  database.is_paused row = true ->
  database.pause_until row = Some pu ->
  pu < now ->
  database.is_user_paused now uid db
  = (false, database.unpause_subscription uid db)
  /\ database.is_paused <$>
       database.get_user uid (database.unpause_subscription uid db)
     = Some false.
Proof.
  intros Hrow Hp Hpu Hlt. split.
  - unfold database.is_user_paused. rewrite Hrow, Hp, Hpu. cbn.
    by rewrite (proj2 (Z.ltb_lt pu now) Hlt).
  - unfold database.unpause_subscription.
    rewrite get_user_update_users by reflexivity. by rewrite Hrow.
Qed.

(** The sweep resumes the user, but not on the day the pause ran out:
    it compares [pause_until] with now as texts. *)
Example sweep_resumes_lapsed_pause :
  database.check_and_resume_users 1000 lapsed_pause_store = lapsed_pause_store
  /\ database.get_all_active_users 90000
       (database.check_and_resume_users 90000 lapsed_pause_store)
     = [database.UserRow 7 None false (Some 900000) false (Some 900)].
Proof. split; reflexivity. Qed.

(** C3.  The code at the failing input.  For the subscriber whose pause
    ran out, [is_user_paused] answers false and clears the flag; but the
    pass never gets to ask: the user is not among the active users,
    receives nothing on a working network, and the stored row is still
    paused after the pass. *)
Theorem lapsed_pause_survives_the_pass :
  database.is_user_paused 1000 7 lapsed_pause_store
  = (false, database.unpause_subscription 7 lapsed_pause_store)
  /\ database.is_paused <$>
       database.get_user 7 (database.unpause_subscription 7 lapsed_pause_store)
     = Some false
  /\ database.get_all_active_users 1000 lapsed_pause_store = []
  /\ trace lapsed_pause_pass = [Sleep 1]
  /\ database.get_user 7 (store lapsed_pause_pass)
     = Some (database.UserRow 7 None false (Some 900000) true (Some 900)).
Proof.
  repeat split; vm_compute; reflexivity.
Qed.

(** *** Rate limits *)

(** A user step never sleeps and sends at most once. *)
Lemma send_to_user_calls (tg : telegram) (pred : prediction)
    (bookmaker_name key : string) (lim : database.signal_limits_row)
    (w : world) (t : tally) (u : database.user_row) :
  let w' := (send_to_user tg pred bookmaker_name key lim (w, t) u).1 in
  now w' = now w
  /\ (trace w' = trace w
      \/ exists r, trace w' = trace w ++ [Send (database.user_id u) pred r]).
Proof.
  cbn. unfold send_to_user, bot_send_message, with_store.
  repeat case_match; simplify_eq; cbn; split; try reflexivity; eauto.
Qed.

(** A channel step never sleeps, asks for the membership at most once and
    sends at most once. *)
Lemma send_to_channel_calls (tg : telegram) (pred : prediction)
    (bookmaker_name : string) (w : world) (t : tally)
    (ch : database.channel_row) :
  let w' := (send_to_channel tg pred bookmaker_name (w, t) ch).1 in
  let cid := database.channel_id ch in
  now w' = now w
  /\ (trace w' = trace w
      \/ trace w' = trace w ++ [GetChatMember cid]
      \/ exists r, trace w' = trace w ++ [GetChatMember cid; Send cid pred r]).
Proof.
  cbn. unfold send_to_channel, bot_get_chat_member, bot_send_message.
  repeat case_match; simplify_eq; cbn; rewrite <- ?app_assoc; cbn;
    split; try reflexivity; eauto.
Qed.

Lemma send_to_channel_no_backoff (tg : telegram) (pred : prediction)
    (bookmaker_name : string) (st : world * tally) (ch : database.channel_row) :
  emits no_backoff st.1 (send_to_channel tg pred bookmaker_name st ch).1.
Proof.
  destruct st as [w t].
  destruct (send_to_channel_calls tg pred bookmaker_name w t ch)
    as [_ [H|[H|[r H]]]]; cbn in *.
  - by apply emits_same_trace.
  - by eapply emits_one.
  - eexists. split; [exact H|]. by repeat constructor.
Qed.

Lemma send_to_user_no_backoff (tg : telegram) (pred : prediction)
    (bookmaker_name key : string) (lim : database.signal_limits_row)
    (st : world * tally) (u : database.user_row) :
  emits no_backoff st.1 (send_to_user tg pred bookmaker_name key lim st u).1.
Proof.
  destruct st as [w t].
  destruct (send_to_user_calls tg pred bookmaker_name key lim w t u)
    as [_ [H|[r H]]]; cbn in *.
  - by apply emits_same_trace.
  - by eapply emits_one.
Qed.

(** The only sleep of a pass is the second after a fan-out that returned. *)
Lemma pass_never_backs_off (tg : telegram)
    (predictions : option (list prediction)) (w : world) :
  emits no_backoff w (send_predictions_to_subscribed_users tg predictions w).
Proof.
  destruct predictions as [ps|]; cbn; [|apply emits_refl].
  apply (fold_left_rel (emits no_backoff)).
  - apply emits_refl.
  - apply emits_trans.
  - intros s [k p] _. apply send_one_rel.
    + apply emits_refl.
    + apply emits_trans.
    + apply send_prediction_rel.
      * apply emits_refl.
      * apply emits_trans.
      * intros st ch _. apply send_to_channel_no_backoff.
      * intros w1 st u _ _. apply send_to_user_no_backoff.
      * intros w1. by apply emits_same_trace.
      * intros w1. by apply emits_same_trace.
    + intros w1. by apply emits_same_trace.
    + intros w1. by eapply emits_one.
Qed.

(** C7.  The code at the failing input, and in general.  No step of the
    fan-out sleeps or sends twice, and the only sleep of a pass is its
    second between predictions, whatever the network answers.  On a rate
    limit of 30 seconds the single send to the subscriber, and likewise
    the single send to the channel, is followed by nothing: the step is
    left by [AttributeError], nothing is counted, the clock has not moved;
    the pass over the store with the channel and the subscriber ends
    there, with the subscriber not served and the fingerprint not
    recorded. *)
Theorem rate_limit_is_not_retried :
  (forall (tg : telegram) (pred : prediction) (bookmaker_name key : string)
          (lim : database.signal_limits_row) (w : world) (t : tally)
          (u : database.user_row),
     let w' := (send_to_user tg pred bookmaker_name key lim (w, t) u).1 in
     now w' = now w
     /\ (trace w' = trace w
         \/ exists r, trace w' = trace w ++ [Send (database.user_id u) pred r]))
  /\ (forall (tg : telegram) (pred : prediction) (bookmaker_name : string)
             (w : world) (t : tally) (ch : database.channel_row),
        let w' := (send_to_channel tg pred bookmaker_name (w, t) ch).1 in
        let cid := database.channel_id ch in
        now w' = now w
        /\ (trace w' = trace w
            \/ trace w' = trace w ++ [GetChatMember cid]
            \/ exists r,
                 trace w' = trace w ++ [GetChatMember cid; Send cid pred r]))
  /\ (forall (tg : telegram) (predictions : option (list prediction))
             (w : world),
        emits no_backoff w
          (send_predictions_to_subscribed_users tg predictions w))
  /\ send_to_user tg_flood (scenario_prediction "Fonbet") "Fonbet" scenario_key
       (database.SignalLimits 10 5 24) (start small_store, no_tally) (subscriber 7)
     = (World small_store 1000 1
          [Send 7 (scenario_prediction "Fonbet")
             (Raised (TelegramRetryAfter 30))] 0,
        Raised AttributeError)
  /\ send_to_channel (tg_retry_at 1) (scenario_prediction "Fonbet") "Fonbet"
       (start small_store, no_tally) (database.ChannelRow (-100) "main" true 0)
     = (World small_store 1000 2
          [GetChatMember (-100);
           Send (-100) (scenario_prediction "Fonbet")
             (Raised (TelegramRetryAfter 30))] 0,
        Raised AttributeError)
  /\ rate_limited_pass
     = World small_store 1000 2
         [GetChatMember (-100);
          Send (-100) (scenario_prediction "Fonbet")
            (Raised (TelegramRetryAfter 30))] 0
  /\ database.is_prediction_sent scenario_key (store rate_limited_pass) = false.
Proof.
  split; [apply send_to_user_calls|].
  split; [apply send_to_channel_calls|].
  split; [apply pass_never_backs_off|].
  repeat split; vm_compute; reflexivity.
Qed.

(** *** The quota threshold *)




(** The two deliveries of the specification, computed. *)
Example fifth_delivery_pauses :
  database.get_user_daily_signal_count 1000 7 (quota_store 4) = 4
  /\ fifth_delivery.2 = Returned (Tally 1 0 0)
  /\ database.get_user 7 (store fifth_delivery.1)
     = Some (database.UserRow 7 None false (Some 900000) true (Some 87400)).
Proof. repeat split; vm_compute; reflexivity. Qed.

Example fourth_delivery_does_not_pause :
  database.get_user_daily_signal_count 1000 7 (quota_store 3) = 3
  /\ fourth_delivery.2 = Returned (Tally 1 0 0)
  /\ database.get_user 7 (store fourth_delivery.1) = Some (subscriber 7).
Proof. repeat split; vm_compute; reflexivity. Qed.

(** *** The bookmaker filter *)

Lemma get_user_bookmakers_elem (uid : Z) (db : database.t)
    (b : database.bookmaker_row) :
  b ∈ database.get_user_bookmakers uid db <->
  b ∈ database.bookmakers db
  /\ database.bookmaker_is_active b = true
  /\ exists ub, ub ∈ database.user_bookmakers db
                /\ database.ub_user_id ub = uid
                /\ database.bookmaker_id b = database.ub_bookmaker_id ub.
Proof.
  unfold database.get_user_bookmakers.
  rewrite list_elem_of_In, in_flat_map. split.
  - intros (b' & Hb' & Hin). apply in_flat_map in Hin as (ub & Hub & Hin).
    destruct (bool_decide _ && bool_decide _ && _) eqn:Hc; [|by destruct Hin].
    destruct Hin as [->|[]].
    apply andb_true_iff in Hc as [Hc Hact].
    apply andb_true_iff in Hc as [Hid Huid].
    apply bool_decide_eq_true in Hid, Huid.
    split; [by apply list_elem_of_In|]. split; [done|].
    exists ub. by rewrite list_elem_of_In.
  - intros (Hb & Hact & ub & Hub & Huid & Hid).
    exists b. split; [by apply list_elem_of_In|].
    apply in_flat_map. exists ub. split; [by apply list_elem_of_In|].
    rewrite Hact, !bool_decide_eq_true_2 by done. by left.
Qed.

Lemma get_channel_bookmakers_elem (cid : Z) (db : database.t)
    (b : database.bookmaker_row) (selected : bool) :
  (b, selected) ∈ database.get_channel_bookmakers cid db <->
  b ∈ database.bookmakers db
  /\ database.bookmaker_is_active b = true
  /\ exists cb, cb ∈ database.channel_bookmakers db
                /\ database.cb_channel_id cb = cid
                /\ database.bookmaker_id b = database.cb_bookmaker_id cb
                /\ database.cb_is_selected cb = selected.
Proof.
  unfold database.get_channel_bookmakers.
  rewrite merge_sort_Permutation.
  rewrite list_elem_of_In, in_flat_map. split.
  - intros (b' & Hb' & Hin). apply in_flat_map in Hin as (cb & Hcb & Hin).
    destruct (bool_decide _ && bool_decide _ && _) eqn:Hc; [|by destruct Hin].
    destruct Hin as [[= -> <-]|[]].
    apply andb_true_iff in Hc as [Hc Hact].
    apply andb_true_iff in Hc as [Hid Hcid].
    apply bool_decide_eq_true in Hid, Hcid.
    split; [by apply list_elem_of_In|]. split; [done|].
    exists cb. by rewrite list_elem_of_In.
  - intros (Hb & Hact & cb & Hcb & Hcid & Hid & Hsel).
    exists b. split; [by apply list_elem_of_In|].
    apply in_flat_map. exists cb. split; [by apply list_elem_of_In|].
    rewrite Hact, !bool_decide_eq_true_2 by done. left. by subst selected.
Qed.

(** The names a channel has selected among the active bookmakers. *)
Lemma channel_bk_names_elem (cid : Z) (db : database.t) (n : string) :
  n ∈ List.map (fun bk : database.bookmaker_row * bool => database.bookmaker_name bk.1)
        (List.filter (fun bk => bk.2) (database.get_channel_bookmakers cid db))
  <-> exists b, (b, true) ∈ database.get_channel_bookmakers cid db
                /\ database.bookmaker_name b = n.
Proof.
  rewrite list_elem_of_In, in_map_iff. split.
  - intros ([b s] & <- & Hin). apply filter_In in Hin as [Hin Hs].
    cbn in Hs. subst s. exists b. by rewrite list_elem_of_In.
  - intros (b & Hin & <-). exists (b, true). split; [done|].
    apply filter_In. by rewrite <- list_elem_of_In.
Qed.

Lemma nil_iff_no_elem {A : Type} (l : list A) : l = [] <-> forall x, x ∉ l.
Proof.
  split; [intros -> x; apply not_elem_of_nil|].
  destruct l as [|a l]; [done|]. intros H. destruct (H a). apply list_elem_of_here.
Qed.

Lemma user_accepts_wildcard (db : database.t) (uid : Z) (name : string) :
  database.get_user_bookmakers uid db = [] -> user_accepts db uid name = true.
Proof. intros H. unfold user_accepts. by rewrite H. Qed.


Lemma channel_accepts_iff (db : database.t) (cid : Z) (name : string) :
  channel_accepts db cid name = true <->
  (forall b, (b, true) ∉ database.get_channel_bookmakers cid db)
  \/ exists b, (b, true) ∈ database.get_channel_bookmakers cid db
               /\ database.bookmaker_name b = name.
Proof.
  unfold channel_accepts, mem.
  rewrite negb_true_iff, andb_false_iff, !negb_false_iff, !bool_decide_eq_true.
  rewrite channel_bk_names_elem, nil_iff_no_elem.
  split; (intros [H|H]; [left|by right]).
  - intros b Hb. apply (H (database.bookmaker_name b)).
    apply channel_bk_names_elem. by exists b.
  - intros n Hn. apply channel_bk_names_elem in Hn as (b & Hb & _). by apply (H b).
Qed.

(** The filter reads two tables only. *)
Lemma user_accepts_ext (db db' : database.t) (uid : Z) (name : string) :
  database.bookmakers db' = database.bookmakers db ->
  database.user_bookmakers db' = database.user_bookmakers db ->
  user_accepts db' uid name = user_accepts db uid name.
Proof.
  intros Hb Hub. unfold user_accepts, database.get_user_bookmakers.
  by rewrite Hb, Hub.
Qed.

Lemma no_rows_no_user_bookmakers (db : database.t) (uid : Z) :
  (forall ub, ub ∈ database.user_bookmakers db -> database.ub_user_id ub ≠ uid) ->
  database.get_user_bookmakers uid db = [].
Proof.
  intros Hnone. apply nil_iff_no_elem. intros b Hb.
  apply get_user_bookmakers_elem in Hb as (_ & _ & ub & Hub & Huid & _).
  by apply (Hnone ub).
Qed.





(** Membership in a table written out row by row. *)
Ltac in_rows H :=
  repeat (apply elem_of_cons in H as [->|H]);
  try (by apply elem_of_nil in H).


(** *** Preferences for deactivated bookmakers *)

Lemma clear_user_bookmakers_none (uid : Z) (db : database.t) :
  database.get_user_bookmakers uid (database.clear_user_bookmakers uid db) = [].
Proof.
  apply no_rows_no_user_bookmakers. intros ub Hub. cbn in Hub.
  apply list_elem_of_In, filter_In in Hub as [_ Hne].
  apply negb_true_iff, bool_decide_eq_false in Hne. exact Hne.
Qed.

Lemma is_user_paused_clear (now uid uid' : Z) (db : database.t) :
  database.is_user_paused now uid (database.clear_user_bookmakers uid' db)
  = ((database.is_user_paused now uid db).1,
     database.clear_user_bookmakers uid' (database.is_user_paused now uid db).2).
Proof.
  unfold database.is_user_paused.
  change (database.get_user uid (database.clear_user_bookmakers uid' db))
    with (database.get_user uid db).
  repeat case_match; reflexivity.
Qed.

(** C9.  When every preference row of a user points at a bookmaker that
    is switched off, [get_user_bookmakers] returns the empty list and the
    filter lets every bookmaker name through.  The user step does exactly
    what it does on the store from which the user's rows have been
    deleted; and when the user is not paused and below the daily maximum,
    it sends the message of the prediction to the user, whatever the
    bookmaker: the step's one event is that send, and when the send
    returns the user is counted as sent and the delivery is recorded. *)
Theorem deactivated_preferences_are_wildcard (db : database.t) (uid : Z) :
  (forall ub b,
     ub ∈ database.user_bookmakers db -> b ∈ database.bookmakers db ->
     database.ub_user_id ub = uid ->
     database.bookmaker_id b = database.ub_bookmaker_id ub ->
     database.bookmaker_is_active b = false) ->
  database.get_user_bookmakers uid db = []
  /\ (forall name, user_accepts db uid name = true)
  /\ (forall tg pred name key lim w t u,
        store w = db -> database.user_id u = uid ->
        send_to_user tg pred name key lim
          (with_store (database.clear_user_bookmakers uid) w, t) u
        = (with_store (database.clear_user_bookmakers uid)
             (send_to_user tg pred name key lim (w, t) u).1,
           (send_to_user tg pred name key lim (w, t) u).2))
  /\ (forall tg pred name key lim w t u,
        store w = db -> database.user_id u = uid ->
        (database.is_user_paused (now w) uid db).1 = false ->
        database.get_user_daily_signal_count (now w) uid db
        < database.max_signals_per_day lim ->
        let st' := send_to_user tg pred name key lim (w, t) u in
        trace st'.1 = trace w ++ [Send uid pred (send_message tg (calls w) uid)]
        /\ (send_message tg (calls w) uid = Returned tt ->
            st'.2 = Returned (count_sent t)
            /\ database.user_predictions (store st'.1)
               = database.user_predictions db
                 ++ [database.UserPredictionRow uid key (now w)])).
Proof.
  intros Hoff.
  assert (Hnil : database.get_user_bookmakers uid db = []).
  { apply nil_iff_no_elem. intros b Hb.
    apply get_user_bookmakers_elem in Hb as (Hb & Hact & ub & Hub & Huid & Hid).
    rewrite (Hoff ub b Hub Hb Huid Hid) in Hact. discriminate. }
  split; [exact Hnil|]. split; [intros name; by apply user_accepts_wildcard|].
  split.
  - intros tg pred name key lim w t u <- <-.
    unfold send_to_user. cbn [with_store store now calls trace rearmed].
    rewrite is_user_paused_clear.
    pose proof (is_user_paused_frame (now w) (database.user_id u) (store w)) as Hp.
    destruct (database.is_user_paused (now w) (database.user_id u) (store w))
      as [paused db1]. cbn in Hp. destruct Hp as (_ & _ & Hb & Hub & _).
    cbn [fst snd]. destruct paused; [reflexivity|].
    cbn [with_store store now calls trace rearmed].
    change (database.get_user_daily_signal_count (now w) (database.user_id u)
              (database.clear_user_bookmakers (database.user_id u) db1))
      with (database.get_user_daily_signal_count (now w) (database.user_id u) db1).
    destruct (_ <=? _); [reflexivity|].
    rewrite (user_accepts_wildcard _ _ _ (clear_user_bookmakers_none _ db1)).
    rewrite (user_accepts_ext (store w) db1) by done.
    rewrite (user_accepts_wildcard _ _ _ Hnil). cbn [negb].
    unfold bot_send_message. cbn [with_store store now calls trace rearmed].
    destruct (send_message tg (calls w) (database.user_id u)) as [[]|e].
    + cbn [with_store store now calls trace rearmed].
      destruct (_ <=? _); reflexivity.
    + reflexivity.
  - intros tg pred name key lim w t u <- <- Hnot Hbelow. cbn zeta.
    unfold send_to_user.
    pose proof (is_user_paused_frame (now w) (database.user_id u) (store w)) as Hp.
    destruct (database.is_user_paused (now w) (database.user_id u) (store w))
      as [paused db1]. cbn in Hp, Hnot. destruct Hp as (_ & Hups & Hb & Hub & _).
    subst paused. cbn [with_store store now calls trace rearmed].
    assert (Hcount :
      database.get_user_daily_signal_count (now w) (database.user_id u) db1
      = database.get_user_daily_signal_count (now w) (database.user_id u)
          (store w)).
    { unfold database.get_user_daily_signal_count. by rewrite Hups. }
    rewrite Hcount.
    rewrite (proj2 (Z.leb_gt _ _) Hbelow).
    rewrite (user_accepts_ext (store w) db1) by done.
    rewrite (user_accepts_wildcard _ _ _ Hnil). cbn [negb].
    unfold bot_send_message. cbn [with_store store now calls trace rearmed].
    destruct (send_message tg (calls w) (database.user_id u)) as [[]|e].
    + cbn [with_store store now calls trace rearmed].
      destruct (_ <=? _); cbn; (split; [reflexivity|]); intros _;
        (split; [reflexivity|]); by rewrite Hups.
    + cbn. split; [reflexivity|]. discriminate.
Qed.

Lemma deactivated_preferences_are_wildcard_witness :
  database.get_user_bookmakers 7 switched_off_store = []
  /\ (forall name, user_accepts switched_off_store 7 name = true)
  /\ trace (send_to_user tg_ok (scenario_prediction "Olimp") "Olimp"
              scenario_key (database.SignalLimits 10 5 24)
              (start switched_off_store, no_tally) (subscriber 7)).1
     = [Send 7 (scenario_prediction "Olimp") (Returned tt)]
  /\ (send_to_user tg_ok (scenario_prediction "Olimp") "Olimp"
        scenario_key (database.SignalLimits 10 5 24)
        (start switched_off_store, no_tally) (subscriber 7)).2
     = Returned (count_sent no_tally).
Proof.
  destruct (deactivated_preferences_are_wildcard switched_off_store 7)
    as (Hnil & Hacc & _ & Hsend).
  { intros ub b Hub Hb Huid Hid. cbn in Hub, Hb.
    in_rows Hub; in_rows Hb; cbn in *; done. }
  split; [exact Hnil|]. split; [exact Hacc|].
  destruct (Hsend tg_ok (scenario_prediction "Olimp") "Olimp"%string scenario_key
              (database.SignalLimits 10 5 24) (start switched_off_store)
              no_tally (subscriber 7)) as [Htrace Hret].
  - reflexivity.
  - reflexivity.
  - reflexivity.
  - vm_compute. reflexivity.
  - split; [exact Htrace|]. by apply Hret.
Defined.

(** *** A paused user and the pass *)

Lemma leaves_alone_refl (uid : Z) (w : world) : leaves_alone uid w w.
Proof. split; [apply emits_refl | by split]. Qed.

Lemma leaves_alone_trans (uid : Z) (w1 w2 w3 : world) :
  leaves_alone uid w1 w2 -> leaves_alone uid w2 w3 -> leaves_alone uid w1 w3.
Proof.
  intros (E1 & R1 & C1) (E2 & R2 & C2). split; [by eapply emits_trans|].
  split; congruence.
Qed.

Lemma rows_of_update_users (uid uid' : Z)
    (f : database.user_row -> database.user_row) (db : database.t) :
  uid ≠ uid' ->
  (forall r, database.user_id (f r) = database.user_id r) ->
  rows_of uid (database.update_users (database.has_user_id uid') f db)
  = rows_of uid db.
Proof.
  intros Hne Hid. unfold rows_of, database.update_users. cbn.
  induction (database.users db) as [|r l IH]; [reflexivity|]. cbn.
  unfold database.has_user_id in *.
  destruct (bool_decide (database.user_id r = uid')) eqn:Hr'.
  - apply bool_decide_eq_true in Hr'. rewrite Hid.
    rewrite !bool_decide_eq_false_2 by congruence. exact IH.
  - destruct (bool_decide (database.user_id r = uid)); [by rewrite IH|exact IH].
Qed.

Lemma rows_of_is_user_paused (uid uid' now : Z) (db : database.t) :
  uid ≠ uid' ->
  rows_of uid (database.is_user_paused now uid' db).2 = rows_of uid db.
Proof.
  intros Hne. unfold database.is_user_paused.
  repeat case_match; cbn [snd]; try reflexivity.
  unfold database.unpause_subscription. by apply rows_of_update_users.
Qed.

Lemma channel_ids_update_channel (cid : Z) (a : option bool)
    (n : option string) (db : database.t) :
  List.map database.channel_id (database.channels (database.update_channel cid a n db))
  = List.map database.channel_id (database.channels db).
Proof.
  unfold database.update_channel. cbn. rewrite List.map_map.
  apply List.map_ext. intros r. by case_match.
Qed.

Lemma send_to_channel_leaves_alone (tg : telegram) (pred : prediction)
    (bookmaker_name : string) (st : world * tally) (ch : database.channel_row)
    (uid : Z) :
  database.channel_id ch ≠ uid ->
  leaves_alone uid st.1 (send_to_channel tg pred bookmaker_name st ch).1.
Proof.
  intros Hne. destruct st as [w t].
  destruct (send_to_channel_frame tg pred bookmaker_name (w, t) ch) as (Hu & _).
  split; [|split].
  - unfold send_to_channel, bot_get_chat_member, bot_send_message.
    repeat case_match; simplify_eq; cbn; step_events.
  - unfold rows_of. by rewrite Hu.
  - unfold send_to_channel, bot_get_chat_member, bot_send_message.
    repeat case_match; simplify_eq; reflexivity.
Qed.

Lemma send_to_user_leaves_alone (tg : telegram) (pred : prediction)
    (bookmaker_name key : string) (lim : database.signal_limits_row)
    (st : world * tally) (u : database.user_row) (uid : Z) :
  database.user_id u ≠ uid ->
  leaves_alone uid st.1 (send_to_user tg pred bookmaker_name key lim st u).1.
Proof.
  intros Hne. destruct st as [w t].
  destruct (send_to_user_frame tg pred bookmaker_name key lim (w, t) u)
    as (_ & _ & _ & Hch & _).
  split; [|split].
  - unfold send_to_user, bot_send_message, with_store.
    repeat case_match; simplify_eq; cbn; step_events.
  - unfold send_to_user, bot_send_message, with_store.
    pose proof (rows_of_is_user_paused uid (database.user_id u) (now w) (store w))
      as Hrows.
    destruct (database.is_user_paused (now w) (database.user_id u) (store w))
      as [paused db1]. cbn [snd] in Hrows.
    repeat case_match; simplify_eq; cbn [fst store now];
      try (by apply Hrows; congruence).
    unfold database.set_user_pause.
    rewrite rows_of_update_users by (congruence || reflexivity).
    by apply Hrows; congruence.
  - by rewrite Hch.
Qed.

Lemma add_sent_prediction_leaves_alone (uid : Z) (k : string) (w : world) :
  leaves_alone uid w (with_store (database.add_sent_prediction (now w) k) w).
Proof.
  split; [by apply emits_same_trace|].
  unfold rows_of, with_store, database.add_sent_prediction. cbn.
  by destruct (database.sent_predictions (store w) !! k).
Qed.

(** A user all of whose rows carry the pause flag, and whose id is not
    that of a channel, gets no message from the fan-out of a prediction,
    and the rows stay as they are: no step of the fan-out looks at
    [pause_until]. *)
Lemma fan_out_leaves_paused_user (tg : telegram) (pred : prediction)
    (w : world) (uid : Z) :
  (forall r, r ∈ rows_of uid (store w) -> database.is_paused r = true) ->
  uid ∉ List.map database.channel_id (database.channels (store w)) ->
  leaves_alone uid w (send_prediction_to_user_and_channel tg pred w).1.
Proof.
  intros Hpaused Hnochan. apply send_prediction_rel.
  - apply leaves_alone_refl.
  - apply leaves_alone_trans.
  - intros st ch Hin. apply send_to_channel_leaves_alone. intros Heq.
    apply Hnochan. unfold database.get_all_channels in Hin.
    rewrite merge_sort_Permutation in Hin.
    rewrite <- Heq. apply list_elem_of_In, in_map. by apply list_elem_of_In.
  - intros w1 st u Hw1 Hin. apply send_to_user_leaves_alone. intros Heq.
    apply list_elem_of_In, filter_In in Hin as [Hin Hact].
    rewrite paused_row_is_not_active in Hact; [done|].
    apply Hpaused. destruct Hw1 as (_ & <- & _).
    apply list_elem_of_In, filter_In. split; [done|].
    unfold database.has_user_id. by apply bool_decide_eq_true.
  - intros w1. apply add_sent_prediction_leaves_alone.
  - intros w1. split; [by apply emits_same_trace | by split].
Qed.

(** The same for a whole pass: without the sweep, a pass neither writes to
    a user whose flag is set nor clears the flag, however long ago
    [pause_until] was. *)
Lemma pass_leaves_paused_user (tg : telegram)
    (predictions : option (list prediction)) (w : world) (uid : Z) :
  (forall r, r ∈ rows_of uid (store w) -> database.is_paused r = true) ->
  uid ∉ List.map database.channel_id (database.channels (store w)) ->
  leaves_alone uid w (send_predictions_to_subscribed_users tg predictions w).
Proof.
  intros Hpaused Hnochan.
  destruct predictions as [ps|]; cbn; [|apply leaves_alone_refl].
  generalize (new_predictions_to_send (store w) ps). intros queue.
  revert w Hpaused Hnochan.
  induction queue as [|[k p] queue IH]; intros w Hpaused Hnochan;
    [apply leaves_alone_refl|].
  change (fold_left (send_one tg) ((k, p) :: queue) w)
    with (fold_left (send_one tg) queue (send_one tg w (k, p))).
  assert (Hone : leaves_alone uid w (send_one tg w (k, p))).
  { apply send_one_rel.
    - apply leaves_alone_refl.
    - apply leaves_alone_trans.
    - by apply fan_out_leaves_paused_user.
    - intros w1. apply add_sent_prediction_leaves_alone.
    - intros w1. split; [|by split].
      eapply emits_one; [reflexivity|]. by cbn. }
  eapply leaves_alone_trans; [exact Hone|].
  destruct Hone as (_ & Hrows & Hids).
  apply IH.
  - by rewrite Hrows.
  - by rewrite Hids.
Qed.

(** ** Further properties of the engine *)

(** *** What a run writes *)

Lemma Forall2_refl_on {A : Type} (R : A -> A -> Prop) (l : list A) :
  (forall x, R x x) -> Forall2 R l l.
Proof. intros HR. induction l; by constructor. Qed.

Lemma Forall2_trans_on {A : Type} (R : A -> A -> Prop) (l1 l2 l3 : list A) :
  (forall x y z, R x y -> R y z -> R x z) ->
  Forall2 R l1 l2 -> Forall2 R l2 l3 -> Forall2 R l1 l3.
Proof.
  intros HR H12. revert l3. induction H12; intros l3 H23; inversion H23; subst;
    constructor; eauto.
Qed.

Lemma Forall2_map_r_on {A : Type} (R : A -> A -> Prop) (g : A -> A) (l : list A) :
  (forall x, R x (g x)) -> Forall2 R l (List.map g l).
Proof. intros HR. induction l; cbn; by constructor. Qed.

Lemma same_subscriber_refl (r : database.user_row) : same_subscriber r r.
Proof. by repeat split. Qed.

Lemma same_subscriber_trans (r1 r2 r3 : database.user_row) :
  same_subscriber r1 r2 -> same_subscriber r2 r3 -> same_subscriber r1 r3.
Proof. intros (?&?&?&?) (?&?&?&?). repeat split; congruence. Qed.

Lemma at_most_deactivated_refl (r : database.channel_row) :
  at_most_deactivated r r.
Proof. by repeat split. Qed.

Lemma at_most_deactivated_trans (r1 r2 r3 : database.channel_row) :
  at_most_deactivated r1 r2 -> at_most_deactivated r2 r3 ->
  at_most_deactivated r1 r3.
Proof. intros (?&?&?&?) (?&?&?&?). repeat split; try congruence. auto. Qed.

Lemma engine_writes_refl (w : world) : engine_writes w w.
Proof.
  split; [apply Forall2_refl_on, same_subscriber_refl|].
  split; [apply Forall2_refl_on, at_most_deactivated_refl|].
  repeat split; try done; try lia.
Qed.

Lemma engine_writes_trans (w1 w2 w3 : world) :
  engine_writes w1 w2 -> engine_writes w2 w3 -> engine_writes w1 w3.
Proof.
  intros (U1 & C1 & S1 & P1 & B1 & UB1 & CB1 & L1 & N1)
         (U2 & C2 & S2 & P2 & B2 & UB2 & CB2 & L2 & N2).
  split; [eapply Forall2_trans_on; eauto using same_subscriber_trans|].
  split; [eapply Forall2_trans_on; eauto using at_most_deactivated_trans|].
  split; [by etrans|]. split; [by etrans|].
  repeat split; try congruence; try lia.
Qed.

Lemma update_users_same_subscriber (cond : database.user_row -> bool)
    (f : database.user_row -> database.user_row) (db : database.t) :
  (forall r, same_subscriber r (f r)) ->
  Forall2 same_subscriber (database.users db)
    (database.users (database.update_users cond f db)).
Proof.
  intros Hf. cbn. apply Forall2_map_r_on. intros r.
  destruct (cond r); [apply Hf | apply same_subscriber_refl].
Qed.

Lemma is_user_paused_same_subscriber (now uid : Z) (db : database.t) :
  Forall2 same_subscriber (database.users db)
    (database.users (database.is_user_paused now uid db).2).
Proof.
  unfold database.is_user_paused.
  repeat case_match; cbn [snd];
    try (apply Forall2_refl_on, same_subscriber_refl).
  apply update_users_same_subscriber. intros r. by repeat split.
Qed.

Lemma send_to_channel_writes (tg : telegram) (pred : prediction)
    (bookmaker_name : string) (st : world * tally) (ch : database.channel_row) :
  engine_writes st.1 (send_to_channel tg pred bookmaker_name st ch).1.
Proof.
  destruct st as [w t].
  destruct (send_to_channel_frame tg pred bookmaker_name (w, t) ch)
    as (Hu & Hs & Hp & Hb & Hub & Hcb & Hl).
  cbn [fst] in *.
  split; [rewrite Hu; apply Forall2_refl_on, same_subscriber_refl|].
  split.
  { unfold send_to_channel, bot_get_chat_member, bot_send_message.
    repeat case_match; simplify_eq; cbn [fst store];
      apply Forall2_refl_on, at_most_deactivated_refl. }
  split; [by rewrite Hs|]. split; [by rewrite Hp|].
  repeat split; try done.
  unfold send_to_channel, bot_get_chat_member, bot_send_message.
  repeat case_match; simplify_eq; cbn [fst now]; lia.
Qed.

Lemma send_to_user_writes (tg : telegram) (pred : prediction)
    (bookmaker_name key : string) (lim : database.signal_limits_row)
    (st : world * tally) (u : database.user_row) :
  engine_writes st.1 (send_to_user tg pred bookmaker_name key lim st u).1.
Proof.
  destruct st as [w t].
  destruct (send_to_user_frame tg pred bookmaker_name key lim (w, t) u)
    as (Hs & Hb & Hub & Hch & Hcb & Hl).
  cbn [fst] in *.
  assert (Hnow : now (send_to_user tg pred bookmaker_name key lim (w, t) u).1
                 = now w).
  { unfold send_to_user, bot_send_message, with_store.
    repeat case_match; simplify_eq; reflexivity. }
  pose proof (is_user_paused_same_subscriber (now w) (database.user_id u) (store w))
    as Hlazy.
  pose proof (is_user_paused_frame (now w) (database.user_id u) (store w)) as Hfr.
  split; [|split; [|split; [|split]]].
  - unfold send_to_user, bot_send_message, with_store.
    destruct (database.is_user_paused (now w) (database.user_id u) (store w))
      as [paused db1]. cbn [snd] in Hlazy.
    repeat case_match; simplify_eq; cbn [fst store]; try exact Hlazy.
    eapply Forall2_trans_on; [apply same_subscriber_trans | exact Hlazy|].
    apply (update_users_same_subscriber _ _
             (database.add_user_prediction _ _ _ db1)).
    intros r. by repeat split.
  - rewrite Hch. apply Forall2_refl_on, at_most_deactivated_refl.
  - by rewrite Hs.
  - unfold send_to_user, bot_send_message, with_store.
    destruct (database.is_user_paused (now w) (database.user_id u) (store w))
      as [paused db1]. cbn in Hfr. destruct Hfr as (_ & Hups & _).
    repeat case_match; simplify_eq; cbn [fst store];
      rewrite <- ?Hups; try done; cbn; by apply prefix_app_r.
  - repeat split; try done; try lia.
Qed.

Lemma add_sent_prediction_writes (k : string) (w : world) :
  engine_writes w (with_store (database.add_sent_prediction (now w) k) w).
Proof.
  unfold with_store, database.add_sent_prediction.
  destruct (database.sent_predictions (store w) !! k) eqn:Hk;
    [destruct w; apply engine_writes_refl|].
  split; [apply Forall2_refl_on, same_subscriber_refl|].
  split; [apply Forall2_refl_on, at_most_deactivated_refl|].
  split; [by apply insert_subseteq|].
  repeat split; try done; cbn; try lia.
Qed.

Lemma asyncio_sleep_writes (secs : Z) (w : world) :
  engine_writes w (asyncio_sleep secs w).
Proof.
  split; [apply Forall2_refl_on, same_subscriber_refl|].
  split; [apply Forall2_refl_on, at_most_deactivated_refl|].
  repeat split; try done; cbn; try lia.
Qed.

Lemma schedule_next_run_writes (tg : telegram) (w : world) :
  engine_writes w (schedule_next_run tg w).1.
Proof.
  split; [apply Forall2_refl_on, same_subscriber_refl|].
  split; [apply Forall2_refl_on, at_most_deactivated_refl|].
  repeat split; try done; cbn; lia.
Qed.

Lemma send_prediction_writes (tg : telegram) (pred : prediction) (w : world) :
  engine_writes w (send_prediction_to_user_and_channel tg pred w).1.
Proof.
  apply send_prediction_rel.
  - apply engine_writes_refl.
  - apply engine_writes_trans.
  - intros st ch _. apply send_to_channel_writes.
  - intros w1 st u _ _. apply send_to_user_writes.
  - intros w1. apply add_sent_prediction_writes.
  - apply schedule_next_run_writes.
Qed.

Lemma send_one_writes (tg : telegram) (w : world) (kp : string * prediction) :
  engine_writes w (send_one tg w kp).
Proof.
  destruct kp as [k p]. apply send_one_rel.
  - apply engine_writes_refl.
  - apply engine_writes_trans.
  - apply send_prediction_writes.
  - intros w1. apply add_sent_prediction_writes.
  - intros w1. apply asyncio_sleep_writes.
Qed.

(** Any queue of predictions, sent one after the other. *)
Lemma fold_send_one_writes (tg : telegram) (queue : list (string * prediction))
    (w : world) :
  engine_writes w (fold_left (send_one tg) queue w).
Proof.
  apply (fold_left_rel engine_writes).
  - apply engine_writes_refl.
  - apply engine_writes_trans.
  - intros s a _. apply send_one_writes.
Qed.

(** X1.  All a pass may do to the store, whatever the batch and the
    network: rows of [users] keep their id, username, admin flag and
    subscription end; rows of [channels] keep id, name and creation time
    and are at most switched off; both ledgers keep every row they had;
    the bookmakers, both preference tables and the signal limits are
    untouched; the clock does not go back. *)
Theorem pass_writes (tg : telegram) (predictions : option (list prediction))
    (w : world) :
  engine_writes w (send_predictions_to_subscribed_users tg predictions w).
Proof.
  destruct predictions as [ps|]; cbn;
    [apply fold_send_one_writes | apply engine_writes_refl].
Qed.

(** *** A batch is fanned out once *)

(** X2.  On a network that answers every call, running the pass again on
    the batch it has just processed fans nothing out and leaves the world
    as it is, whatever the network answers the second time: every
    prediction of the batch is in the ledger after the first run. *)
Theorem pass_twice (tg tg' : telegram) (predictions : list prediction)
    (w : world) :
  answers tg ->
  send_predictions_to_subscribed_users tg' (Some predictions)
    (send_predictions_to_subscribed_users tg (Some predictions) w)
  = send_predictions_to_subscribed_users tg (Some predictions) w.
Proof.
  intros Hans.
  set (w1 := send_predictions_to_subscribed_users tg (Some predictions) w).
  change (fold_left (send_one tg')
            (new_predictions_to_send (store w1) predictions) w1 = w1).
  destruct (new_predictions_to_send (store w1) predictions) as [|[k p] q] eqn:Hq;
    [done|].
  assert ((k, p) ∈ new_predictions_to_send (store w1) predictions) as Hin
    by (rewrite Hq; apply list_elem_of_here).
  apply new_predictions_to_send_elem in Hin as (Hin & Hne & -> & Hs).
  unfold w1 in Hs. by rewrite pass_marks_every_prediction in Hs.
Qed.

Lemma pass_twice_witness :
  send_predictions_to_subscribed_users tg_down
    (Some [scenario_prediction "Fonbet"; scenario_prediction "Olimp"])
    (send_predictions_to_subscribed_users tg_ok
       (Some [scenario_prediction "Fonbet"; scenario_prediction "Olimp"])
       (start small_store))
  = send_predictions_to_subscribed_users tg_ok
      (Some [scenario_prediction "Fonbet"; scenario_prediction "Olimp"])
      (start small_store).
Proof.
  apply pass_twice. repeat split; intros; by eexists.
Defined.

(** *** A fan-out that is left is repeated *)

(** The ledger after a loop is the ledger before it. *)
Lemma for_each_channel_ledger (tg : telegram) (pred : prediction)
    (bookmaker_name : string) (channels : list database.channel_row)
    (st : world * tally) :
  database.sent_predictions
    (store (for_each (send_to_channel tg pred bookmaker_name) channels st).1)
  = database.sent_predictions (store st.1).
Proof.
  apply (for_each_rel
           (fun w w' => database.sent_predictions (store w')
                        = database.sent_predictions (store w))); try congruence.
  intros st' ch _. apply send_to_channel_frame.
Qed.

Lemma for_each_user_ledger (tg : telegram) (pred : prediction)
    (bookmaker_name key : string) (lim : database.signal_limits_row)
    (users : list database.user_row) (st : world * tally) :
  database.sent_predictions
    (store (for_each (send_to_user tg pred bookmaker_name key lim) users st).1)
  = database.sent_predictions (store st.1).
Proof.
  apply (for_each_rel
           (fun w w' => database.sent_predictions (store w')
                        = database.sent_predictions (store w))); try congruence.
  intros st' u _. apply send_to_user_frame.
Qed.

(** A fan-out that an API call leaves has recorded nothing. *)
Lemma send_prediction_raised (tg : telegram) (pred : prediction) (w : world)
    (e : exn) :
  rescheduling tg (rearmed w) = Returned tt ->
  (send_prediction_to_user_and_channel tg pred w).2 = Raised e ->
  database.sent_predictions
    (store (send_prediction_to_user_and_channel tg pred w).1)
  = database.sent_predictions (store w).
Proof.
  intros Hr. unfold send_prediction_to_user_and_channel.
  case_bool_decide; [done|].
  pose proof (for_each_channel_ledger tg pred
                (PyStr.strip (get pred "bookmaker"))
                (database.get_all_channels (store w)) (w, no_tally)) as H1.
  assert (Hre1 : rearmed (for_each (send_to_channel tg pred
                                      (PyStr.strip (get pred "bookmaker")))
                            (database.get_all_channels (store w)) (w, no_tally)).1
                 = rearmed w).
  { apply (for_each_rel (fun w w' => rearmed w' = rearmed w)); try congruence.
    intros [w0 t0] ch _.
    unfold send_to_channel, bot_get_chat_member, bot_send_message.
    repeat case_match; simplify_eq; reflexivity. }
  destruct (for_each _ (database.get_all_channels (store w)) (w, no_tally))
    as [w1 [ct|e1]]; cbn [fst] in H1, Hre1; [|by intros _].
  destruct (database.get_all_active_users (now w1) (store w1)) as [|u us].
  { cbn. rewrite Hre1, Hr. discriminate. }
  pose proof (for_each_user_ledger tg pred
                (PyStr.strip (get pred "bookmaker")) (get_match_key pred)
                (database.get_signal_limits (store w1)) (u :: us) (w1, no_tally))
    as H2.
  assert (Hre2 : rearmed (for_each (send_to_user tg pred
                                      (PyStr.strip (get pred "bookmaker"))
                                      (get_match_key pred)
                                      (database.get_signal_limits (store w1)))
                            (u :: us) (w1, no_tally)).1
                 = rearmed w1).
  { apply (for_each_rel (fun w w' => rearmed w' = rearmed w)); try congruence.
    intros [w0 t0] u0 _.
    unfold send_to_user, bot_send_message, with_store.
    repeat case_match; simplify_eq; reflexivity. }
  destruct (for_each _ (u :: us) (w1, no_tally)) as [w2 [ut|e2]];
    cbn [fst] in H2, Hre2; [|intros _; cbn [fst]; congruence].
  cbn. case_match; cbn; rewrite Hre2, Hre1, Hr; discriminate.
Qed.

(** X3.  When an API call leaves a fan-out, the pass records nothing for
    the prediction and does not sleep, although recipients may have been
    served; so the next pass fans the prediction out again, to them too.
    With a subscriber who has blocked the bot, the channel gets the same
    prediction at every pass. *)
Theorem a_fan_out_that_is_left_is_repeated :
  (forall (tg : telegram) (w : world) (key : string) (pred : prediction)
          (e : exn),
     rescheduling tg (rearmed w) = Returned tt ->
     (send_prediction_to_user_and_channel tg pred w).2 = Raised e ->
     send_one tg w (key, pred)
     = (send_prediction_to_user_and_channel tg pred w).1
     /\ database.sent_predictions (store (send_one tg w (key, pred)))
        = database.sent_predictions (store w))
  /\ trace blocked_pass
     = [GetChatMember (-100);
        Send (-100) (scenario_prediction "Fonbet") (Returned tt);
        Send 7 (scenario_prediction "Fonbet") (Raised TelegramForbiddenError)]
  /\ database.is_prediction_sent scenario_key (store blocked_pass) = false
  /\ trace (send_predictions_to_subscribed_users tg_blocked
              (Some [scenario_prediction "Fonbet"]) blocked_pass)
     = trace blocked_pass
       ++ [GetChatMember (-100);
           Send (-100) (scenario_prediction "Fonbet") (Returned tt);
           Send 7 (scenario_prediction "Fonbet") (Raised TelegramForbiddenError)].
Proof.
  split; [|repeat split; vm_compute; reflexivity].
  intros tg w key pred e Hr Hraised.
  rewrite (send_one_raised _ _ _ _ _ Hraised). split; [reflexivity|].
  by eapply send_prediction_raised.
Qed.

Lemma a_fan_out_that_is_left_is_repeated_witness :
  send_one tg_blocked (start small_store)
    (scenario_key, scenario_prediction "Fonbet")
  = (send_prediction_to_user_and_channel tg_blocked
       (scenario_prediction "Fonbet") (start small_store)).1
  /\ database.sent_predictions
       (store (send_one tg_blocked (start small_store)
                 (scenario_key, scenario_prediction "Fonbet")))
     = database.sent_predictions (store (start small_store)).
Proof.
  apply (proj1 a_fan_out_that_is_left_is_repeated tg_blocked (start small_store)
           scenario_key (scenario_prediction "Fonbet") AttributeError).
  - reflexivity.
  - vm_compute. reflexivity.
Defined.

(** *** The per-user ledger and the quota *)

Lemma count_is_signals_on (now uid : Z) (db : database.t) :
  database.get_user_daily_signal_count now uid db
  = signals_on (database.date now) uid db.
Proof. reflexivity. Qed.

Lemma signals_on_add (day uid now uid' : Z) (key : string) (db : database.t) :
  signals_on day uid (database.add_user_prediction now uid' key db)
  = signals_on day uid db
    + (if bool_decide (uid' = uid) && bool_decide (database.date now = day)
       then 1 else 0).
Proof.
  unfold signals_on, database.add_user_prediction. cbn.
  rewrite List.filter_app, length_app. cbn.
  destruct (bool_decide (uid' = uid) && bool_decide (database.date now = day));
    cbn; lia.
Qed.

Lemma signals_on_ext (day uid : Z) (db db' : database.t) :
  database.user_predictions db' = database.user_predictions db ->
  signals_on day uid db' = signals_on day uid db.
Proof. intros H. unfold signals_on. by rewrite H. Qed.

(** X4.  A user step writes a row to the per-user ledger exactly when it
    counts the user as sent, and then the user's count for the day goes up
    by one; the step's only event is then the successful send.  In every
    other case the ledger is as it was and no send succeeded: the user is
    skipped without a call, or the one send raises and the step is left
    by [AttributeError] with nothing counted. *)
Theorem delivery_is_one_ledger_row (tg : telegram) (pred : prediction)
    (bookmaker_name key : string) (lim : database.signal_limits_row)
    (w : world) (t : tally) (u : database.user_row) :
  let st' := send_to_user tg pred bookmaker_name key lim (w, t) u in
  let uid := database.user_id u in
  (st'.2 = Returned (count_sent t)
   /\ trace st'.1 = trace w ++ [Send uid pred (Returned tt)]
   /\ database.user_predictions (store st'.1)
      = database.user_predictions (store w)
        ++ [database.UserPredictionRow uid key (now w)]
   /\ database.get_user_daily_signal_count (now w) uid (store st'.1)
      = database.get_user_daily_signal_count (now w) uid (store w) + 1)
  \/ ((st'.2 = Returned (count_skipped t) /\ trace st'.1 = trace w
       \/ st'.2 = Raised AttributeError
          /\ exists e, trace st'.1 = trace w ++ [Send uid pred (Raised e)])
      /\ database.user_predictions (store st'.1)
         = database.user_predictions (store w)).
Proof.
  cbn zeta. unfold send_to_user, bot_send_message, with_store.
  pose proof (is_user_paused_frame (now w) (database.user_id u) (store w)) as Hfr.
  destruct (database.is_user_paused (now w) (database.user_id u) (store w))
    as [paused db1]. cbn in Hfr. destruct Hfr as (_ & Hups & _).
  assert (Hadd : forall db2,
            database.user_predictions db2
            = database.user_predictions
                (database.add_user_prediction (now w) (database.user_id u) key db1) ->
            database.get_user_daily_signal_count (now w) (database.user_id u) db2
            = database.get_user_daily_signal_count (now w) (database.user_id u)
                (store w) + 1).
  { intros db2 H2. rewrite !count_is_signals_on.
    rewrite (signals_on_ext _ _ _ _ H2), signals_on_add.
    rewrite !bool_decide_eq_true_2 by done. cbn.
    by rewrite (signals_on_ext _ _ (store w) db1). }
  repeat case_match; simplify_eq;
    repeat match goal with a : unit |- _ => destruct a end;
    cbn [fst snd store trace now calls rearmed except_exceptions].
  all: try (right; split; [by left | done]).
  all: try (right; split; [right; split; [reflexivity | by eexists] | done]).
  all: left; split; [reflexivity|]; split; [congruence|];
         split; [cbn; by rewrite Hups | by apply Hadd].
Qed.

Lemma quota_kept_refl (M : Z) (w : world) : quota_kept M w w.
Proof. split; [done|]. intros _ uid day. lia. Qed.

Lemma quota_kept_trans (M : Z) (w1 w2 w3 : world) :
  quota_kept M w1 w2 -> quota_kept M w2 w3 -> quota_kept M w1 w3.
Proof.
  intros [L1 Q1] [L2 Q2]. split; [congruence|].
  intros HM uid day. specialize (Q1 HM uid day).
  assert (HM2 : database.max_signals_per_day
                  (database.get_signal_limits (store w2)) = M).
  { unfold database.get_signal_limits in *. by rewrite L1. }
  specialize (Q2 HM2 uid day). lia.
Qed.

Lemma quota_kept_same_ledger (M : Z) (w w' : world) :
  database.signal_limits (store w') = database.signal_limits (store w) ->
  database.user_predictions (store w') = database.user_predictions (store w) ->
  quota_kept M w w'.
Proof.
  intros HL HP. split; [done|]. intros _ uid day.
  rewrite (signals_on_ext _ _ _ _ HP). lia.
Qed.

Lemma send_to_channel_quota (M : Z) (tg : telegram) (pred : prediction)
    (bookmaker_name : string) (st : world * tally) (ch : database.channel_row) :
  quota_kept M st.1 (send_to_channel tg pred bookmaker_name st ch).1.
Proof.
  destruct (send_to_channel_frame tg pred bookmaker_name st ch)
    as (_ & _ & Hp & _ & _ & _ & Hl).
  by apply quota_kept_same_ledger.
Qed.

(** A user step appends at most one row to the per-user ledger, and only
    for a user whose count for the day is below the maximum. *)
Lemma send_to_user_ledger (tg : telegram) (pred : prediction)
    (bookmaker_name key : string) (lim : database.signal_limits_row)
    (w : world) (t : tally) (u : database.user_row) :
  let st' := send_to_user tg pred bookmaker_name key lim (w, t) u in
  database.user_predictions (store st'.1) = database.user_predictions (store w)
  \/ (database.user_predictions (store st'.1)
      = database.user_predictions
          (database.add_user_prediction (now w) (database.user_id u) key (store w))
      /\ database.get_user_daily_signal_count (now w) (database.user_id u) (store w)
         < database.max_signals_per_day lim).
Proof.
  cbn zeta. unfold send_to_user, bot_send_message, with_store.
  pose proof (is_user_paused_frame (now w) (database.user_id u) (store w)) as Hfr.
  destruct (database.is_user_paused (now w) (database.user_id u) (store w))
    as [paused db1]. cbn in Hfr. destruct Hfr as (_ & Hups & _).
  repeat case_match; simplify_eq;
    cbn [fst snd store trace now calls] in *.
  all: try (by left).
  all: right; split; [cbn; by rewrite Hups|].
  all: repeat match goal with
              | H : (_ <=? _) = false |- _ => apply Z.leb_gt in H
              end.
  all: unfold database.get_user_daily_signal_count in *; by rewrite <- Hups.
Qed.

(** With the limits the loop was given, a user step keeps every count
    within the daily maximum or where it was. *)
Lemma send_to_user_quota (tg : telegram) (pred : prediction)
    (bookmaker_name key : string) (lim : database.signal_limits_row)
    (st : world * tally) (u : database.user_row) (uid day : Z) :
  signals_on day uid (store (send_to_user tg pred bookmaker_name key lim st u).1)
  <= Z.max (signals_on day uid (store st.1)) (database.max_signals_per_day lim).
Proof.
  destruct st as [w t]. cbn [fst].
  destruct (send_to_user_ledger tg pred bookmaker_name key lim w t u)
    as [Hsame|[Hadd Hmax]].
  - rewrite (signals_on_ext _ _ _ _ Hsame). lia.
  - rewrite (signals_on_ext _ _ _ _ Hadd), signals_on_add.
    destruct (bool_decide (database.user_id u = uid)) eqn:Hu;
      destruct (bool_decide (database.date (now w) = day)) eqn:Hd; cbn; try lia.
    apply bool_decide_eq_true in Hu, Hd. subst uid day.
    rewrite count_is_signals_on in Hmax. lia.
Qed.

Lemma send_prediction_quota (tg : telegram) (pred : prediction) (w : world) :
  quota_kept (database.max_signals_per_day (database.get_signal_limits (store w)))
    w (send_prediction_to_user_and_channel tg pred w).1.
Proof.
  set (M := database.max_signals_per_day (database.get_signal_limits (store w))).
  apply send_prediction_rel.
  - apply quota_kept_refl.
  - apply quota_kept_trans.
  - intros st ch _. apply send_to_channel_quota.
  - intros w1 st u [HL _] _. split; [apply send_to_user_frame|].
    intros _ uid day.
    replace M with (database.max_signals_per_day
                      (database.get_signal_limits (store w1)))
      by (unfold M, database.get_signal_limits; by rewrite HL).
    apply send_to_user_quota.
  - intros w1. apply quota_kept_same_ledger; cbn;
      unfold database.add_sent_prediction; by case_match.
  - intros w1. by apply quota_kept_same_ledger.
Qed.

(** The pass as a whole, for the limit in force when it starts. *)
Lemma pass_quota_kept (tg : telegram) (predictions : option (list prediction))
    (w : world) :
  quota_kept (database.max_signals_per_day (database.get_signal_limits (store w)))
    w (send_predictions_to_subscribed_users tg predictions w).
Proof.
  set (M := database.max_signals_per_day (database.get_signal_limits (store w))).
  destruct predictions as [ps|]; cbn; [|apply quota_kept_refl].
  apply (fold_left_rel (fun s s' =>
           database.max_signals_per_day
             (database.get_signal_limits (store s)) = M ->
           quota_kept M s s')).
  - intros s _. apply quota_kept_refl.
  - intros s1 s2 s3 H12 H23 HM. specialize (H12 HM).
    eapply quota_kept_trans; [exact H12|]. apply H23.
    destruct H12 as [HL _]. unfold database.get_signal_limits in *.
    by rewrite HL.
  - intros s [k p] _ HM. apply send_one_rel.
    + apply quota_kept_refl.
    + apply quota_kept_trans.
    + rewrite <- HM. apply send_prediction_quota.
    + intros w1. apply quota_kept_same_ledger; cbn;
        unfold database.add_sent_prediction; by case_match.
    + intros w1. by apply quota_kept_same_ledger.
  - reflexivity.
Qed.

(** X5.  A pass never takes a user over the daily maximum: with [M] the
    [max_signals_per_day] in force when the pass starts, every user's
    count for every day is afterwards at most [M], or where it was if it
    was above [M] already. *)
Theorem quota_is_never_exceeded (tg : telegram)
    (predictions : option (list prediction)) (w : world) (uid day : Z) :
  signals_on day uid
    (store (send_predictions_to_subscribed_users tg predictions w))
  <= Z.max (signals_on day uid (store w))
           (database.max_signals_per_day (database.get_signal_limits (store w))).
Proof.
  by apply (pass_quota_kept tg predictions w).
Qed.

(** X6.  A user who is not paused and whose count for the day has reached
    [max_signals_per_day] is skipped: nothing is sent, no ledger row is
    written, no pause is set; the world is exactly as before. *)
Theorem user_at_quota_is_skipped (tg : telegram) (pred : prediction)
    (bookmaker_name key : string) (lim : database.signal_limits_row)
    (w : world) (t : tally) (u row : database.user_row) :
  database.get_user (database.user_id u) (store w) = Some row ->
  database.is_paused row = false ->
  database.max_signals_per_day lim
  <= database.get_user_daily_signal_count (now w) (database.user_id u) (store w) ->
  send_to_user tg pred bookmaker_name key lim (w, t) u
  = (w, Returned (count_skipped t)).
Proof.
  intros Hrow Hp Hmax. unfold send_to_user, database.is_user_paused.
  rewrite Hrow, Hp. cbn.
  rewrite (proj2 (Z.leb_le _ _) Hmax). by destruct w.
Qed.

Lemma user_at_quota_is_skipped_witness :
  send_to_user tg_ok (scenario_prediction "Fonbet") "Fonbet" scenario_key
    three_a_day (start (quota_store 3), no_tally) (subscriber 7)
  = (start (quota_store 3), Returned (count_skipped no_tally)).
Proof.
  apply (user_at_quota_is_skipped tg_ok (scenario_prediction "Fonbet") "Fonbet"
           scenario_key three_a_day (start (quota_store 3)) no_tally
           (subscriber 7) (subscriber 7)).
  - reflexivity.
  - reflexivity.
  - vm_compute. discriminate.
Defined.

(** *** Channels that cannot be posted to *)





Lemma switched_off_kept (cid : Z) (w w' : world) :
  engine_writes w w' -> switched_off cid (store w) -> switched_off cid (store w').
Proof.
  intros (Hu & Hc & _) [Hoff Hnouser]. split.
  - intros r' Hin Hid.
    apply list_elem_of_In in Hin.
    induction Hc as [|r r2 l l2 Hr Hc IH]; [by destruct Hin|].
    destruct Hr as (Hid' & _ & _ & Hact).
    destruct Hin as [<-|Hin].
    + apply not_true_is_false. intros Ht.
      rewrite (Hoff r) in Hact; [by specialize (Hact Ht)| apply list_elem_of_here
        | congruence].
    + apply IH; [|done]. intros r0 Hr0. apply Hoff. by apply list_elem_of_further.
  - assert (Hids : List.map database.user_id (database.users (store w'))
                   = List.map database.user_id (database.users (store w))).
    { clear -Hu. induction Hu as [|r r2 l l2 Hr Hu IH]; [done|].
      cbn. destruct Hr as (-> & _). by rewrite IH. }
    by rewrite Hids.
Qed.

Lemma send_to_channel_not_addressed (tg : telegram) (pred : prediction)
    (bookmaker_name : string) (st : world * tally) (ch : database.channel_row)
    (cid : Z) :
  (database.channel_id ch = cid -> database.channel_is_active ch = false) ->
  emits (not_addressed cid) st.1 (send_to_channel tg pred bookmaker_name st ch).1.
Proof.
  intros Hoff. destruct st as [w t]. unfold send_to_channel.
  destruct (database.channel_is_active ch) eqn:Hact; cbn [negb];
    [|apply emits_refl].
  assert (Hne : database.channel_id ch ≠ cid).
  { intros Heq. specialize (Hoff Heq). congruence. }
  unfold bot_get_chat_member, bot_send_message.
  repeat case_match; simplify_eq; cbn; step_events.
Qed.

Lemma send_to_user_not_addressed (tg : telegram) (pred : prediction)
    (bookmaker_name key : string) (lim : database.signal_limits_row)
    (st : world * tally) (u : database.user_row) (cid : Z) :
  database.user_id u ≠ cid ->
  emits (not_addressed cid) st.1
    (send_to_user tg pred bookmaker_name key lim st u).1.
Proof.
  intros Hne. destruct st as [w t].
  unfold send_to_user, bot_send_message, with_store.
  repeat case_match; simplify_eq; cbn; step_events.
Qed.

(** The relation threaded through the loops: as long as the channel is
    off at the start, nothing is addressed to it and it is off at the
    end. *)
Lemma fan_out_skips_switched_off (tg : telegram) (pred : prediction)
    (w : world) (cid : Z) :
  switched_off cid (store w) ->
  emits (not_addressed cid) w (send_prediction_to_user_and_channel tg pred w).1.
Proof.
  intros Hoff. pose proof Hoff as [Hrows Hnouser].
  apply (send_prediction_rel
           (fun w w' => emits (not_addressed cid) w w' /\ engine_writes w w')).
  - intros w1. split; [apply emits_refl | apply engine_writes_refl].
  - intros w1 w2 w3 [E1 W1] [E2 W2].
    split; [by eapply emits_trans | by eapply engine_writes_trans].
  - intros st ch Hin. split; [|apply send_to_channel_writes].
    apply send_to_channel_not_addressed. apply Hrows.
    unfold database.get_all_channels in Hin.
    by rewrite merge_sort_Permutation in Hin.
  - intros w1 st u [_ Hwrites] Hin. split; [|apply send_to_user_writes].
    destruct (switched_off_kept cid w w1 Hwrites Hoff) as [_ Hnouser1].
    apply send_to_user_not_addressed. intros Heq. apply Hnouser1.
    apply list_elem_of_In, filter_In in Hin as [Hin _].
    rewrite <- Heq. by apply list_elem_of_In, in_map.
  - intros w1. split; [by apply emits_same_trace | apply add_sent_prediction_writes].
  - intros w1. split; [by apply emits_same_trace | apply schedule_next_run_writes].
Qed.

(** X8.  A channel all of whose rows are switched off, and whose id is not
    a user's, is left alone by a pass over a batch: no [get_chat_member]
    and no send is addressed to it, on any network, and it is still
    switched off when the pass ends. *)
Theorem switched_off_channel_gets_no_call (tg : telegram)
    (predictions : list prediction) (w : world) (cid : Z) :
  switched_off cid (store w) ->
  emits (not_addressed cid) w
    (send_predictions_to_subscribed_users tg (Some predictions) w)
  /\ switched_off cid
       (store (send_predictions_to_subscribed_users tg (Some predictions) w)).
Proof.
  intros Hoff. split.
  2:{ eapply switched_off_kept; [|exact Hoff]. apply fold_send_one_writes. }
  cbn. generalize (new_predictions_to_send (store w) predictions). intros queue.
  revert w Hoff. induction queue as [|[k p] queue IH]; intros w Hoff;
    [apply emits_refl|].
  change (fold_left (send_one tg) ((k, p) :: queue) w)
    with (fold_left (send_one tg) queue (send_one tg w (k, p))).
  eapply emits_trans; [|apply IH].
  - apply send_one_rel.
    + apply emits_refl.
    + apply emits_trans.
    + by apply fan_out_skips_switched_off.
    + intros w1. by apply emits_same_trace.
    + intros w1. eapply emits_one; [reflexivity | by cbn].
  - eapply switched_off_kept; [apply send_one_writes | exact Hoff].
Qed.

Lemma switched_off_channel_gets_no_call_witness :
  emits (not_addressed (-100)) (start channel_off_store)
    (send_predictions_to_subscribed_users tg_ok
       (Some [scenario_prediction "Fonbet"]) (start channel_off_store))
  /\ switched_off (-100)
       (store (send_predictions_to_subscribed_users tg_ok
                 (Some [scenario_prediction "Fonbet"]) (start channel_off_store))).
Proof.
  apply (switched_off_channel_gets_no_call tg_ok
           [scenario_prediction "Fonbet"] (start channel_off_store) (-100)).
  split.
  - intros r Hr _. cbn in Hr. in_rows Hr. reflexivity.
  - cbn. intros Hin.
    apply elem_of_cons in Hin as [Hin|Hin]; [discriminate|].
    by apply elem_of_nil in Hin.
Defined.

(** ** Further properties of the store *)

(** *** The pause controller *)

Lemma get_user_after_update (uid : Z) (cond : database.user_row -> bool)
    (f : database.user_row -> database.user_row) (db : database.t) :
  (forall r, database.user_id (f r) = database.user_id r) ->
  database.get_user uid (database.update_users cond f db)
  = (fun r => if cond r then f r else r) <$> database.get_user uid db.
Proof.
  intros Hid. unfold database.get_user, database.update_users. cbn.
  induction (database.users db) as [|r l IH]; [reflexivity|]. cbn.
  assert (Hsame : database.has_user_id uid (if cond r then f r else r)
                  = database.has_user_id uid r).
  { unfold database.has_user_id. destruct (cond r); [by rewrite Hid | done]. }
  rewrite Hsame. destruct (database.has_user_id uid r); [reflexivity | exact IH].
Qed.

Lemma has_user_id_of_get_user (uid : Z) (db : database.t)
    (row : database.user_row) :
  database.get_user uid db = Some row -> database.has_user_id uid row = true.
Proof. intros H. by apply find_some in H as [_ H]. Qed.

(** X9.  An automatic pause lasts the hours it was set for: after
    [set_user_pause] at time [now], [is_user_paused] answers true at every
    time up to and including [now + hours * 3600] and writes nothing; at
    any later time it answers false and clears the flag. *)
Theorem pause_lasts_the_hours (now now' uid hours : Z) (db : database.t)
    (row : database.user_row) :
  database.get_user uid db = Some row ->
  let paused := database.set_user_pause now uid hours db in
  database.is_user_paused now' uid paused
  = if now + hours * 3600 <? now'
    then (false, database.unpause_subscription uid paused)
    else (true, paused).
Proof.
  intros Hrow. cbn zeta. unfold database.is_user_paused at 1.
  unfold database.set_user_pause at 1.
  rewrite get_user_after_update by reflexivity. rewrite Hrow. cbn.
  rewrite (has_user_id_of_get_user _ _ _ Hrow). reflexivity.
Qed.

Lemma pause_lasts_the_hours_witness :
  database.is_user_paused (1000 + 24 * 3600) 7
    (database.set_user_pause 1000 7 24 small_store)
  = (true, database.set_user_pause 1000 7 24 small_store)
  /\ database.is_user_paused (1001 + 24 * 3600) 7
       (database.set_user_pause 1000 7 24 small_store)
     = (false, database.unpause_subscription 7
                 (database.set_user_pause 1000 7 24 small_store)).
Proof.
  split.
  - apply (pause_lasts_the_hours 1000 (1000 + 24 * 3600) 7 24 small_store
             (subscriber 7)). reflexivity.
  - apply (pause_lasts_the_hours 1000 (1001 + 24 * 3600) 7 24 small_store
             (subscriber 7)). reflexivity.
Defined.





(** *** The sweeps of the ledgers *)

Lemma same_day_is_recent (now t : Z) :
  database.date t = database.date now ->
  (t <? now - 7 * database.seconds_per_day) = false.
Proof.
  unfold database.date, database.seconds_per_day. intros Hday.
  apply Z.ltb_ge.
  pose proof (Z.div_mod t 86400 ltac:(lia)).
  pose proof (Z.div_mod now 86400 ltac:(lia)).
  pose proof (Z.mod_pos_bound t 86400 ltac:(lia)).
  pose proof (Z.mod_pos_bound now 86400 ltac:(lia)).
  lia.
Qed.

(** X12.  The sweep of the per-user ledger never lowers a count of the
    current day: the rows [get_user_daily_signal_count] counts are all
    kept. *)
Theorem sweep_keeps_todays_count (now uid : Z) (db : database.t) :
  database.get_user_daily_signal_count now uid
    (database.delete_old_user_predictions now db)
  = database.get_user_daily_signal_count now uid db.
Proof.
  unfold database.get_user_daily_signal_count, database.delete_old_user_predictions.
  cbn. f_equal. f_equal.
  induction (database.user_predictions db) as [|r l IH]; [reflexivity|].
  cbn. destruct (database.sent_today now uid r) eqn:Htoday.
  - assert (Hkeep : (database.up_sent_at r <? now - 7 * database.seconds_per_day)
                    = false).
    { apply same_day_is_recent. unfold database.sent_today in Htoday.
      apply andb_true_iff in Htoday as [_ Hd]. by apply bool_decide_eq_true in Hd. }
    rewrite Hkeep. cbn. rewrite Htoday. by rewrite IH.
  - destruct (negb _); cbn; rewrite ?Htoday; exact IH.
Qed.

(** X13.  The sweep of the sent-prediction ledger keeps exactly the rows
    that are not older than 7 days, with the time they were written, and a
    second sweep at the same time changes nothing. *)
Theorem sweep_keeps_exactly_the_recent (now : Z) (db : database.t) (k : string) :
  database.sent_predictions (database.delete_old_predictions now db) !! k
  = match database.sent_predictions db !! k with
    | Some t => if t <? now - 7 * database.seconds_per_day then None else Some t
    | None => None
    end
  /\ database.delete_old_predictions now (database.delete_old_predictions now db)
     = database.delete_old_predictions now db.
Proof.
  split.
  - cbn. destruct (database.sent_predictions db !! k) as [t|] eqn:Hk.
    + destruct (t <? now - 7 * database.seconds_per_day) eqn:Hold.
      * apply map_lookup_filter_None. right. intros t' Ht'. simplify_eq. cbn.
        apply Z.ltb_lt in Hold. lia.
      * apply map_lookup_filter_Some. split; [done|]. cbn.
        apply Z.ltb_ge in Hold. lia.
    + apply map_lookup_filter_None. by left.
  - unfold database.delete_old_predictions, database.set_sent_predictions. cbn.
    f_equal. apply map_eq. intros i.
    destruct (filter _ (database.sent_predictions db) !! i) as [t|] eqn:Hi.
    + apply map_lookup_filter_Some. split; [done|].
      by apply map_lookup_filter_Some in Hi as [_ Hi].
    + apply map_lookup_filter_None. by left.
Qed.

(** *** Subscriptions *)



(** *** The channel registry *)

Lemma filter_all_true {A : Type} (f : A -> bool) (l : list A) :
  (forall x, x ∈ l -> f x = true) -> List.filter f l = l.
Proof.
  induction l as [|a l IH]; intros H; [reflexivity|]. cbn.
  rewrite (H a) by apply list_elem_of_here. f_equal. apply IH.
  intros x Hx. apply H. by apply list_elem_of_further.
Qed.

Lemma find_app_none {A : Type} (f : A -> bool) (l k : list A) :
  (forall x, x ∈ l -> f x = false) -> List.find f (l ++ k) = List.find f k.
Proof.
  induction l as [|a l IH]; intros H; [reflexivity|]. cbn.
  rewrite (H a) by apply list_elem_of_here. apply IH.
  intros x Hx. apply H. by apply list_elem_of_further.
Qed.

Lemma get_all_bookmakers_elem (db : database.t) (b : database.bookmaker_row) :
  b ∈ database.get_all_bookmakers db <-> b ∈ database.bookmakers db.
Proof. unfold database.get_all_bookmakers. by rewrite merge_sort_Permutation. Qed.

(** What the loop of [INSERT OR IGNORE] in [add_channel] leaves in
    [channel_bookmakers]. *)
Lemma insert_or_ignore_fold (cid : Z) (sel : bool) (ids : list Z)
    (cbs : list database.channel_bookmaker_row) :
  let cbs' := fold_left (database.insert_or_ignore_channel_bookmaker cid sel)
                ids cbs in
  (forall cb, cb ∈ cbs -> cb ∈ cbs')
  /\ (forall cb, cb ∈ cbs' ->
        cb ∈ cbs
        \/ (database.cb_channel_id cb = cid /\ database.cb_is_selected cb = sel
            /\ database.cb_bookmaker_id cb ∈ ids))
  /\ (forall bid, bid ∈ ids ->
        exists cb, cb ∈ cbs' /\ database.cb_channel_id cb = cid
                   /\ database.cb_bookmaker_id cb = bid)
  /\ List.filter (fun cb => negb (bool_decide (database.cb_channel_id cb = cid))) cbs'
     = List.filter (fun cb => negb (bool_decide (database.cb_channel_id cb = cid))) cbs.
Proof.
  cbn zeta. revert cbs. induction ids as [|bid ids IH]; intros cbs.
  { cbn. repeat split; try done.
    - intros cb Hcb. by left.
    - intros bid Hbid. by apply elem_of_nil in Hbid. }
  cbn [fold_left].
  set (cbs1 := database.insert_or_ignore_channel_bookmaker cid sel cbs bid).
  destruct (IH cbs1) as (Hkeep & Hnew & Hcover & Hothers).
  assert (H1keep : forall cb, cb ∈ cbs -> cb ∈ cbs1).
  { intros cb Hcb. unfold cbs1, database.insert_or_ignore_channel_bookmaker.
    case_match; [done|]. apply elem_of_app. by left. }
  assert (H1new : forall cb, cb ∈ cbs1 ->
            cb ∈ cbs \/ cb = database.ChannelBookmakerRow cid bid sel).
  { intros cb Hcb. unfold cbs1, database.insert_or_ignore_channel_bookmaker in Hcb.
    case_match; [by left|]. apply elem_of_app in Hcb as [?|Hcb]; [by left|].
    right. by apply list_elem_of_singleton in Hcb. }
  assert (H1cover : exists cb, cb ∈ cbs1 /\ database.cb_channel_id cb = cid
                               /\ database.cb_bookmaker_id cb = bid).
  { unfold cbs1, database.insert_or_ignore_channel_bookmaker.
    destruct (existsb _ cbs) eqn:He.
    - apply existsb_exists in He as (cb & Hcb & Hm).
      unfold database.is_channel_bookmaker in Hm.
      apply andb_true_iff in Hm as [Hc Hb].
      apply bool_decide_eq_true in Hc, Hb.
      exists cb. by rewrite list_elem_of_In.
    - eexists. split; [apply elem_of_app; right; apply list_elem_of_here|].
      by cbn. }
  split; [|split; [|split]].
  - intros cb Hcb. by apply Hkeep, H1keep.
  - intros cb Hcb. destruct (Hnew cb Hcb) as [H1|(Hc & Hs & Hb)].
    + destruct (H1new cb H1) as [?| ->]; [by left|]. right. cbn.
      repeat split. apply list_elem_of_here.
    + right. repeat split; try done. by apply list_elem_of_further.
  - intros bid' Hbid'. apply elem_of_cons in Hbid' as [->|Hbid'].
    + destruct H1cover as (cb & Hcb & Hc & Hb). exists cb. split; [|done].
      by apply Hkeep.
    + by apply Hcover.
  - rewrite Hothers. unfold cbs1, database.insert_or_ignore_channel_bookmaker.
    case_match; [done|]. rewrite List.filter_app. cbn.
    rewrite bool_decide_eq_true_2 by done. cbn. by rewrite app_nil_r.
Qed.

Lemma get_channel_add_channel (now cid : Z) (name : string) (db : database.t) :
  database.get_channel cid (database.add_channel now cid name db)
  = Some (database.ChannelRow cid name true now).
Proof.
  unfold database.get_channel, database.add_channel. cbn.
  rewrite find_app_none.
  - cbn. by rewrite bool_decide_eq_true_2.
  - intros r Hr. apply list_elem_of_In, filter_In in Hr as [_ Hr].
    by apply negb_true_iff in Hr.
Qed.

(** X15.  [add_channel] leaves the channel registered, active, under the
    given name and created now; every bookmaker has a selection row for
    it; no selection row that existed is lost.  A channel that had no
    selection rows is not a wildcard afterwards: it accepts exactly the
    names of the active bookmakers (and everything if none is active). *)
Theorem add_channel_registers (now cid : Z) (name : string) (db : database.t) :
  let db' := database.add_channel now cid name db in
  database.get_channel cid db' = Some (database.ChannelRow cid name true now)
  /\ (forall b, b ∈ database.bookmakers db ->
        exists cb, cb ∈ database.channel_bookmakers db'
                   /\ database.cb_channel_id cb = cid
                   /\ database.cb_bookmaker_id cb = database.bookmaker_id b)
  /\ (forall cb, cb ∈ database.channel_bookmakers db ->
                 cb ∈ database.channel_bookmakers db')
  /\ ((forall cb, cb ∈ database.channel_bookmakers db ->
                  database.cb_channel_id cb ≠ cid) ->
      forall bookmaker_name,
        channel_accepts db' cid bookmaker_name = true
        <-> (forall b, b ∈ database.bookmakers db ->
                       database.bookmaker_is_active b = false)
            \/ exists b, b ∈ database.bookmakers db
                         /\ database.bookmaker_is_active b = true
                         /\ database.bookmaker_name b = bookmaker_name).
Proof.
  cbn zeta. split; [apply get_channel_add_channel|].
  set (db1 := database.set_channels
                (List.filter (fun r => negb (bool_decide (database.channel_id r = cid)))
                             (database.channels db)
                 ++ [database.ChannelRow cid name true now]) db).
  destruct (insert_or_ignore_fold cid true
              (List.map database.bookmaker_id (database.get_all_bookmakers db1))
              (database.channel_bookmakers db))
    as (Hkeep & Hnew & Hcover & _).
  assert (Hids : forall b, b ∈ database.bookmakers db ->
            database.bookmaker_id b
            ∈ List.map database.bookmaker_id (database.get_all_bookmakers db1)).
  { intros b Hb. apply list_elem_of_In, in_map, list_elem_of_In.
    by apply get_all_bookmakers_elem. }
  split; [|split].
  - intros b Hb. by apply Hcover, Hids.
  - exact Hkeep.
  - intros Hfresh bookmaker_name.
    assert (Hsel : forall b,
              (b, true) ∈ database.get_channel_bookmakers cid
                            (database.add_channel now cid name db)
              <-> b ∈ database.bookmakers db
                  /\ database.bookmaker_is_active b = true).
    { intros b. rewrite get_channel_bookmakers_elem. cbn. split.
      - intros (Hb & Hact & _). by split.
      - intros [Hb Hact]. split; [done|]. split; [done|].
        destruct (Hcover _ (Hids b Hb)) as (cb & Hcb & Hc & Hbid).
        exists cb. split; [exact Hcb|]. split; [done|]. split; [done|].
        destruct (Hnew cb Hcb) as [Hold|(_ & Hs & _)]; [|done].
        by destruct (Hfresh cb Hold). }
    rewrite channel_accepts_iff. split.
    + intros [Hnone|(b & Hb & Hn)].
      * left. intros b Hb. apply not_true_is_false. intros Hact.
        apply (Hnone b). by apply Hsel.
      * right. exists b. apply Hsel in Hb as [Hb Hact]. by repeat split.
    + intros [Hnone|(b & Hb & Hact & Hn)].
      * left. intros b Hb. apply Hsel in Hb as [Hb Hact].
        rewrite (Hnone b Hb) in Hact. discriminate.
      * right. exists b. split; [by apply Hsel|done].
Qed.

Lemma add_channel_registers_witness :
  channel_accepts (database.add_channel 5 (-200) "second" small_store) (-200)
    "Fonbet" = true.
Proof.
  destruct (add_channel_registers 5 (-200) "second" small_store)
    as (_ & _ & _ & H).
  apply H.
  - intros cb Hin. by apply elem_of_nil in Hin.
  - right. exists (database.BookmakerRow 2 "Fonbet" true).
    split; [|by split]. apply list_elem_of_In. right. by left.
Defined.

(** X16.  Removing a channel that was just added to a store that knew
    nothing of it gives the store back: [delete_channel] undoes
    [add_channel], selection rows included. *)
Theorem delete_channel_undoes_add_channel (now cid : Z) (name : string)
    (db : database.t) :
  (forall r, r ∈ database.channels db -> database.channel_id r ≠ cid) ->
  (forall cb, cb ∈ database.channel_bookmakers db ->
              database.cb_channel_id cb ≠ cid) ->
  database.delete_channel cid (database.add_channel now cid name db) = db.
Proof.
  intros Hch Hcb. destruct db as [us sp ups bs ubs cs cbs ls].
  cbn in Hch, Hcb.
  unfold database.delete_channel, database.add_channel,
    database.set_channel_bookmakers, database.set_channels.
  cbn [database.users database.sent_predictions database.user_predictions
       database.bookmakers database.user_bookmakers database.channels
       database.channel_bookmakers database.signal_limits].
  match goal with
  | |- context [fold_left _ ?l cbs] => generalize l
  end.
  intros ids.
  destruct (insert_or_ignore_fold cid true ids cbs) as (_ & _ & _ & Hothers).
  cbn zeta in Hothers. rewrite Hothers.
  rewrite (filter_all_true _ cbs).
  2:{ intros cb Hin. apply negb_true_iff, bool_decide_eq_false. by apply Hcb. }
  rewrite List.filter_app. cbn. rewrite bool_decide_eq_true_2 by done. cbn.
  rewrite app_nil_r.
  rewrite !(filter_all_true _ cs); [reflexivity|..];
    intros r Hin; apply negb_true_iff, bool_decide_eq_false; by apply Hch.
Qed.

Lemma delete_channel_undoes_add_channel_witness :
  database.delete_channel (-200)
    (database.add_channel 1000 (-200) "second" small_store) = small_store.
Proof.
  apply delete_channel_undoes_add_channel.
  - intros r Hr. cbn in Hr. in_rows Hr. by cbn.
  - intros cb Hcb. cbn in Hcb. in_rows Hcb.
Defined.

(** *** Saving a selection of bookmakers *)

(** What the loop of [update_channel_bookmaker] in [channel_save_bk_handler]
    leaves in the store. *)
Lemma channel_save_fold (cid : Z) (selected : list Z)
    (bs : list database.bookmaker_row) (db : database.t) :
  let db' :=
    fold_left
      (fun db bookmaker =>
         database.update_channel_bookmaker cid (database.bookmaker_id bookmaker)
           (bool_decide (database.bookmaker_id bookmaker ∈ selected)) db)
      bs db in
  database.bookmakers db' = database.bookmakers db
  /\ forall cb,
       cb ∈ database.channel_bookmakers db' <->
       (cb ∈ database.channel_bookmakers db
        /\ ~ (database.cb_channel_id cb = cid
              /\ database.cb_bookmaker_id cb ∈ List.map database.bookmaker_id bs))
       \/ exists b, b ∈ bs
                    /\ cb = database.ChannelBookmakerRow cid (database.bookmaker_id b)
                              (bool_decide (database.bookmaker_id b ∈ selected)).
Proof.
  cbn zeta. revert db. induction bs as [|b bs IH]; intros db.
  { cbn. split; [done|]. intros cb. split.
    - intros Hcb. left. split; [done|]. intros [_ Hin]. by apply elem_of_nil in Hin.
    - intros [[Hcb _]|(b & Hb & _)]; [done|]. by apply elem_of_nil in Hb. }
  cbn [fold_left].
  set (db1 := database.update_channel_bookmaker cid (database.bookmaker_id b)
                (bool_decide (database.bookmaker_id b ∈ selected)) db).
  destruct (IH db1) as [Hbk Hrows]. split; [by rewrite Hbk|].
  assert (H1 : forall cb,
            cb ∈ database.channel_bookmakers db1 <->
            (cb ∈ database.channel_bookmakers db
             /\ ~ (database.cb_channel_id cb = cid
                   /\ database.cb_bookmaker_id cb = database.bookmaker_id b))
            \/ cb = database.ChannelBookmakerRow cid (database.bookmaker_id b)
                      (bool_decide (database.bookmaker_id b ∈ selected))).
  { intros cb. unfold db1, database.update_channel_bookmaker. cbn.
    rewrite elem_of_app, list_elem_of_singleton, list_elem_of_In, filter_In.
    rewrite <- list_elem_of_In. unfold database.is_channel_bookmaker.
    rewrite negb_true_iff, andb_false_iff, !bool_decide_eq_false.
    split; (intros [[Hin Hn]|Heq]; [left; split; [done|]|by right]).
    - intros [Hc Hb]. by destruct Hn.
    - destruct (decide (database.cb_channel_id cb = cid)) as [Hc|Hc];
        [right; intros Hb; by apply Hn | by left]. }
  intros cb. split.
  - intros Hcb. apply Hrows in Hcb as [[Hcb1 Hnot]|(b' & Hb' & ->)].
    + apply H1 in Hcb1 as [[Hcb Hne]| ->].
      * left. split; [done|]. intros [Hc Hin]. cbn in Hin.
        apply elem_of_cons in Hin as [Hb|Hb];
          [by apply Hne | by apply Hnot].
      * right. exists b. split; [apply list_elem_of_here | done].
    + right. exists b'. split; [by apply list_elem_of_further | done].
  - intros [[Hcb Hnot]|(b' & Hb' & ->)].
    + apply Hrows. left. split.
      * apply H1. left. split; [done|]. intros [Hc Hb]. apply Hnot.
        split; [done|]. cbn. rewrite Hb. apply list_elem_of_here.
      * intros [Hc Hin]. apply Hnot. split; [done|]. cbn.
        by apply list_elem_of_further.
    + apply elem_of_cons in Hb' as [->|Hb'].
      * apply Hrows.
        destruct (decide (database.bookmaker_id b
                          ∈ List.map database.bookmaker_id bs)) as [Hin|Hnin].
        -- apply list_elem_of_In, in_map_iff in Hin as (b2 & Hid & Hb2).
           right. exists b2. split; [by apply list_elem_of_In|]. by rewrite Hid.
        -- left. split; [apply H1; by right|]. cbn. by intros [_ Hin].
      * apply Hrows. right. by exists b'.
Qed.

(** X17.  After an administrator saves a selection for a channel, the
    channel's effective list is the active bookmakers, each flagged
    selected exactly when its id is in the selection; so the channel
    accepts a bookmaker name when an active selected bookmaker bears it,
    and accepts every name when no active bookmaker is selected. *)
Theorem channel_selection_is_saved (from_user_id cid : Z) (selected : list Z)
    (db : database.t) :
  is_admin from_user_id db = true ->
  let db' := channel_save_bk_handler from_user_id selected cid db in
  (forall b sel,
     (b, sel) ∈ database.get_channel_bookmakers cid db'
     <-> b ∈ database.bookmakers db
         /\ database.bookmaker_is_active b = true
         /\ sel = bool_decide (database.bookmaker_id b ∈ selected))
  /\ forall bookmaker_name,
       channel_accepts db' cid bookmaker_name = true
       <-> (forall b, b ∈ database.bookmakers db ->
                      database.bookmaker_is_active b = true ->
                      database.bookmaker_id b ∉ selected)
           \/ exists b, b ∈ database.bookmakers db
                        /\ database.bookmaker_is_active b = true
                        /\ database.bookmaker_id b ∈ selected
                        /\ database.bookmaker_name b = bookmaker_name.
Proof.
  intros Hadmin. cbn zeta. unfold channel_save_bk_handler. rewrite Hadmin. cbn [negb].
  destruct (channel_save_fold cid selected (database.get_all_bookmakers db) db)
    as [Hbk Hrows]. cbn zeta in Hbk, Hrows.
  set (db' := fold_left _ (database.get_all_bookmakers db) db) in *.
  assert (Hlist : forall b sel,
            (b, sel) ∈ database.get_channel_bookmakers cid db'
            <-> b ∈ database.bookmakers db
                /\ database.bookmaker_is_active b = true
                /\ sel = bool_decide (database.bookmaker_id b ∈ selected)).
  { intros b sel. rewrite get_channel_bookmakers_elem, Hbk. split.
    - intros (Hb & Hact & cb & Hcb & Hc & Hid & Hsel). split; [done|]. split; [done|].
      apply Hrows in Hcb as [[_ Hnot]|(b' & _ & ->)].
      + destruct Hnot. split; [done|]. rewrite <- Hid.
        apply list_elem_of_In, in_map, list_elem_of_In.
        by apply get_all_bookmakers_elem.
      + cbn in *. by rewrite Hid.
    - intros (Hb & Hact & ->). split; [done|]. split; [done|].
      eexists. split; [apply Hrows; right; exists b; split; [|reflexivity]|by cbn].
      by apply get_all_bookmakers_elem. }
  split; [exact Hlist|].
  intros bookmaker_name. rewrite channel_accepts_iff. split.
  - intros [Hnone|(b & Hb & Hn)].
    + left. intros b Hb Hact Hin. apply (Hnone b), Hlist.
      by rewrite bool_decide_eq_true_2.
    + right. exists b. apply Hlist in Hb as (Hb & Hact & Hsel).
      symmetry in Hsel. apply bool_decide_eq_true in Hsel. by repeat split.
  - intros [Hnone|(b & Hb & Hact & Hin & Hn)].
    + left. intros b Hb. apply Hlist in Hb as (Hb & Hact & Hsel).
      symmetry in Hsel. apply bool_decide_eq_true in Hsel. by apply (Hnone b).
    + right. exists b. split; [|done]. apply Hlist.
      by rewrite bool_decide_eq_true_2.
Qed.

Lemma channel_selection_is_saved_witness :
  channel_accepts (channel_save_bk_handler 1 [2; 5] (-100) admin_store)
    (-100) "Fonbet" = true
  /\ channel_accepts (channel_save_bk_handler 1 [2; 5] (-100) admin_store)
       (-100) "Olimp" = false.
Proof.
  destruct (channel_selection_is_saved 1 (-100) [2; 5] admin_store eq_refl)
    as [_ Hacc].
  split.
  - apply Hacc. right.
    exists (database.BookmakerRow 2 "Fonbet" true). cbn.
    split; [apply list_elem_of_further, list_elem_of_here|].
    split; [done|]. split; [apply list_elem_of_here | done].
  - apply not_true_is_false. intros H. apply Hacc in H as [Hnone|(b & Hb & _ & Hin & Hn)].
    + apply (Hnone (database.BookmakerRow 2 "Fonbet" true)); cbn;
        [apply list_elem_of_further, list_elem_of_here | done
        | apply list_elem_of_here].
    + cbn in Hb. in_rows Hb; cbn in *; try discriminate.
      repeat (apply elem_of_cons in Hin as [Hin|Hin]; [discriminate Hin|]).
      by apply elem_of_nil in Hin.
Defined.

Lemma flat_map_nil_on {A B : Type} (g : A -> list B) (l : list A) :
  (forall x, x ∈ l -> g x = []) -> flat_map g l = [].
Proof.
  induction l as [|a l IH]; intros H; [reflexivity|]. cbn.
  rewrite (H a) by apply list_elem_of_here. apply IH.
  intros x Hx. apply H. by apply list_elem_of_further.
Qed.

Lemma flat_map_filter_on {A B : Type} (g : A -> list B) (f : A -> bool)
    (l : list A) :
  (forall x, f x = false -> g x = []) ->
  flat_map g (List.filter f l) = flat_map g l.
Proof.
  intros H. induction l as [|a l IH]; [reflexivity|]. cbn.
  destruct (f a) eqn:Hf; cbn; rewrite IH; [done|]. by rewrite (H a Hf).
Qed.

(** X18.  Saving a list of distinct bookmaker ids for a user replaces the
    user's preferences: the effective list is then the active bookmakers
    with an id in the list, the effective list of every other user is the
    same list as before, and an empty list makes the user a wildcard.  A
    list with a repeated id is refused and nothing is written. *)
Theorem user_selection_is_saved (uid : Z) (ids : list Z) (db : database.t) :
  (NoDup ids ->
   exists db',
     database.update_user_bookmakers uid ids db = Some db'
     /\ (forall b, b ∈ database.get_user_bookmakers uid db'
                   <-> b ∈ database.bookmakers db
                       /\ database.bookmaker_is_active b = true
                       /\ database.bookmaker_id b ∈ ids)
     /\ (forall uid', uid' ≠ uid ->
           database.get_user_bookmakers uid' db'
           = database.get_user_bookmakers uid' db)
     /\ (ids = [] -> forall name, user_accepts db' uid name = true))
  /\ (~ NoDup ids -> database.update_user_bookmakers uid ids db = None).
Proof.
  unfold database.update_user_bookmakers. split.
  - intros Hnd. rewrite bool_decide_eq_true_2 by done. eexists. split; [reflexivity|].
    assert (Hlist : forall b,
              b ∈ database.get_user_bookmakers uid
                    (database.set_user_bookmakers
                       (database.user_bookmakers
                          (database.clear_user_bookmakers uid db)
                        ++ List.map (database.UserBookmakerRow uid) ids)
                       (database.clear_user_bookmakers uid db))
              <-> b ∈ database.bookmakers db
                  /\ database.bookmaker_is_active b = true
                  /\ database.bookmaker_id b ∈ ids).
    { intros b. rewrite get_user_bookmakers_elem. cbn. split.
      - intros (Hb & Hact & ub & Hub & Hu & Hid). split; [done|]. split; [done|].
        apply elem_of_app in Hub as [Hub|Hub].
        + apply list_elem_of_In, filter_In in Hub as [_ Hne].
          apply negb_true_iff, bool_decide_eq_false in Hne. done.
        + apply list_elem_of_In, in_map_iff in Hub as (i & <- & Hi).
          cbn in Hid. rewrite Hid. by apply list_elem_of_In.
      - intros (Hb & Hact & Hin). split; [done|]. split; [done|].
        exists (database.UserBookmakerRow uid (database.bookmaker_id b)).
        split; [|done]. apply elem_of_app. right.
        apply list_elem_of_In, in_map. by apply list_elem_of_In. }
    split; [exact Hlist|]. split.
    + intros uid' Hne. unfold database.get_user_bookmakers. cbn.
      apply flat_map_ext. intros b. rewrite flat_map_app.
      rewrite (flat_map_nil_on _ (List.map _ ids)).
      2:{ intros ub Hub. apply list_elem_of_In, in_map_iff in Hub as (i & <- & _).
          cbn. rewrite (bool_decide_eq_false_2 (uid = uid')) by done.
          by rewrite andb_false_r. }
      rewrite app_nil_r. apply flat_map_filter_on.
      intros ub Hub. apply negb_false_iff, bool_decide_eq_true in Hub.
      rewrite (bool_decide_eq_false_2 (database.ub_user_id ub = uid')) by congruence.
      by rewrite andb_false_r.
    + intros -> name. apply user_accepts_wildcard, nil_iff_no_elem.
      intros b Hb. apply Hlist in Hb as (_ & _ & Hin). by apply elem_of_nil in Hin.
  - intros Hdup. by rewrite bool_decide_eq_false_2.
Qed.

Lemma user_selection_is_saved_witness :
  exists db',
    database.update_user_bookmakers 7 [2; 5] small_store = Some db'
    /\ (forall b, b ∈ database.get_user_bookmakers 7 db'
                  <-> b ∈ database.bookmakers small_store
                      /\ database.bookmaker_is_active b = true
                      /\ database.bookmaker_id b ∈ [2; 5])
    /\ (forall uid', uid' ≠ 7 ->
          database.get_user_bookmakers uid' db'
          = database.get_user_bookmakers uid' small_store)
    /\ ([2; 5] = [] -> forall name, user_accepts db' 7 name = true).
Proof.
  apply (user_selection_is_saved 7 [2; 5] small_store).
  apply NoDup_cons. split; [|apply NoDup_singleton].
  intros Hin. apply list_elem_of_singleton in Hin. discriminate.
Defined.

(** *** Switching a bookmaker off *)

(** X19.  After [toggle_bookmaker] switches a bookmaker off, it is in no
    user's and no channel's effective list, and the lists keep every
    other bookmaker they had. *)
Theorem switched_off_bookmaker_leaves_the_lists (bid : Z) (db : database.t) :
  (forall uid b,
     b ∈ database.get_user_bookmakers uid (database.toggle_bookmaker bid false db)
     <-> b ∈ database.get_user_bookmakers uid db /\ database.bookmaker_id b ≠ bid)
  /\ (forall cid b sel,
        (b, sel) ∈ database.get_channel_bookmakers cid
                     (database.toggle_bookmaker bid false db)
        <-> (b, sel) ∈ database.get_channel_bookmakers cid db
            /\ database.bookmaker_id b ≠ bid).
Proof.
  assert (Hbk : forall b,
            b ∈ database.bookmakers (database.toggle_bookmaker bid false db)
            /\ database.bookmaker_is_active b = true
            <-> b ∈ database.bookmakers db
                /\ database.bookmaker_is_active b = true
                /\ database.bookmaker_id b ≠ bid).
  { intros b. cbn. rewrite list_elem_of_In, in_map_iff. split.
    - intros [(b0 & Hb0 & Hin) Hact]. case_bool_decide; subst b; [done|].
      by rewrite list_elem_of_In.
    - intros (Hin & Hact & Hne). split; [|done]. exists b.
      rewrite bool_decide_eq_false_2 by done. by rewrite <- list_elem_of_In. }
  split.
  - intros uid b. rewrite !get_user_bookmakers_elem.
    change (database.user_bookmakers (database.toggle_bookmaker bid false db))
      with (database.user_bookmakers db).
    specialize (Hbk b). tauto.
  - intros cid b sel. rewrite !get_channel_bookmakers_elem.
    change (database.channel_bookmakers (database.toggle_bookmaker bid false db))
      with (database.channel_bookmakers db).
    specialize (Hbk b). tauto.
Qed.

(** X20.  For a channel id other than 0, [get_selected_channel_bookmakers]
    holds the bookmakers that [get_channel_bookmakers] flags as selected;
    for the id 0 it answers as without an id, for all channels at once. *)
Theorem selected_channel_bookmakers (db : database.t) :
  (forall cid b, cid ≠ 0 ->
     b ∈ database.get_selected_channel_bookmakers (Some cid) db
     <-> (b, true) ∈ database.get_channel_bookmakers cid db)
  /\ database.get_selected_channel_bookmakers (Some 0) db
     = database.get_selected_channel_bookmakers None db.
Proof.
  split; [|reflexivity].
  intros cid b Hne. rewrite get_channel_bookmakers_elem.
  unfold database.get_selected_channel_bookmakers.
  rewrite (bool_decide_eq_false_2 (cid = 0)) by done.
  rewrite list_elem_of_In, in_flat_map. split.
  - intros (b' & Hb' & Hin). apply in_flat_map in Hin as (cb & Hcb & Hin).
    destruct (_ && _ && _ && _) eqn:Hc; [|by destruct Hin].
    destruct Hin as [->|[]].
    apply andb_true_iff in Hc as [Hc Hact].
    apply andb_true_iff in Hc as [Hc Hsel].
    apply andb_true_iff in Hc as [Hid Hcid].
    apply bool_decide_eq_true in Hid, Hcid.
    split; [by apply list_elem_of_In|]. split; [done|].
    exists cb. by rewrite list_elem_of_In.
  - intros (Hb & Hact & cb & Hcb & Hcid & Hid & Hsel).
    exists b. split; [by apply list_elem_of_In|].
    apply in_flat_map. exists cb. split; [by apply list_elem_of_In|].
    rewrite Hact, Hsel, !bool_decide_eq_true_2 by done. by left.
Qed.

Lemma selected_channel_bookmakers_witness :
  database.BookmakerRow 2 "Fonbet" true
  ∈ database.get_selected_channel_bookmakers (Some (-100)) two_preferences_store.
Proof.
  apply (proj1 (selected_channel_bookmakers two_preferences_store) (-100));
    [done|].
  vm_compute. apply list_elem_of_In. by left.
Defined.

(** *** The bot is made administrator of a channel *)

Lemma get_channel_update_channel (cid : Z) (a : option bool) (n : option string)
    (db : database.t) :
  database.get_channel cid (database.update_channel cid a n db)
  = (fun r => database.ChannelRow (database.channel_id r)
                (default (database.channel_name r) n)
                (default (database.channel_is_active r) a)
                (database.created_at r))
    <$> database.get_channel cid db.
Proof.
  unfold database.get_channel, database.update_channel. cbn.
  induction (database.channels db) as [|r l IH]; [reflexivity|]. cbn.
  destruct (bool_decide (database.channel_id r = cid)) eqn:Hr; cbn;
    rewrite Hr; [reflexivity | exact IH].
Qed.

(** X21.  When the bot becomes administrator of a channel, the channel is
    afterwards registered, active and named by its title, whether it was
    unknown, known or switched off; a known channel keeps its selection
    rows.  Any other change of membership leaves the store alone. *)
Theorem bot_made_administrator (now cid : Z) (title : string) (db : database.t) :
  (exists row,
     database.get_channel cid (my_chat_member_handler now true cid title db)
     = Some row
     /\ database.channel_id row = cid
     /\ database.channel_is_active row = true
     /\ database.channel_name row = title)
  /\ (is_Some (database.get_channel cid db) ->
      database.channel_bookmakers (my_chat_member_handler now true cid title db)
      = database.channel_bookmakers db)
  /\ my_chat_member_handler now false cid title db = db.
Proof.
  unfold my_chat_member_handler. split; [|split; [|reflexivity]].
  - destruct (database.get_channel cid db) as [r|] eqn:Hr.
    + rewrite get_channel_update_channel, Hr. cbn. eexists. split; [reflexivity|].
      cbn. split; [|done]. apply find_some in Hr as [_ Hr].
      by apply bool_decide_eq_true in Hr.
    + rewrite get_channel_add_channel. eexists. by split.
  - intros [r Hr]. by rewrite Hr.
Qed.

Lemma bot_made_administrator_witness :
  database.channel_bookmakers
    (my_chat_member_handler 5 true (-100) "renamed" two_preferences_store)
  = database.channel_bookmakers two_preferences_store.
Proof.
  apply (proj1 (proj2 (bot_made_administrator 5 (-100) "renamed"
                         two_preferences_store))).
  vm_compute. by eexists.
Defined.

(** ** Further properties of the administration *)

Lemma find_app_first {A : Type} (f : A -> bool) (l k : list A) :
  List.find f (l ++ k)
  = match List.find f l with Some x => Some x | None => List.find f k end.
Proof.
  induction l as [|a l IH]; [reflexivity|]. cbn. by destruct (f a).
Qed.

Lemma existsb_find_none {A : Type} (f : A -> bool) (l : list A) :
  List.find f l = None -> existsb f l = false.
Proof.
  induction l as [|a l IH]; [reflexivity|]. cbn.
  destruct (f a); [discriminate | exact IH].
Qed.

Lemma add_user_new (uid : Z) (uname : option string) (admin : bool)
    (db : database.t) :
  database.get_user uid db = None ->
  database.add_user uid uname admin db
  = database.set_users
      (database.users db ++ [database.UserRow uid uname admin None false None]) db.
Proof.
  intros Hnone. unfold database.add_user.
  by rewrite (existsb_find_none _ _ Hnone).
Qed.

(** On a table with users [/start] only ever registers the sender. *)
Lemma start_command_only_registers (from_user_id : Z) (username : option string)
    (db : database.t) :
  database.users db ≠ [] ->
  only_registrations db (start_command_handler from_user_id username db).1.
Proof.
  intros Hne. unfold start_command_handler.
  destruct (database.get_user from_user_id db) as [row|] eqn:Hrow.
  - cbn. split; [exists []; split; [by rewrite app_nil_r|]|by repeat split].
    intros row' Hin. by apply elem_of_nil in Hin.
  - unfold is_users_db_empty, database.get_all_users.
    rewrite bool_decide_eq_false_2.
    2:{ destruct (database.users db); [done | cbn; lia]. }
    cbn [fst]. rewrite (add_user_new _ _ _ _ Hrow).
    split; [eexists; split; [cbn; reflexivity|]|repeat split].
    + intros row Hin. apply list_elem_of_singleton in Hin. by subst row.
    + intros uid. unfold is_admin, database.get_user. cbn.
      rewrite find_app_first. fold (database.get_user uid db).
      destruct (database.get_user uid db) as [r|] eqn:Hr; [done|]. cbn.
      by destruct (database.has_user_id uid _).
Qed.

(** X22.  [/start] makes the sender the main administrator exactly when
    the table of users is empty.  On a table with users it changes nobody's
    rights: a known sender leaves the store untouched; an unknown one gets
    a row as a plain user without subscription and is told so, and every
    row that existed stays as it is. *)
Theorem start_registers (from_user_id : Z) (username : option string)
    (db : database.t) :
  let result := start_command_handler from_user_id username db in
  (database.users db = [] ->
   database.users result.1
   = [database.UserRow from_user_id username true None false None]
   /\ result.2 = [WelcomeMainAdmin; AdminPanel])
  /\ (database.users db ≠ [] -> only_registrations db result.1)
  /\ (is_Some (database.get_user from_user_id db) -> result.1 = db)
  /\ (database.users db ≠ [] -> database.get_user from_user_id db = None ->
      database.get_user from_user_id result.1
      = Some (database.UserRow from_user_id username false None false None)
      /\ database.users result.1
         ≡ₚ database.UserRow from_user_id username false None false None
             :: database.users db
      /\ result.2 = [WelcomeRegistered; WelcomeWait]).
Proof.
  cbn zeta. split; [|split; [|split]].
  - unfold start_command_handler.
    intros Hempty. unfold database.get_user, is_users_db_empty,
      database.get_all_users. rewrite Hempty. cbn.
    unfold database.add_user. rewrite Hempty. cbn.
    rewrite (bool_decide_eq_true_2 (0%nat = 0%nat)) by done. cbn.
    unfold is_admin, database.get_user. cbn.
    unfold database.has_user_id. cbn. by rewrite bool_decide_eq_true_2.
  - apply start_command_only_registers.
  - unfold start_command_handler. intros [row Hrow]. by rewrite Hrow.
  - intros Hne Hnone. unfold start_command_handler. rewrite Hnone.
    unfold is_users_db_empty, database.get_all_users.
    rewrite bool_decide_eq_false_2.
    2:{ destruct (database.users db); [done | cbn; lia]. }
    rewrite (add_user_new _ _ _ _ Hnone).
    assert (Hget : database.get_user from_user_id
                     (database.set_users
                        (database.users db
                         ++ [database.UserRow from_user_id username false None
                               false None]) db)
                   = Some (database.UserRow from_user_id username false None
                             false None)).
    { unfold database.get_user. cbn. rewrite find_app_none.
      - cbn. unfold database.has_user_id. cbn. by rewrite bool_decide_eq_true_2.
      - intros x Hx. apply list_elem_of_In in Hx.
        by apply (find_none _ _ Hnone). }
    cbn [fst snd]. split; [exact Hget|]. split.
    + cbn. by rewrite Permutation_app_comm.
    + unfold is_admin. by rewrite Hget.
Qed.

Lemma start_registers_witness :
  only_registrations admin_store (start_command_handler 9 None admin_store).1
  /\ database.get_user 9 (start_command_handler 9 None admin_store).1
     = Some (database.UserRow 9 None false None false None)
  /\ (start_command_handler 9 None admin_store).2
     = [WelcomeRegistered; WelcomeWait].
Proof.
  destruct (start_registers 9 None admin_store) as (_ & Honly & _ & Hnew).
  split; [apply Honly; discriminate|].
  destruct Hnew as (Hget & _ & Hanswers); [discriminate | reflexivity |].
  by split.
Defined.

Lemma only_registrations_refl (db : database.t) : only_registrations db db.
Proof.
  split; [exists []; split; [by rewrite app_nil_r|]|by repeat split].
  intros row Hin. by apply elem_of_nil in Hin.
Qed.

Lemma only_registrations_trans (db1 db2 db3 : database.t) :
  only_registrations db1 db2 -> only_registrations db2 db3 ->
  only_registrations db1 db3.
Proof.
  intros ((n1 & U1 & A1) & S1 & P1 & B1 & UB1 & C1 & CB1 & L1 & I1)
         ((n2 & U2 & A2) & S2 & P2 & B2 & UB2 & C2 & CB2 & L2 & I2).
  split.
  - exists (n1 ++ n2). split; [by rewrite U2, U1, app_assoc|].
    intros row Hin. apply elem_of_app in Hin as [?|?]; auto.
  - repeat split; try congruence; try (intros uid; by rewrite I2).
Qed.

(** One update from a sender without rights, on a table with users. *)
Lemma handle_without_rights (db : database.t) (from_user_id : Z) (req : request) :
  database.users db ≠ [] ->
  is_admin from_user_id db = false ->
  only_registrations db (handle db (from_user_id, req)).
Proof.
  intros Hne Hnot. unfold handle.
  destruct req; try (by apply start_command_only_registers);
    unfold pause_subscription_handler, unpause_subscription_handler,
      set_admin_handler_from_list, cancel_subscription_handler,
      toggle_channel_status_handler, delete_channel_handler,
      admin_toggle_bk_handler, save_bk_handler, channel_save_bk_handler;
    rewrite Hnot; apply only_registrations_refl.
Qed.

(** X23.  No sequence of updates from senders without administrator
    rights changes the store of a bot that has users, apart from
    registering senders as plain users: subscriptions, pauses, rights,
    channels, bookmakers, preferences, limits and ledgers stay as they
    are, and nobody becomes an administrator. *)
Theorem no_rights_no_change (updates : list (Z * request)) (db : database.t) :
  database.users db ≠ [] ->
  (forall u, u ∈ updates -> is_admin u.1 db = false) ->
  only_registrations db (fold_left handle updates db).
Proof.
  revert db. induction updates as [|[from req] updates IH]; intros db Hne Hnot;
    [apply only_registrations_refl|].
  cbn [fold_left].
  assert (H1 : only_registrations db (handle db (from, req))).
  { apply handle_without_rights; [done|].
    apply (Hnot (from, req)), list_elem_of_here. }
  eapply only_registrations_trans; [exact H1|]. apply IH.
  - destruct H1 as ((new & Hu & _) & _). intros Hnil. rewrite Hnil in Hu.
    apply Permutation_nil, app_eq_nil in Hu as [Hu _]. by apply Hne.
  - intros u Hu. destruct H1 as (_ & _ & _ & _ & _ & _ & _ & _ & Hadm).
    rewrite Hadm. apply Hnot. by apply list_elem_of_further.
Qed.

Lemma no_rights_no_change_witness :
  only_registrations admin_store
    (fold_left handle
       [(7, SetAdmin 7); (9, Start None); (9, CancelSubscription 1);
        (7, DeleteChannel (-100)); (9, SaveBk [2] 7)]
       admin_store).
Proof.
  apply no_rights_no_change; [discriminate|].
  intros u Hu. in_rows Hu; reflexivity.
Defined.

(** ** Further properties of rendering and sending *)

(** *** Escaping *)

Lemma occurs_append (x : ascii) (a b : string) :
  occurs x (a +:+ b) = occurs x a || occurs x b.
Proof.
  induction a as [|c a IH]; [reflexivity|].
  change (String c a +:+ b) with (String c (a +:+ b)).
  cbn [occurs]. by rewrite IH, orb_assoc.
Qed.

(** After a replacement a character is absent when it is absent from the
    replacement text and was absent before or is the one replaced. *)
Lemma replace_absent (x c : ascii) (r s : string) :
  occurs x r = false ->
  x = c \/ occurs x s = false ->
  occurs x (Html.replace c r s) = false.
Proof.
  intros Hr Hs. induction s as [|y s IH]; [reflexivity|]. cbn.
  destruct (Ascii.eqb y c) eqn:Hyc.
  - rewrite occurs_append, Hr. cbn. apply IH.
    destruct Hs as [?|Hs]; [by left|]. right. cbn in Hs.
    by apply orb_false_iff in Hs as [_ ?].
  - cbn. destruct Hs as [->|Hs].
    + rewrite Hyc. cbn. apply IH. by left.
    + cbn in Hs. apply orb_false_iff in Hs as [Hy Hs]. rewrite Hy. cbn.
      apply IH. by right.
Qed.

Lemma replace_untouched (c : ascii) (r s : string) :
  occurs c s = false -> Html.replace c r s = s.
Proof.
  induction s as [|y s IH]; [reflexivity|]. cbn. intros H.
  apply orb_false_iff in H as [Hy Hs]. rewrite Hy. by rewrite IH.
Qed.

Lemma sub_tags_without_lt (s : string) :
  occurs "<" s = false -> Html.sub_tags false s = s.
Proof.
  induction s as [|y s IH]; [reflexivity|]. cbn. intros H.
  apply orb_false_iff in H as [Hy Hs]. rewrite Hy. cbn. by rewrite IH.
Qed.

Lemma escape_absent (s : string) :
  occurs "<" (Html.escape s) = false
  /\ occurs ">" (Html.escape s) = false
  /\ occurs Html.dquote (Html.escape s) = false
  /\ occurs "'" (Html.escape s) = false.
Proof.
  unfold Html.escape.
  set (s0 := Html.replace "&" "&amp;" s).
  assert (H1 : occurs "<" (Html.replace "<" "&lt;" s0) = false)
    by (apply replace_absent; [reflexivity | by left]).
  set (s1 := Html.replace "<" "&lt;" s0) in *.
  assert (H2 : occurs ">" (Html.replace ">" "&gt;" s1) = false)
    by (apply replace_absent; [reflexivity | by left]).
  assert (H2' : occurs "<" (Html.replace ">" "&gt;" s1) = false)
    by (apply replace_absent; [reflexivity | by right]).
  set (s2 := Html.replace ">" "&gt;" s1) in *.
  assert (H3 : occurs Html.dquote (Html.replace Html.dquote "&quot;" s2) = false)
    by (apply replace_absent; [reflexivity | by left]).
  assert (H3' : occurs "<" (Html.replace Html.dquote "&quot;" s2) = false)
    by (apply replace_absent; [reflexivity | by right]).
  assert (H3'' : occurs ">" (Html.replace Html.dquote "&quot;" s2) = false)
    by (apply replace_absent; [reflexivity | by right]).
  set (s3 := Html.replace Html.dquote "&quot;" s2) in *.
  repeat split; apply replace_absent; solve [reflexivity | by left | by right].
Qed.

(** X24.  [safe_html] returns a text without [<], [>], double quote and
    apostrophe, whatever it is given; its regular-expression pass never
    finds anything to replace after [html.escape]; a text with none of
    the five special characters is returned as it is, and [None] gives the
    empty text. *)
Theorem safe_html_is_safe (s : string) :
  occurs "<" (Html.safe_html (Some s)) = false
  /\ occurs ">" (Html.safe_html (Some s)) = false
  /\ occurs Html.dquote (Html.safe_html (Some s)) = false
  /\ occurs "'" (Html.safe_html (Some s)) = false
  /\ Html.safe_html (Some s) = Html.escape s
  /\ (occurs "&" s || occurs "<" s || occurs ">" s
      || occurs Html.dquote s || occurs "'" s = false ->
      Html.safe_html (Some s) = s)
  /\ Html.safe_html None = EmptyString.
Proof.
  destruct (escape_absent s) as (Hlt & Hgt & Hdq & Hap).
  assert (Hsame : Html.safe_html (Some s) = Html.escape s)
    by (unfold Html.safe_html; by apply sub_tags_without_lt).
  rewrite Hsame. repeat split; try done.
  intros Hnone. repeat (apply orb_false_iff in Hnone as [Hnone ?]).
  unfold Html.escape.
  rewrite (replace_untouched "&") by done.
  rewrite (replace_untouched "<") by done.
  rewrite (replace_untouched ">") by done.
  rewrite (replace_untouched Html.dquote) by done.
  by rewrite (replace_untouched "'").
Qed.

Lemma safe_html_is_safe_witness :
  Html.safe_html (Some "Team A - Team B") = "Team A - Team B"%string
  /\ occurs "<" (Html.safe_html (Some "<b>A & B</b>")) = false.
Proof.
  split.
  - destruct (safe_html_is_safe "Team A - Team B") as (_ & _ & _ & _ & _ & H & _).
    apply H. reflexivity.
  - by destruct (safe_html_is_safe "<b>A & B</b>") as (H & _).
Defined.

Example safe_html_example :
  Html.safe_html (Some "<b>A & B</b>") = "&lt;b&gt;A &amp; B&lt;/b&gt;"%string.
Proof. reflexivity. Qed.

(** *** Retrying a send *)

Lemma pow2_pos (j : nat) : 0 < 2 ^ Z.of_nat j.
Proof. apply Z.pow_pos_nonneg; lia. Qed.

Lemma pow2_succ (j : nat) : 2 ^ Z.of_nat (S j) = 2 * 2 ^ Z.of_nat j.
Proof. rewrite Nat2Z.inj_succ. apply Z.pow_succ_r. lia. Qed.

(** The loop from attempt [a] on, with [m] attempts left, when the first
    success is the attempt number [a + k]. *)
Lemma send_with_retry_loop_success (tg : telegram) (chat : Z) (text : prediction)
    (k : nat) :
  forall (a m : nat) (w : world),
    (k < m)%nat ->
    (forall i, (i < k)%nat -> raises tg (calls w + i) chat) ->
    send_message tg (calls w + k) chat = Returned tt ->
    let r := send_with_retry_loop tg chat text (Z.of_nat (a + m))
               (List.map Z.of_nat (seq a m)) w in
    r.1 = true
    /\ store r.2 = store w
    /\ calls r.2 = (calls w + k + 1)%nat
    /\ now r.2 = now w + 2 ^ Z.of_nat (a + k) - 2 ^ Z.of_nat a
    /\ length (trace r.2) = (length (trace w) + 2 * k + 1)%nat.
Proof.
  induction k as [|k IH]; intros a m w Hkm Hraise Hret; cbn zeta.
  - destruct m as [|m]; [lia|]. cbn [seq List.map send_with_retry_loop].
    unfold bot_send_message. rewrite Nat.add_0_r in Hret. rewrite Hret.
    cbn. replace (a + 0)%nat with a by lia. rewrite length_app. cbn.
    repeat split; lia.
  - destruct m as [|m]; [lia|]. cbn [seq List.map send_with_retry_loop].
    unfold bot_send_message.
    destruct (Hraise 0%nat ltac:(lia)) as [e He]. rewrite Nat.add_0_r in He.
    rewrite He.
    replace (Z.of_nat a <? Z.of_nat (a + S m) - 1) with true
      by (symmetry; apply Z.ltb_lt; lia).
    replace (a + S m)%nat with (S a + m)%nat by lia.
    match goal with
    | |- context [send_with_retry_loop _ _ _ _ _ ?w2] => set (w1 := w2)
    end.
    destruct (IH (S a) m w1) as (Hr & Hs & Hc & Hn & Ht).
    + lia.
    + intros i Hi. replace (calls w1 + i)%nat with (calls w + S i)%nat
        by (cbn; lia). apply Hraise. lia.
    + replace (calls w1 + k)%nat with (calls w + S k)%nat by (cbn; lia). done.
    + split; [done|]. split; [by rewrite Hs|]. split; [rewrite Hc; cbn; lia|].
      split.
      * rewrite Hn. cbn [now w1 asyncio_sleep].
        pose proof (pow2_pos a). rewrite Z.max_r by lia.
        replace (S a + k)%nat with (a + S k)%nat by lia.
        rewrite (pow2_succ a). lia.
      * rewrite Ht. cbn [trace w1 asyncio_sleep]. rewrite !length_app. cbn. lia.
Qed.

(** The loop from attempt [a] on when all [m] attempts left fail. *)
Lemma send_with_retry_loop_failure (tg : telegram) (chat : Z) (text : prediction)
    (m : nat) :
  forall (a : nat) (w : world),
    (forall i, (i < S m)%nat -> raises tg (calls w + i) chat) ->
    let r := send_with_retry_loop tg chat text (Z.of_nat (a + S m))
               (List.map Z.of_nat (seq a (S m))) w in
    r.1 = false
    /\ store r.2 = store w
    /\ calls r.2 = (calls w + S m)%nat
    /\ now r.2 = now w + 2 ^ Z.of_nat (a + m) - 2 ^ Z.of_nat a
    /\ length (trace r.2) = (length (trace w) + 2 * m + 1)%nat.
Proof.
  induction m as [|m IH]; intros a w Hraise; cbn zeta.
  - cbn [seq List.map send_with_retry_loop]. unfold bot_send_message.
    destruct (Hraise 0%nat ltac:(lia)) as [e He]. rewrite Nat.add_0_r in He.
    rewrite He.
    replace (Z.of_nat a <? Z.of_nat (a + 1) - 1) with false
      by (symmetry; apply Z.ltb_ge; lia).
    cbn. replace (a + 0)%nat with a by lia. rewrite length_app. cbn.
    repeat split; lia.
  - change (seq a (S (S m))) with (a :: seq (S a) (S m)).
    cbn [List.map]. cbn [send_with_retry_loop]. unfold bot_send_message.
    destruct (Hraise 0%nat ltac:(lia)) as [e He]. rewrite Nat.add_0_r in He.
    rewrite He.
    replace (Z.of_nat a <? Z.of_nat (a + S (S m)) - 1) with true
      by (symmetry; apply Z.ltb_lt; lia).
    replace (a + S (S m))%nat with (S a + S m)%nat by lia.
    match goal with
    | |- context [send_with_retry_loop _ _ _ _ _ ?w2] => set (w1 := w2)
    end.
    destruct (IH (S a) w1) as (Hr & Hs & Hc & Hn & Ht).
    + intros i Hi. replace (calls w1 + i)%nat with (calls w + S i)%nat
        by (cbn; lia). apply Hraise. lia.
    + split; [done|]. split; [by rewrite Hs|]. split; [rewrite Hc; cbn; lia|].
      split.
      * rewrite Hn. cbn [now w1 asyncio_sleep].
        pose proof (pow2_pos a). rewrite Z.max_r by lia.
        replace (S a + m)%nat with (a + S m)%nat by lia.
        rewrite (pow2_succ a). lia.
      * rewrite Ht. cbn [trace w1 asyncio_sleep]. rewrite !length_app. cbn. lia.
Qed.

(** X25.  [send_with_retry] with [n] retries allowed: if the attempt
    number [k] (from 0, [k < n]) is the first to succeed it returns true
    after [k + 1] sends and [2^k - 1] seconds of sleep; if all [n]
    attempts fail it returns false after [n] sends and [2^(n-1) - 1]
    seconds, with no sleep after the last one; with no retry allowed it
    returns false without sending.  The store is never touched. *)
Theorem send_with_retry_backoff (tg : telegram) (chat : Z) (text : prediction)
    (w : world) :
  (forall (n k : nat),
     (k < n)%nat ->
     (forall i, (i < k)%nat -> raises tg (calls w + i) chat) ->
     send_message tg (calls w + k) chat = Returned tt ->
     let r := send_with_retry tg chat text (Z.of_nat n) w in
     r.1 = true /\ store r.2 = store w
     /\ calls r.2 = (calls w + k + 1)%nat
     /\ now r.2 = now w + 2 ^ Z.of_nat k - 1
     /\ length (trace r.2) = (length (trace w) + 2 * k + 1)%nat)
  /\ (forall (n : nat),
        (forall i, (i < S n)%nat -> raises tg (calls w + i) chat) ->
        let r := send_with_retry tg chat text (Z.of_nat (S n)) w in
        r.1 = false /\ store r.2 = store w
        /\ calls r.2 = (calls w + S n)%nat
        /\ now r.2 = now w + 2 ^ Z.of_nat n - 1
        /\ length (trace r.2) = (length (trace w) + 2 * n + 1)%nat)
  /\ (forall max_retries, max_retries <= 0 ->
        send_with_retry tg chat text max_retries w = (false, w)).
Proof.
  split; [|split].
  - intros n k Hkn Hraise Hret. cbn zeta. unfold send_with_retry.
    rewrite Nat2Z.id.
    pose proof (send_with_retry_loop_success tg chat text k 0 n w Hkn Hraise Hret)
      as H. cbn zeta in H. cbn [Nat.add] in H. exact H.
  - intros n Hraise. cbn zeta. unfold send_with_retry. rewrite Nat2Z.id.
    pose proof (send_with_retry_loop_failure tg chat text n 0 w Hraise) as H.
    cbn zeta in H. cbn [Nat.add] in H. exact H.
  - intros max_retries Hle. unfold send_with_retry.
    replace (Z.to_nat max_retries) with 0%nat by lia. reflexivity.
Qed.

Lemma send_with_retry_backoff_witness :
  (send_with_retry (tg_retry_at 0) 7 (scenario_prediction "Fonbet") 3
     (start small_store)).1 = true
  /\ now (send_with_retry (tg_retry_at 0) 7 (scenario_prediction "Fonbet") 3
            (start small_store)).2 = 1000 + 2 ^ 1 - 1
  /\ (send_with_retry tg_flood 7 (scenario_prediction "Fonbet") 3
        (start small_store)).1 = false
  /\ now (send_with_retry tg_flood 7 (scenario_prediction "Fonbet") 3
            (start small_store)).2 = 1000 + 2 ^ 2 - 1.
Proof.
  destruct (send_with_retry_backoff (tg_retry_at 0) 7 (scenario_prediction "Fonbet")
              (start small_store)) as (Hok & _ & _).
  destruct (Hok 3%nat 1%nat) as (Hr & _ & _ & Hn & _).
  { lia. }
  { intros i Hi. assert (i = 0%nat) as -> by lia. by eexists. }
  { reflexivity. }
  destruct (send_with_retry_backoff tg_flood 7 (scenario_prediction "Fonbet")
              (start small_store)) as (_ & Hfail & _).
  destruct (Hfail 2%nat) as (Hr' & _ & _ & Hn' & _).
  { intros i _. by eexists. }
  repeat split; assumption.
Defined.

(** ** Further properties of fingerprints and of the administration *)

(** *** The time of day is not part of the fingerprint *)

Lemma digit_is_not_space (c : ascii) :
  PyStr.is_digit c = true -> PyStr.is_space c = false.
Proof.
  destruct c as [[] [] [] [] [] [] [] []]; try discriminate; reflexivity.
Qed.

Lemma rstrip_cons (c : ascii) (s : string) :
  PyStr.is_space c = false ->
  PyStr.rstrip (String c s) = String c (PyStr.rstrip s).
Proof.
  intros Hc. cbn. rewrite Hc. by destruct (PyStr.rstrip s).
Qed.

Lemma date_short_day_month (a b d e : ascii) (rest : string) :
  PyStr.is_digit a = true -> PyStr.is_digit b = true ->
  PyStr.is_digit d = true -> PyStr.is_digit e = true ->
  date_short
    (PyStr.strip (String a (String b (String "/" (String d (String e rest))))))
  = String a (String b (String "/" (String d (String e EmptyString)))).
Proof.
  intros Ha Hb Hd He. unfold PyStr.strip.
  cbn [PyStr.lstrip]. rewrite (digit_is_not_space a Ha).
  rewrite (rstrip_cons a) by by apply digit_is_not_space.
  rewrite (rstrip_cons b) by by apply digit_is_not_space.
  rewrite (rstrip_cons "/") by reflexivity.
  rewrite (rstrip_cons d) by by apply digit_is_not_space.
  rewrite (rstrip_cons e) by by apply digit_is_not_space.
  unfold date_short, PyStr.re_match_date. rewrite Ha, Hb, Hd, He. reflexivity.
Qed.

(** X26.  Whatever follows the day and month in the date field, a time of
    day or a year, is not part of the key: two predictions that differ only
    there have the same key, which holds the five characters [dd/mm]. *)
Theorem key_ignores_time_of_day (p : prediction) (a b d e : ascii)
    (rest rest' : string) :
  PyStr.is_digit a = true -> PyStr.is_digit b = true ->
  PyStr.is_digit d = true -> PyStr.is_digit e = true ->
  let date r := String a (String b (String "/" (String d (String e r)))) in
  get_match_key (<["date" := date rest]> p)
  = PyStr.strip (get p "sport") +:+ "|" +:+ date EmptyString +:+ "|"
      +:+ PyStr.strip (get p "teams")
  /\ get_match_key (<["date" := date rest]> p)
     = get_match_key (<["date" := date rest']> p).
Proof.
  intros Ha Hb Hd He date.
  assert (Hkey : forall r,
            get_match_key (<["date" := date r]> p)
            = PyStr.strip (get p "sport") +:+ "|" +:+ date EmptyString +:+ "|"
                +:+ PyStr.strip (get p "teams")).
  { intros r. unfold get_match_key. cbn zeta.
    rewrite (get_insert_ne _ "date" "sport") by done.
    rewrite (get_insert_ne _ "date" "teams") by done.
    replace (get (<["date" := date r]> p) "date") with (date r)
      by (unfold get; by rewrite lookup_insert_eq).
    unfold date. by rewrite date_short_day_month. }
  split; [apply Hkey|]. by rewrite !Hkey.
Qed.

Lemma key_ignores_time_of_day_witness :
  get_match_key (<["date" := "12/05 18:30"]> (scenario_prediction "Fonbet"))
  = get_match_key (<["date" := "12/05 21:00 2025"]> (scenario_prediction "Fonbet")).
Proof.
  apply (key_ignores_time_of_day (scenario_prediction "Fonbet")
           "1" "2" "0" "5" " 18:30" " 21:00 2025"); reflexivity.
Defined.

(** *** The selection dialogue *)

Lemma filter_other_than (bid : Z) (sel : list Z) :
  bid ∉ sel ->
  List.filter (fun bk_id => negb (bool_decide (bk_id = bid))) sel = sel.
Proof.
  induction sel as [|y sel IH]; [reflexivity|]. intros Hnot.
  apply not_elem_of_cons in Hnot as [Hne Hnot]. cbn.
  rewrite bool_decide_eq_false_2 by congruence. cbn. by rewrite IH.
Qed.

(** X27.  The dialogue in which an administrator picks bookmakers.  The
    button of a bookmaker takes its id out of the selection when it is in
    and appends it otherwise, so that pressing it twice on a selection
    without the id gives the selection back.  The button for all looks at
    the size of the selection only; from the empty selection it selects
    exactly the active bookmakers, and pressed again it clears the
    selection. *)
Theorem selection_dialogue (from_user_id : Z) (db : database.t) :
  is_admin from_user_id db = true ->
  (forall bid sel x,
     x ∈ toggle_bk_handler from_user_id bid sel db
     <-> (x = bid /\ bid ∉ sel) \/ (x ≠ bid /\ x ∈ sel))
  /\ (forall bid sel, bid ∉ sel ->
        toggle_bk_handler from_user_id bid
          (toggle_bk_handler from_user_id bid sel db) db = sel)
  /\ (forall sel sel', length sel = length sel' ->
        toggle_all_bk_handler from_user_id sel db
        = toggle_all_bk_handler from_user_id sel' db)
  /\ (forall x, x ∈ toggle_all_bk_handler from_user_id [] db
        <-> exists b, b ∈ database.bookmakers db
                      /\ database.bookmaker_is_active b = true
                      /\ database.bookmaker_id b = x)
  /\ toggle_all_bk_handler from_user_id
       (toggle_all_bk_handler from_user_id [] db) db = [].
Proof.
  intros Hadm. unfold toggle_bk_handler, toggle_all_bk_handler.
  rewrite Hadm. cbn [negb]. split; [|split; [|split; [|split]]].
  - intros bid sel x. case_bool_decide as Hin.
    + rewrite list_elem_of_In, filter_In, <- list_elem_of_In.
      rewrite negb_true_iff, bool_decide_eq_false. tauto.
    + rewrite elem_of_app, list_elem_of_singleton. split.
      * intros [Hx| ->]; [|by left]. right. split; [|done]. by intros ->.
      * tauto.
  - intros bid sel Hnot. rewrite (bool_decide_eq_false_2 _ Hnot).
    rewrite bool_decide_eq_true_2
      by (apply elem_of_app; right; by apply list_elem_of_singleton).
    rewrite List.filter_app, (filter_other_than _ _ Hnot). cbn.
    rewrite bool_decide_eq_true_2 by done. cbn. by rewrite app_nil_r.
  - intros sel sel' Hlen. by rewrite Hlen.
  - intros x. split.
    + case_bool_decide as Hlen.
      * intros Hin. by apply elem_of_nil in Hin.
      * rewrite list_elem_of_In, in_map_iff. intros (b & <- & Hb).
        apply filter_In in Hb as [Hb Hact]. exists b.
        by rewrite <- get_all_bookmakers_elem, list_elem_of_In.
    + intros (b & Hb & Hact & <-). case_bool_decide as Hlen.
      * apply get_all_bookmakers_elem, list_elem_of_In in Hb.
        assert (Hf : In b (List.filter database.bookmaker_is_active
                             (database.get_all_bookmakers db)))
          by (by apply filter_In).
        destruct (List.filter _ _); [destruct Hf | discriminate Hlen].
      * apply list_elem_of_In, in_map_iff. exists b. split; [done|].
        apply filter_In. split; [|done].
        by apply list_elem_of_In, get_all_bookmakers_elem.
  - set (active := List.filter _ _).
    destruct (decide (length (@nil Z) = length active)) as [Hlen|Hlen].
    + by rewrite !(bool_decide_eq_true_2 _ Hlen).
    + rewrite (bool_decide_eq_false_2 _ Hlen).
      rewrite bool_decide_eq_true_2; [done|]. by rewrite length_map.
Qed.

Lemma selection_dialogue_witness :
  toggle_bk_handler 1 4 (toggle_bk_handler 1 4 [2; 5] admin_store) admin_store
  = [2; 5]
  /\ toggle_all_bk_handler 1 [2; 5] admin_store
     = toggle_all_bk_handler 1 [7; 7] admin_store.
Proof.
  destruct (selection_dialogue 1 admin_store) as (_ & Htwice & Hsize & _);
    [reflexivity|].
  split.
  - apply Htwice. intros Hin.
    repeat (apply elem_of_cons in Hin as [Hin|Hin]; [discriminate Hin|]).
    by apply elem_of_nil in Hin.
  - by apply Hsize.
Defined.

(** *** The table of bookmakers *)

Lemma existsb_name_false (name : string) (bs : list database.bookmaker_row) :
  existsb (fun b => bool_decide (database.bookmaker_name b = name)) bs = false
  <-> name ∉ List.map database.bookmaker_name bs.
Proof.
  induction bs as [|b bs IH]; cbn.
  - split; [intros _ Hin; by apply elem_of_nil in Hin | done].
  - rewrite orb_false_iff, IH, not_elem_of_cons, bool_decide_eq_false.
    split; intros [? ?]; split; congruence.
Qed.

(** X28.  [add_bookmaker] keeps the names of the table unique: a name
    that is there is not added again and the store stays as it is,
    whatever row id the insert would have used; a new name is appended
    as an active bookmaker.  Either way the name is listed afterwards and
    no row is lost. *)
Theorem add_bookmaker_keeps_names_unique (rowid : Z) (name : string)
    (db : database.t) :
  let db' := database.add_bookmaker rowid name db in
  (exists b, b ∈ database.get_all_bookmakers db'
             /\ database.bookmaker_name b = name)
  /\ (forall b, b ∈ database.bookmakers db -> b ∈ database.bookmakers db')
  /\ (NoDup (List.map database.bookmaker_name (database.bookmakers db)) ->
      NoDup (List.map database.bookmaker_name (database.bookmakers db')))
  /\ (forall rowid', database.add_bookmaker rowid' name db' = db')
  /\ (name ∈ List.map database.bookmaker_name (database.bookmakers db) ->
      db' = db)
  /\ (name ∉ List.map database.bookmaker_name (database.bookmakers db) ->
      database.bookmakers db'
      = database.bookmakers db ++ [database.BookmakerRow rowid name true]).
Proof.
  cbn zeta. unfold database.add_bookmaker.
  destruct (existsb _ (database.bookmakers db)) eqn:Hex.
  - assert (Hin : name ∈ List.map database.bookmaker_name (database.bookmakers db)).
    { apply existsb_exists in Hex as (b & Hb & Hn).
      apply bool_decide_eq_true in Hn. subst name.
      apply list_elem_of_In, in_map, Hb. }
    split; [|split; [|split; [|split; [|split]]]]; try done.
    + apply list_elem_of_In, in_map_iff in Hin as (b & Hn & Hb).
      exists b. split; [|done].
      by apply get_all_bookmakers_elem, list_elem_of_In.
    + intros rowid'. by rewrite Hex.
  - assert (Hnot : name ∉ List.map database.bookmaker_name (database.bookmakers db))
      by (by apply existsb_name_false).
    split; [|split; [|split; [|split; [|split]]]]; try done.
    + exists (database.BookmakerRow rowid name true). split; [|done].
      apply get_all_bookmakers_elem. cbn. apply elem_of_app. right.
      by apply list_elem_of_singleton.
    + intros b Hb. cbn. apply elem_of_app. by left.
    + intros Hnd. cbn. rewrite map_app. apply NoDup_app. split; [done|].
      split; [|cbn; apply NoDup_singleton].
      intros x Hx Hx'. cbn in Hx'. apply list_elem_of_singleton in Hx'.
      by subst x.
    + intros rowid'. cbn. rewrite existsb_app. cbn.
      by rewrite bool_decide_eq_true_2, orb_true_r.
Qed.

Lemma add_bookmaker_keeps_names_unique_witness :
  database.add_bookmaker 9 "Fonbet" small_store = small_store
  /\ database.bookmakers (database.add_bookmaker 6 "Pinnacle" small_store)
     = default_bookmakers ++ [database.BookmakerRow 6 "Pinnacle" true].
Proof.
  split.
  - apply (add_bookmaker_keeps_names_unique 9 "Fonbet" small_store).
    apply list_elem_of_In. right. by left.
  - apply (add_bookmaker_keeps_names_unique 6 "Pinnacle" small_store).
    intros Hin.
    repeat (apply elem_of_cons in Hin as [Hin|Hin]; [discriminate Hin|]).
    by apply elem_of_nil in Hin.
Defined.

(** *** Switching a bookmaker or a channel off and on again *)

Lemma find_unique {A : Type} (f : A -> Z) (x : Z) (l : list A) (b : A) :
  NoDup (List.map f l) -> b ∈ l -> f b = x ->
  List.find (fun r => bool_decide (f r = x)) l = Some b.
Proof.
  induction l as [|a l IH]; intros Hnd Hin Hfb.
  - by apply elem_of_nil in Hin.
  - cbn in Hnd. apply NoDup_cons in Hnd as [Hnot Hnd]. cbn.
    apply elem_of_cons in Hin as [->|Hin].
    + by rewrite bool_decide_eq_true_2.
    + rewrite bool_decide_eq_false_2; [by apply IH|].
      intros Hfa. apply Hnot. rewrite Hfa, <- Hfb.
      apply list_elem_of_In, in_map. by apply list_elem_of_In.
Qed.

(** Writing a flag to the row with a given key and writing the old flag
    back, on a table in which the key is unique. *)
Lemma map_back {A : Type} (f : A -> Z) (g g' : A -> A) (x : Z) (l : list A)
    (b : A) :
  NoDup (List.map f l) -> b ∈ l -> f b = x ->
  (forall r, f (g r) = f r) ->
  g' (g b) = b ->
  List.map (fun r => if bool_decide (f r = x) then g' r else r)
    (List.map (fun r => if bool_decide (f r = x) then g r else r) l) = l.
Proof.
  intros Hnd Hin Hfb Hg Hback. rewrite List.map_map.
  rewrite <- (List.map_id l) at 2. apply map_ext_in. intros r Hr.
  destruct (bool_decide (f r = x)) eqn:Hfr.
  - rewrite Hg, Hfr. apply bool_decide_eq_true in Hfr.
    apply list_elem_of_In in Hr.
    pose proof (find_unique f x l r Hnd Hr Hfr) as H1.
    pose proof (find_unique f x l b Hnd Hin Hfb) as H2.
    assert (r = b) as -> by congruence. exact Hback.
  - by rewrite Hfr.
Qed.

(** X29.  On tables whose ids are unique, an administrator who presses the
    activity button of a bookmaker, or of a channel, twice gets the store
    back as it was. *)
Theorem switch_pressed_twice (from_user_id : Z) (db : database.t) :
  is_admin from_user_id db = true ->
  (forall bid,
     NoDup (List.map database.bookmaker_id (database.bookmakers db)) ->
     admin_toggle_bk_handler from_user_id bid
       (admin_toggle_bk_handler from_user_id bid db) = db)
  /\ (forall cid,
        NoDup (List.map database.channel_id (database.channels db)) ->
        toggle_channel_status_handler from_user_id cid
          (toggle_channel_status_handler from_user_id cid db) = db).
Proof.
  intros Hadm. split.
  - intros bid Hnd. unfold admin_toggle_bk_handler at 2. rewrite Hadm. cbn [negb].
    destruct (find_bookmaker bid (database.get_all_bookmakers db)) as [b|] eqn:Hb.
    2:{ unfold admin_toggle_bk_handler. by rewrite Hadm, Hb. }
    apply find_some in Hb as [Hb Hid]. apply bool_decide_eq_true in Hid.
    apply list_elem_of_In, get_all_bookmakers_elem in Hb.
    set (db1 := database.toggle_bookmaker bid
                  (negb (database.bookmaker_is_active b)) db).
    set (b1 := database.BookmakerRow (database.bookmaker_id b)
                 (database.bookmaker_name b)
                 (negb (database.bookmaker_is_active b))).
    assert (Hids : List.map database.bookmaker_id (database.bookmakers db1)
                   = List.map database.bookmaker_id (database.bookmakers db)).
    { cbn. rewrite List.map_map. apply map_ext. intros r. by case_bool_decide. }
    assert (Hb1 : b1 ∈ database.get_all_bookmakers db1).
    { apply get_all_bookmakers_elem. cbn. apply list_elem_of_In, in_map_iff.
      exists b. split; [by rewrite bool_decide_eq_true_2|by apply list_elem_of_In]. }
    assert (Hfind : find_bookmaker bid (database.get_all_bookmakers db1) = Some b1).
    { apply find_unique; [|done|done].
      apply NoDup_ListNoDup. eapply Permutation_NoDup;
        [apply Permutation_map; symmetry; apply merge_sort_Permutation|].
      apply NoDup_ListNoDup. by rewrite Hids. }
    unfold admin_toggle_bk_handler.
    replace (is_admin from_user_id db1) with true by (symmetry; exact Hadm).
    cbn [negb]. rewrite Hfind. cbn [database.bookmaker_is_active b1].
    rewrite negb_involutive. unfold db1, database.toggle_bookmaker.
    destruct db as [us sp ups bs ubs cs cbs ls]. unfold database.set_bookmakers.
    cbn in *. f_equal.
    apply (map_back database.bookmaker_id _ _ bid bs b Hnd Hb Hid); [done|].
    by destruct b.
  - intros cid Hnd. unfold toggle_channel_status_handler at 2.
    rewrite Hadm. cbn [negb].
    destruct (database.get_channel cid db) as [c|] eqn:Hc.
    2:{ unfold toggle_channel_status_handler. by rewrite Hadm, Hc. }
    set (db1 := database.update_channel cid
                  (Some (negb (database.channel_is_active c))) None db).
    unfold toggle_channel_status_handler.
    replace (is_admin from_user_id db1) with true by (symmetry; exact Hadm).
    cbn [negb]. unfold db1 at 1. rewrite get_channel_update_channel, Hc.
    cbn [fmap option_fmap option_map default database.channel_is_active].
    unfold id. rewrite negb_involutive.
    apply find_some in Hc as [Hc Hid]. apply bool_decide_eq_true in Hid.
    apply list_elem_of_In in Hc.
    unfold db1, database.update_channel.
    destruct db as [us sp ups bs ubs cs cbs ls]. unfold database.set_channels.
    cbn in *. f_equal.
    apply (map_back database.channel_id _ _ cid cs c Hnd Hc Hid); [done|].
    by destruct c.
Qed.

Lemma switch_pressed_twice_witness :
  admin_toggle_bk_handler 1 2 (admin_toggle_bk_handler 1 2 admin_store)
  = admin_store
  /\ toggle_channel_status_handler 1 (-100)
       (toggle_channel_status_handler 1 (-100) admin_store) = admin_store.
Proof.
  destruct (switch_pressed_twice 1 admin_store) as [Hbk Hch]; [reflexivity|].
  split.
  - apply Hbk. refine (bool_decide_unpack _ _). by vm_compute.
  - apply Hch. refine (bool_decide_unpack _ _). by vm_compute.
Defined.

(** *** New signal limits *)

Lemma get_signal_limits_set (max_signals pause_after pause_hours : Z)
    (db : database.t) :
  database.get_signal_limits
    (database.set_signal_limits max_signals pause_after pause_hours db)
  = database.SignalLimits max_signals pause_after pause_hours.
Proof.
  unfold database.get_signal_limits, database.set_signal_limits. cbn.
  by rewrite last_snoc.
Qed.

(** X30.  [set_signal_limits] adds a row to the table and that row is in
    force afterwards, whatever rows the table held.  The pass that follows
    holds every user to the new maximum: no count for any day goes beyond
    it, or beyond where it was. *)
Theorem new_limits_apply (tg : telegram) (predictions : option (list prediction))
    (w : world) (max_signals pause_after pause_hours uid day : Z) :
  let w' := with_store
              (database.set_signal_limits max_signals pause_after pause_hours) w in
  database.get_signal_limits (store w')
  = database.SignalLimits max_signals pause_after pause_hours
  /\ length (database.signal_limits (store w'))
     = S (length (database.signal_limits (store w)))
  /\ signals_on day uid
       (store (send_predictions_to_subscribed_users tg predictions w'))
     <= Z.max (signals_on day uid (store w)) max_signals.
Proof.
  cbn zeta. split; [apply get_signal_limits_set|]. split.
  - cbn. rewrite length_app. cbn. lia.
  - destruct (pass_quota_kept tg predictions
                (with_store (database.set_signal_limits max_signals pause_after
                               pause_hours) w)) as [_ H].
    specialize (H eq_refl uid day).
    change (store (with_store
                     (database.set_signal_limits max_signals pause_after
                        pause_hours) w))
      with (database.set_signal_limits max_signals pause_after pause_hours
              (store w)) in H.
    rewrite get_signal_limits_set in H. exact H.
Qed.
